(** * SetupRunner: Audit -> Plan -> Execute

    A shallow embedding of the SetupRunner module (types.ts, Planner.ts,
    Executor.ts, Auditor.ts, dependencyConfig.ts) and the properties of its
    specification.

    Conventions.
    - JavaScript strings are modelled as [string]; the marker tokens searched
      for in terminal output are ASCII, so searching bytes or UTF-16 code
      units finds the same occurrences.
    - Asynchronous functions are modelled in a small monad [M] that threads
      the module state and the log of observable actions, and whose results
      are [Ok], [Throw] (a rejected promise / thrown Error) or [Pending]
      (a promise that never settles).
    - The host (operating system, child processes, terminal output, clock,
      files, dialogs) is a record [World] of oracles. *)

From Stdlib Require Import String Ascii List Bool Arith ZArith Lia.
From Stdlib Require Import DecimalString DecimalZ DecimalNat.
Import ListNotations.

Local Open Scope list_scope.
Local Open Scope string_scope.

(* ------------------------------------------------------------------ *)
(** ** JavaScript string primitives used by the sources *)

Module Js.

(** The double quote and line feed characters. *)
Definition dquote : ascii := "034"%char.
Definition lf : ascii := "010"%char.
Definition dq : string := String dquote EmptyString.

(** [s.startsWith(p)] *)
Definition startsWith (s p : string) : bool := String.prefix p s.

(** [hay.includes(needle)] *)
Fixpoint includes (hay needle : string) : bool :=
  if String.prefix needle hay then true
  else match hay with
       | EmptyString => false
       | String _ rest => includes rest needle
       end.

(** [s.split(c)] for a one-character separator: never the empty list. *)
Fixpoint split (c : ascii) (s : string) : list string :=
  match s with
  | EmptyString => [EmptyString]
  | String a rest =>
      if Ascii.eqb a c then EmptyString :: split c rest
      else match split c rest with
           | [] => [String a EmptyString]
           | piece :: pieces => String a piece :: pieces
           end
  end.

(** [s.replace(/c/g, '')] for a one-character pattern. *)
Fixpoint removeAll (c : ascii) (s : string) : string :=
  match s with
  | EmptyString => EmptyString
  | String a rest =>
      if Ascii.eqb a c then removeAll c rest else String a (removeAll c rest)
  end.

(** [xs.includes(x)] on an array of strings. *)
Definition arrayIncludes (xs : list string) (x : string) : bool :=
  existsb (String.eqb x) xs.

(** [xs.find(p)] *)
Definition find {A : Type} (p : A -> bool) (xs : list A) : option A :=
  List.find p xs.

(** Truthiness of a string: only the empty string is falsy. *)
Definition truthy (s : string) : bool :=
  match s with EmptyString => false | _ => true end.

(** Template-literal rendering of integers. *)
Definition showZ (z : Z) : string := NilEmpty.string_of_int (Z.to_int z).
Definition showNat (n : nat) : string := NilEmpty.string_of_uint (Nat.to_uint n).

(** A JavaScript number whose value is an integer, or +Infinity: what
    [parseInt] yields on a run of digits, and the -1 of a failed match. *)
Inductive Number :=
| Finite (value : Z)
| Infinity.

(** [a === b] on such numbers. *)
Definition strictEquals (a b : Number) : bool :=
  match a, b with
  | Finite x, Finite y => Z.eqb x y
  | Infinity, Infinity => true
  | _, _ => false
  end.

(** The double nearest to a non-negative integer, ties to the even
    significand; an integer of at most 53 bits is a double.  From 2^1024
    the result is +Infinity. *)
Definition roundToDouble (z : Z) : Number :=
  let e := (Z.log2 z - 52)%Z in
  if (e <=? 0)%Z then Finite z
  else
    let q := Z.shiftr z e in
    let r := (z - Z.shiftl q e)%Z in
    let half := Z.shiftl 1 (e - 1) in
    let q' := if (r <? half)%Z then q
              else if (half <? r)%Z then (q + 1)%Z
              else if Z.even q then q else (q + 1)%Z in
    let v := Z.shiftl q' e in
    if (Z.log2 v <? 1024)%Z then Finite v else Infinity.

(** Decimal digits, and [parseInt(ds, 10)] on a string of digits: the
    integer the digits denote, as a double.  V8 rounds the exact value;
    ECMAScript also lets an implementation replace the digits after the
    20th by zeros first. *)
Definition isDigit (a : ascii) : bool :=
  let n := nat_of_ascii a in (48 <=? n)%nat && (n <=? 57)%nat.

Definition digitValue (a : ascii) : Z := Z.of_nat (nat_of_ascii a) - 48.

Fixpoint parseDigits (acc : Z) (ds : string) : Z :=
  match ds with
  | EmptyString => acc
  | String a rest => parseDigits (10 * acc + digitValue a) rest
  end.

Definition parseInt (ds : string) : Number := roundToDouble (parseDigits 0 ds).

(** Whether the decimal numeral [c] reads back as the double [z]. *)
Definition readsAs (z c : Z) : bool := strictEquals (roundToDouble c) (Finite z).

(** The shortest decimal numeral that reads back as the double [z]: the
    multiple of the highest power of ten, at most 10^p, that does; of two
    such multiples the one nearer to [z], and the even one in a tie.  The
    result is the numeral without its [p] final zeros, and [p]. *)
Fixpoint shortest (z : Z) (p : nat) : Z * nat :=
  let unit := (10 ^ Z.of_nat p)%Z in
  let below := (z / unit * unit)%Z in
  let above := (below + unit)%Z in
  let pick :=
    match readsAs z below, readsAs z above with
    | true, true =>
        if (z - below <? above - z)%Z then Some below
        else if (above - z <? z - below)%Z then Some above
        else if Z.even (below / unit) then Some below else Some above
    | true, false => Some below
    | false, true => Some above
    | false, false => None
    end in
  match pick with
  | Some c => ((c / unit)%Z, p)
  | None => match p with
            | O => (z, O)
            | S q => shortest z q
            end
  end.

Fixpoint zeros (n : nat) : string :=
  match n with
  | O => EmptyString
  | S m => String "0" (zeros m)
  end.

(** Template-literal rendering of a double above 2^53: its shortest
    numeral, written out in full below 10^21 and with an exponent from
    there on. *)
Definition showLarge (z : Z) : string :=
  let (s, p) := shortest z (String.length (showZ z)) in
  let ds := showZ s in
  let n := (String.length ds + p)%nat in
  if (n <=? 21)%nat then ds ++ zeros p
  else match ds with
       | EmptyString => EmptyString
       | String d EmptyString => String d EmptyString ++ "e+" ++ showNat (n - 1)
       | String d rest => String d (String "." rest) ++ "e+" ++ showNat (n - 1)
       end.

(** Template-literal rendering of a number, [`${x}`]: up to 2^53 every
    integer is a double and its numeral is the shortest that reads back. *)
Definition showNumber (x : Number) : string :=
  match x with
  | Infinity => "Infinity"
  | Finite z =>
      if (Z.abs z <=? 2 ^ 53)%Z then showZ z
      else if (z <? 0)%Z then "-" ++ showLarge (- z) else showLarge z
  end.

(** The longest prefix of decimal digits: what [\d+] consumes greedily. *)
Fixpoint takeDigits (s : string) : string :=
  match s with
  | EmptyString => EmptyString
  | String a rest => if isDigit a then String a (takeDigits rest) else EmptyString
  end.

(** [s] with its first [n] characters dropped. *)
Fixpoint drop (n : nat) (s : string) : string :=
  match n, s with
  | O, _ => s
  | S _, EmptyString => EmptyString
  | S m, String _ rest => drop m rest
  end.

(** [data.match(new RegExp(`${lit}(\\d+)`))] for a pattern [lit] without
    regular-expression metacharacters: the leftmost position at which
    [lit] occurs followed by at least one digit; the result is capture
    group 1, the maximal run of digits found there. *)
Fixpoint matchLiteralDigits (lit data : string) : option string :=
  let here :=
    if String.prefix lit data
    then match takeDigits (drop (String.length lit) data) with
         | EmptyString => None
         | ds => Some ds
         end
    else None in
  match here with
  | Some ds => Some ds
  | None => match data with
            | EmptyString => None
            | String _ rest => matchLiteralDigits lit rest
            end
  end.

End Js.

(* ------------------------------------------------------------------ *)
(** ** types.ts *)

Record DependencyRequirement := {
  id : string;
  name : string;
  requiredVersion : string;
  cliName : string;
  versionFlag : string
}.

Record AuditResult := {
  ar_dependency : DependencyRequirement;
  isInstalled : bool;
  installedVersion : option string
}.

Inductive Action := INSTALL | REINSTALL | ALREADY_MET.

Record ActionStep := {
  dependency : DependencyRequirement;
  action : Action;
  reason : string
}.

Definition ActionPlan := list ActionStep.

(* ------------------------------------------------------------------ *)
(** ** Planner.ts *)

Module Planner.
Section WithSemver.

(** [semver.satisfies(version, range)] of the semver package. *)
Variable satisfies : string -> string -> bool.

(** [`${installedVersion}`] *)
Definition showVersion (installedVersion : option string) : string :=
  match installedVersion with
  | Some v => v
  | None => "undefined"
  end.

(** [installedVersion || 'unknown'] *)
Definition versionOrUnknown (installedVersion : option string) : string :=
  match installedVersion with
  | Some v => if Js.truthy v then v else "unknown"
  | None => "unknown"
  end.

(** [installedVersion && semver.satisfies(installedVersion, range)] *)
Definition compatible (installedVersion : option string) (range : string) : bool :=
  match installedVersion with
  | Some v => Js.truthy v && satisfies v range
  | None => false
  end.

Definition determineAction (result : AuditResult) : ActionStep :=
  let dependency := ar_dependency result in
  if negb (isInstalled result) then
    {| dependency := dependency;
       action := INSTALL;
       reason := name dependency ++ " is not installed." |}
  else if compatible (installedVersion result) (requiredVersion dependency) then
    {| dependency := dependency;
       action := ALREADY_MET;
       reason := name dependency ++ " is installed at a compatible version ("
                 ++ showVersion (installedVersion result) ++ ")." |}
  else
    {| dependency := dependency;
       action := REINSTALL;
       reason := name dependency ++ " is installed at an incompatible version ("
                 ++ versionOrUnknown (installedVersion result) ++ "). Version "
                 ++ requiredVersion dependency ++ " is required." |}.

(** The [for ... of] loop pushing one step per result. *)
Fixpoint createActionPlan (auditResults : list AuditResult) : ActionPlan :=
  match auditResults with
  | [] => []
  | result :: rest => determineAction result :: createActionPlan rest
  end.

End WithSemver.
End Planner.

(* ------------------------------------------------------------------ *)
(** ** dependencyConfig.ts *)

Module DependencyConfig.

(** One entry of the table: the package name under each of the keys
    win32, darwin, apt, dnf, pacman and zypper ([None] is [null]). *)
Definition names (win32 darwin apt dnf pacman : string) (zypper : option string)
  : list (string * option string) :=
  [ ("win32", Some win32); ("darwin", Some darwin); ("apt", Some apt);
    ("dnf", Some dnf); ("pacman", Some pacman); ("zypper", zypper) ].

Definition PACKAGE_NAMES : list (string * list (string * option string)) :=
  [ ("python", names "Python.Python.3" "python@3.12" "python3" "python3" "python" (Some "python3"));
    ("node", names "OpenJS.NodeJS.LTS" "node" "nodejs" "nodejs" "nodejs" (Some "nodejs"));
    ("java_lts", names "Microsoft.OpenJDK.21" "openjdk@21" "openjdk-21-jdk"
                       "java-21-openjdk-devel" "jdk-openjdk" (Some "java-21-openjdk-devel"));
    ("go", names "Go.Go" "go" "golang-go" "golang" "go" (Some "go"));
    ("rust", names "Rustlang.Rustup" "rustup-init" "rustc" "rust" "rust" (Some "rust"));
    ("dotnet_sdk", names "Microsoft.DotNet.SDK.8" "dotnet-sdk" "dotnet-sdk-8.0"
                         "dotnet-sdk-8.0" "dotnet-sdk" (Some "dotnet-sdk-8_0"));
    ("git", names "Git.Git" "git" "git" "git" "git" (Some "git"));
    ("postgres", names "PostgreSQL.PostgreSQL" "postgresql@16" "postgresql"
                       "postgresql-server" "postgresql" (Some "postgresql-server"));
    ("mysql", names "Oracle.MySQL" "mysql" "mysql-server" "mysql-server" "mariadb"
                    (Some "mysql-community-server"));
    ("mongodb", names "MongoDB.Server" "mongodb-community" "mongodb-org" "mongodb-org"
                      "mongodb" (Some "mongodb"));
    ("redis", names "Redis.Redis" "redis" "redis-server" "redis" "redis" (Some "redis"));
    ("sqlite", names "SQLite.SQLite" "sqlite" "sqlite3" "sqlite" "sqlite" (Some "sqlite3"));
    ("docker", names "Docker.DockerDesktop" "docker" "docker.io" "moby-engine" "docker"
                     (Some "docker"));
    ("kubernetes_cli", names "Kubernetes.kubectl" "kubernetes-cli" "kubectl" "kubectl"
                             "kubectl" (Some "kubectl"));
    ("terraform", names "HashiCorp.Terraform" "terraform" "terraform" "terraform"
                        "terraform" (Some "terraform"));
    ("aws_cli", names "Amazon.AWSCLI" "awscli" "awscli" "awscli" "aws-cli" (Some "aws-cli"));
    ("azure_cli", names "Microsoft.AzureCLI" "azure-cli" "azure-cli" "azure-cli"
                        "azure-cli" (Some "azure-cli"));
    ("gcloud_cli", names "Google.CloudSDK" "google-cloud-sdk" "google-cloud-cli"
                         "google-cloud-cli" "google-cloud-sdk" None);
    ("jq", names "stedolan.jq" "jq" "jq" "jq" "jq" (Some "jq"));
    ("neovim", names "Neovim.Neovim" "neovim" "neovim" "neovim" "neovim" (Some "neovim")) ].

(** Property access [table[key]] on an object literal.  Keys inherited from
    [Object.prototype] are not listed: under every key the Executor uses
    they lead to [undefined] on the second access, hence to [null], which
    is also what a missing key gives. *)
Fixpoint lookup {A : Type} (key : string) (table : list (string * A)) : option A :=
  match table with
  | [] => None
  | (k, v) :: rest => if String.eqb key k then Some v else lookup key rest
  end.

End DependencyConfig.

(* ------------------------------------------------------------------ *)
(** ** The host and the effect monad *)

(** [vscode.TerminalDataWriteEvent]; terminals are identified by the order
    in which they were created. *)
Record TerminalDataWriteEvent := {
  ev_terminal : nat;
  ev_data : string
}.

(** The error handed to the callback of [cp.exec]. *)
Record ExecError := {
  killed : bool;
  exec_message : string
}.

Inductive Stream := Stdout | Stderr.

(** What a spawned child process does: the chunks it writes, in the order
    they arrive, and the error (or none) its callback receives. *)
Record ExecOutcome := {
  exec_error : option ExecError;
  exec_output : list (Stream * string)
}.

(** [DevSetupConfig] of Auditor.ts.  The source casts what [JSON.parse]
    yields to this interface without a check; the configurations here are
    those that have the shape of the interface, their [dependencies] being
    [None] when the property is missing. *)
Record DevSetupConfig := {
  dependencies : option (list DependencyRequirement)
}.

(** Outcome of reading and parsing [.devsetup.json] in a workspace folder;
    a parsed configuration is [None] when it is [null]. *)
Inductive ConfigRead :=
| ConfigMissing                      (* readFile fails with code ENOENT *)
| ConfigReadError                    (* readFile fails with another code *)
| ConfigSyntaxError                  (* the file is read, JSON.parse throws *)
| ConfigParsed (config : option DevSetupConfig).

Record WorkspaceFolder := {
  fsPath : string;
  configRead : ConfigRead
}.

Record World := {
  (** [os.platform()] and [process.platform] *)
  platform : string;
  (** [cp.exec]: the behaviour of the n-th process spawned *)
  cp_exec : nat -> string -> ExecOutcome;
  (** the [onDidWriteTerminalData] events fired, in order, while the
      listener of the n-th interactive command is subscribed *)
  terminalData : nat -> string -> list TerminalDataWriteEvent;
  (** [Date.now()] at the n-th reading *)
  dateNow : nat -> Z;
  (** [fs.readFile('/etc/os-release', 'utf-8')]; [None] when it fails *)
  osRelease : option string;
  (** [vscode.workspace.workspaceFolders] *)
  workspaceFolders : option (list WorkspaceFolder);
  (** [path.join] *)
  pathJoin : string -> string -> string;
  (** the item chosen in the modal winget dialog, if any *)
  wingetDialogResponse : option string
}.

(** The cached Linux package manager of Executor.ts. *)
Inductive PackageManager := apt | dnf | pacman | unknown.

Definition managerName (m : PackageManager) : string :=
  match m with
  | apt => "apt"
  | dnf => "dnf"
  | pacman => "pacman"
  | unknown => "unknown"
  end.

(** Observable actions, in the order they happen. *)
Inductive Obs :=
| AppendLine (line : string)                 (* outputChannel.appendLine *)
| Append (data : string)                     (* outputChannel.append *)
| CreateTerminal (terminal : nat) (title : string)
| TerminalShow (terminal : nat)
| SendText (terminal : nat) (text : string)  (* terminal.sendText *)
| Exec (command : string)                    (* cp.exec *)
| ShowErrorMessage (message : string)
| ShowInformationMessage (message : string)
| OpenExternal (uri : string).

(** The state of the extension host process.  [detectedPackageManager] is
    the module-level variable of Executor.ts; [assignments] counts the
    assignments made to it; the other counters index the oracles:
    [spawned] the child processes, [submitted] the listeners registered
    for interactive commands, [clockReads] the readings of the clock and
    [terminals] the terminals created. *)
Record State := {
  detectedPackageManager : option PackageManager;
  assignments : nat;
  trace : list Obs;
  spawned : nat;
  submitted : nat;
  clockReads : nat;
  terminals : nat
}.

(** The state when the module has just been loaded:
    [let detectedPackageManager = null]. *)
Definition initialState : State :=
  {| detectedPackageManager := None; assignments := 0; trace := [];
     spawned := 0; submitted := 0; clockReads := 0; terminals := 0 |}.

(** A JavaScript [Error]. *)
Record Error := { message : string }.

Inductive Result (A : Type) :=
| Ok (a : A)
| Throw (e : Error)
| Pending.
Arguments Ok {A} a.
Arguments Throw {A} e.
Arguments Pending {A}.

Definition M (A : Type) : Type := State -> Result A * State.

Definition ret {A : Type} (a : A) : M A := fun s => (Ok a, s).

Definition throw {A : Type} (e : Error) : M A := fun s => (Throw e, s).

Definition bind {A B : Type} (m : M A) (k : A -> M B) : M B :=
  fun s => match m s with
           | (Ok a, s') => k a s'
           | (Throw e, s') => (Throw e, s')
           | (Pending, s') => (Pending, s')
           end.

(** [try { body } catch (error) { handler }]: a body that never settles
    never reaches the handler. *)
Definition tryCatch {A : Type} (body : M A) (handler : Error -> M A) : M A :=
  fun s => match body s with
           | (Ok a, s') => (Ok a, s')
           | (Throw e, s') => handler e s'
           | (Pending, s') => (Pending, s')
           end.

Declare Scope monad_scope.
Delimit Scope monad_scope with monad.
Notation "x <- m ;; k" := (bind m (fun x => k))
  (at level 61, m at next level, right associativity) : monad_scope.
Notation "m ;; k" := (bind m (fun _ => k))
  (at level 61, right associativity) : monad_scope.
Local Open Scope monad_scope.

Fixpoint forEach {A : Type} (xs : list A) (body : A -> M unit) : M unit :=
  match xs with
  | [] => ret tt
  | x :: rest => body x ;; forEach rest body
  end.

(** *** Primitive actions *)

Definition emit (o : Obs) : M unit := fun s =>
  (Ok tt,
   {| detectedPackageManager := detectedPackageManager s;
      assignments := assignments s;
      trace := (trace s ++ [o])%list;
      spawned := spawned s;
      submitted := submitted s;
      clockReads := clockReads s;
      terminals := terminals s |}).

Definition appendLine (line : string) : M unit := emit (AppendLine line).
Definition append (data : string) : M unit := emit (Append data).
Definition sendText (terminal : nat) (text : string) : M unit := emit (SendText terminal text).
Definition terminalShow (terminal : nat) : M unit := emit (TerminalShow terminal).
Definition showErrorMessage (msg : string) : M unit := emit (ShowErrorMessage msg).
Definition showInformationMessage (msg : string) : M unit := emit (ShowInformationMessage msg).
Definition openExternal (uri : string) : M unit := emit (OpenExternal uri).

(** [vscode.window.createTerminal(title)] *)
Definition createTerminal (title : string) : M nat := fun s =>
  (Ok (terminals s),
   {| detectedPackageManager := detectedPackageManager s;
      assignments := assignments s;
      trace := (trace s ++ [CreateTerminal (terminals s) title])%list;
      spawned := spawned s;
      submitted := submitted s;
      clockReads := clockReads s;
      terminals := S (terminals s) |}).

Section WithWorld.

Variable w : World.

(** [cp.exec(command, ..., callback)]: spawns the process and hands back
    what its callback receives.  The child is taken to end, by itself or
    by the kill of a timeout, so that the callback is called; outcomes are
    stated for such children only. *)
Definition exec (command : string) : M ExecOutcome := fun s =>
  (Ok (cp_exec w (spawned s) command),
   {| detectedPackageManager := detectedPackageManager s;
      assignments := assignments s;
      trace := (trace s ++ [Exec command])%list;
      spawned := S (spawned s);
      submitted := submitted s;
      clockReads := clockReads s;
      terminals := terminals s |}).

(** [Date.now()] *)
Definition now : M Z := fun s =>
  (Ok (dateNow w (clockReads s)),
   {| detectedPackageManager := detectedPackageManager s;
      assignments := assignments s;
      trace := trace s;
      spawned := spawned s;
      submitted := submitted s;
      clockReads := S (clockReads s);
      terminals := terminals s |}).

(** The terminal output events seen by the listener registered for [text]. *)
Definition awaitTerminalData (text : string) : M (list TerminalDataWriteEvent) := fun s =>
  (Ok (terminalData w (submitted s) text),
   {| detectedPackageManager := detectedPackageManager s;
      assignments := assignments s;
      trace := trace s;
      spawned := spawned s;
      submitted := S (submitted s);
      clockReads := clockReads s;
      terminals := terminals s |}).

End WithWorld.

(** Reading and writing the module variable of Executor.ts. *)
Definition readDetected : M (option PackageManager) := fun s =>
  (Ok (detectedPackageManager s), s).

Definition assignDetected (m : PackageManager) : M unit := fun s =>
  (Ok tt,
   {| detectedPackageManager := Some m;
      assignments := S (assignments s);
      trace := trace s;
      spawned := spawned s;
      submitted := submitted s;
      clockReads := clockReads s;
      terminals := terminals s |}).

(* ------------------------------------------------------------------ *)
(** ** The marker protocol of interactive commands

    Executor.ts ([runCommandInTerminal]) and Auditor.ts
    ([runCommandInTerminalAndWait]) register the same callback on
    [onDidWriteTerminalData]; they differ in the text of the Error only. *)

Module Channel.

(** [`COMMAND_EXIT_CODE_${Date.now()}`] *)
Definition commandId (now : Z) : string := "COMMAND_EXIT_CODE_" ++ Js.showZ now.

(** [`echo ${commandId}:$?`] *)
Definition exitCodeCommand (commandId : string) : string :=
  "echo " ++ commandId ++ ":$?".

(** How the promise was settled by the callback. *)
Inductive Settlement :=
| Resolved
| Rejected (exitCode : Js.Number).

(** A registered listener: whether it is still subscribed (not disposed),
    and the settlement of its promise, if any. *)
Record Listener := {
  subscribed : bool;
  settlement : option Settlement
}.

Definition fresh : Listener := {| subscribed := true; settlement := None |}.

(** [exitCodeMatch ? parseInt(exitCodeMatch[1], 10) : -1] *)
Definition exitCodeOf (commandId data : string) : Js.Number :=
  match Js.matchLiteralDigits (commandId ++ ":") data with
  | Some digits => Js.parseInt digits
  | None => Js.Finite (-1)
  end.

(** [e.terminal === terminal && e.data.includes(commandId)] *)
Definition triggers (terminal : nat) (commandId : string) (e : TerminalDataWriteEvent) : bool :=
  Nat.eqb (ev_terminal e) terminal && Js.includes (ev_data e) commandId.

(** One terminal output event; a disposed listener is not called. *)
Definition onDidWriteTerminalData (terminal : nat) (commandId : string)
           (l : Listener) (e : TerminalDataWriteEvent) : Listener :=
  if subscribed l then
    if triggers terminal commandId e then
      let exitCode := exitCodeOf commandId (ev_data e) in
      {| subscribed := false;
         settlement := Some (if Js.strictEquals exitCode (Js.Finite 0)
                             then Resolved else Rejected exitCode) |}
    else l
  else l.

(** The listener after a sequence of events. *)
Definition deliver (terminal : nat) (commandId : string)
           (l : Listener) (events : list TerminalDataWriteEvent) : Listener :=
  fold_left (onDidWriteTerminalData terminal commandId) events l.

End Channel.

(* ------------------------------------------------------------------ *)
(** ** Executor.ts *)

Module Executor.
Section WithWorld.

Variable w : World.

Definition runCommandSilently (command : string) : M unit :=
  appendLine ("[Executor] > Running silently: " ++ command) ;;
  outcome <- exec w command ;;
  forEach (exec_output outcome) (fun chunk => append (snd chunk)) ;;
  match exec_error outcome with
  | Some error =>
      let errorMsg := if killed error then "Command timed out after 10 minutes."
                      else exec_message error in
      throw {| message := errorMsg |}
  | None => ret tt
  end.

Definition runCommandInTerminal (command : string) (terminal : nat) : M unit :=
  t <- now w ;;
  let commandId := Channel.commandId t in
  let exitCodeCommand := Channel.exitCodeCommand commandId in
  let text := command ++ "; " ++ exitCodeCommand in
  sendText terminal text ;;
  events <- awaitTerminalData w text ;;
  match Channel.settlement (Channel.deliver terminal commandId Channel.fresh events) with
  | Some Channel.Resolved => ret tt
  | Some (Channel.Rejected exitCode) =>
      throw {| message := "Command failed with exit code " ++ Js.showNumber exitCode
                          ++ "." |}
  | None => fun s => (Pending, s)
  end.

Definition runCommand (command : string) (terminal : option nat) : M unit :=
  match terminal with
  | Some t => runCommandInTerminal command t
  | None => runCommandSilently command
  end.

(** The [for] loop of [detectLinuxPackageManager] over the remaining
    candidates, followed by the code after the loop. *)
Fixpoint detectAmong (managers : list PackageManager) : M unit :=
  match managers with
  | [] =>
      appendLine "[Executor] Could not detect a supported Linux package manager." ;;
      assignDetected unknown
  | manager :: rest =>
      found <- tryCatch
                 (runCommandSilently ("command -v " ++ managerName manager) ;;
                  appendLine ("[Executor] Detected: " ++ managerName manager) ;;
                  assignDetected manager ;;
                  ret true)
                 (fun _ => ret false) ;;
      if (found : bool) then ret tt else detectAmong rest
  end.

Definition detectLinuxPackageManager : M unit :=
  detected <- readDetected ;;
  match detected with
  | Some _ => ret tt
  | None =>
      appendLine "[Executor] Detecting Linux package manager..." ;;
      detectAmong [apt; dnf; pacman]
  end.

Definition getPackageNameForPlatform
           (detected : option PackageManager) (id platform : string) : option string :=
  match DependencyConfig.lookup id DependencyConfig.PACKAGE_NAMES with
  | None => None
  | Some platformSpecificNames =>
      let key := if String.eqb platform "linux"
                 then option_map managerName detected
                 else Some platform in
      match key with
      | None => None
      | Some key =>
          match DependencyConfig.lookup key platformSpecificNames with
          | Some (Some packageName) =>
              if Js.truthy packageName then Some packageName else None
          | _ => None
          end
      end
  end.

Definition getInstallCommand
           (detected : option PackageManager) (dependency : DependencyRequirement)
  : option string :=
  let platform := platform w in
  match getPackageNameForPlatform detected (id dependency) platform with
  | None => None
  | Some packageName =>
      if String.eqb platform "win32" then Some ("winget install -e --id " ++ packageName)
      else if String.eqb platform "darwin" then Some ("brew install " ++ packageName)
      else if String.eqb platform "linux" then
        match detected with
        | Some apt => Some ("sudo apt-get install -y " ++ packageName)
        | Some dnf => Some ("sudo dnf install -y " ++ packageName)
        | Some pacman => Some ("sudo pacman -S --noconfirm " ++ packageName)
        | _ => None
        end
      else None
  end.

Definition getUninstallCommand
           (detected : option PackageManager) (dependency : DependencyRequirement)
  : option string :=
  let platform := platform w in
  match getPackageNameForPlatform detected (id dependency) platform with
  | None => None
  | Some packageName =>
      if String.eqb platform "win32" then Some ("winget uninstall -e --id " ++ packageName)
      else if String.eqb platform "darwin" then Some ("brew uninstall " ++ packageName)
      else if String.eqb platform "linux" then
        match detected with
        | Some apt => Some ("sudo apt-get remove -y " ++ packageName)
        | Some dnf => Some ("sudo dnf remove -y " ++ packageName)
        | Some pacman => Some ("sudo pacman -Rns --noconfirm " ++ packageName)
        | _ => None
        end
      else None
  end.

Definition installStartLine (dep : DependencyRequirement) : string :=
  "[Executor] Starting INSTALL for '" ++ name dep ++ "'...".

Definition uninstallStartLine (dep : DependencyRequirement) : string :=
  "[Executor] Starting UNINSTALL for '" ++ name dep ++ "'...".

Definition noInstallCommand (dep : DependencyRequirement) : string :=
  "[Executor] ERROR: No install command configured for '" ++ name dep ++ "' on this OS.".

Definition noUninstallCommand (dep : DependencyRequirement) : string :=
  "[Executor] ERROR: No uninstall command configured for '" ++ name dep ++ "' on this OS.".

Definition installDependency (step : ActionStep) (terminal : option nat) : M unit :=
  let dependency := dependency step in
  appendLine (installStartLine dependency) ;;
  detected <- readDetected ;;
  match getInstallCommand detected dependency with
  | None =>
      let errorMsg := noInstallCommand dependency in
      showErrorMessage errorMsg ;;
      throw {| message := errorMsg |}
  | Some command => runCommand command terminal
  end.

Definition uninstallDependency (step : ActionStep) (terminal : option nat) : M unit :=
  let dependency := dependency step in
  appendLine (uninstallStartLine dependency) ;;
  detected <- readDetected ;;
  match getUninstallCommand detected dependency with
  | None =>
      let errorMsg := noUninstallCommand dependency in
      showErrorMessage errorMsg ;;
      throw {| message := errorMsg |}
  | Some command => runCommand command terminal
  end.

Definition skipMessage (dep : DependencyRequirement) : string :=
  "[Executor] Skipping '" ++ name dep ++ "' - Requirement already met.".

Definition failedMessage (dep : DependencyRequirement) : string :=
  "[Executor] FAILED step for '" ++ name dep ++ "'. Check logs or terminal for details.".

Definition whenTerminal (terminal : option nat) (f : nat -> M unit) : M unit :=
  match terminal with
  | Some t => f t
  | None => ret tt
  end.

(** The [switch] inside the [try] block of the loop of [executePlan]. *)
Definition stepBody (terminal : option nat) (step : ActionStep) : M unit :=
  match action step with
  | INSTALL => installDependency step terminal
  | REINSTALL =>
      uninstallDependency step terminal ;;
      installDependency step terminal
  | ALREADY_MET =>
      let message := skipMessage (dependency step) in
      appendLine message ;;
      whenTerminal terminal
        (fun t => sendText t ("echo " ++ Js.dq ++ "[INFO] " ++ message ++ Js.dq))
  end.

(** The [catch] block of the loop of [executePlan]. *)
Definition stepCatch (terminal : option nat) (step : ActionStep) : M unit :=
  let errorMsg := failedMessage (dependency step) in
  appendLine errorMsg ;;
  whenTerminal terminal
    (fun t => sendText t ("echo " ++ Js.dq ++ "\n[ERROR] " ++ errorMsg ++ "\n" ++ Js.dq)).

(** One iteration of the loop of [executePlan]. *)
Definition executeStep (terminal : option nat) (step : ActionStep) : M unit :=
  tryCatch (stepBody terminal step) (fun _ => stepCatch terminal step).

Definition finishedLine : string := "[Executor] Plan execution finished.".

Definition successText : string :=
  "echo " ++ Js.dq
  ++ "\n[SUCCESS] All setup tasks complete. You can now close this terminal."
  ++ Js.dq.

Definition executePlan (plan : ActionPlan) : M unit :=
  appendLine ("[Executor] Starting execution of " ++ Js.showNat (length plan)
              ++ "-step plan.") ;;
  let isLinux := String.eqb (platform w) "linux" in
  terminal <- (if isLinux
               then t <- createTerminal "Dev Env Setup" ;;
                    terminalShow t ;;
                    detectLinuxPackageManager ;;
                    ret (Some t)
               else ret None) ;;
  forEach plan (executeStep terminal) ;;
  appendLine finishedLine ;;
  whenTerminal terminal (fun t => sendText t successText).

End WithWorld.
End Executor.

(* ------------------------------------------------------------------ *)
(** ** Auditor.ts *)

Module Auditor.
Section WithWorld.

Variable w : World.

(** [String.prototype.trim] and [semver.coerce(...)?.version]. *)
Variable trim : string -> string.
Variable coerce : string -> option string.

(** The text written to one of the streams of a child process. *)
Definition streamText (which : Stream) (output : list (Stream * string)) : string :=
  String.concat ""
    (map snd (filter (fun chunk => match fst chunk, which with
                                   | Stdout, Stdout | Stderr, Stderr => true
                                   | _, _ => false
                                   end) output)).

Definition executeCommand (command : string) : M string :=
  outcome <- exec w command ;;
  match exec_error outcome with
  | Some _ =>
      let stderr := streamText Stderr (exec_output outcome) in
      throw {| message := if Js.truthy stderr then stderr else "Command failed" |}
  | None => ret (streamText Stdout (exec_output outcome))
  end.

Definition runCommandInTerminalAndWait (terminal : nat) (command : string) : M unit :=
  appendLine ("[Auditor] > Sending to terminal: " ++ command) ;;
  t <- now w ;;
  let commandId := Channel.commandId t in
  let exitCodeCommand := Channel.exitCodeCommand commandId in
  let text := command ++ "; " ++ exitCodeCommand in
  sendText terminal text ;;
  events <- awaitTerminalData w text ;;
  match Channel.settlement (Channel.deliver terminal commandId Channel.fresh events) with
  | Some Channel.Resolved => ret tt
  | Some (Channel.Rejected exitCode) =>
      throw {| message := "Command failed with exit code " ++ Js.showNumber exitCode
                          ++ ". Please check the terminal for details." |}
  | None => fun s => (Pending, s)
  end.

Definition homebrewInstallCommand : string :=
  "/bin/bash -c " ++ Js.dq
  ++ "$(curl -fsSL https://raw.githubusercontent.com/Homebrew/install/HEAD/install.sh)"
  ++ Js.dq.

Definition checkAndInstallHomebrew : M unit :=
  tryCatch
    (executeCommand "command -v brew" ;;
     appendLine "[Auditor] Homebrew is installed.")
    (fun _ =>
       appendLine "[Auditor] Homebrew not found. Starting automatic installation..." ;;
       showInformationMessage
         "Homebrew is not installed. The extension will now install it in the terminal." ;;
       let installCommand := homebrewInstallCommand in
       terminal <- createTerminal "Dev Env Setup: Homebrew" ;;
       terminalShow terminal ;;
       tryCatch
         (runCommandInTerminalAndWait terminal installCommand ;;
          appendLine "[Auditor] Homebrew installation command finished.")
         (fun installError =>
            throw {| message := "Homebrew installation failed. " ++ message installError |}) ;;
       tryCatch
         (executeCommand "command -v brew" ;;
          appendLine "[Auditor] Homebrew installation verified successfully." ;;
          showInformationMessage "Homebrew has been successfully installed!")
         (fun _ =>
            throw {| message := "Homebrew installation could not be verified. Please check the terminal for errors." |})).

Definition openStore : string := "Open Microsoft Store".

Definition checkWinget : M unit :=
  tryCatch
    (executeCommand "winget --version" ;;
     appendLine "[Auditor] Winget is installed.")
    (fun _ =>
       appendLine "[Auditor] Winget not found. Prompting user..." ;;
       showErrorMessage
         "Windows Package Manager (winget) is not installed, but it is required for this extension to work." ;;
       match wingetDialogResponse w with
       | Some response =>
           if String.eqb response openStore then
             openExternal "ms-windows-store://pdp/?productid=9NBLGGH4NNS1" ;;
             throw {| message := "Opened Microsoft Store. Please install "
                                 ++ Js.dq ++ "App Installer" ++ Js.dq
                                 ++ " and re-run the setup." |}
           else throw {| message := "User cancelled setup. Winget installation is required." |}
       | None => throw {| message := "User cancelled setup. Winget installation is required." |}
       end).

(** [await fs.readFile('/etc/os-release', 'utf-8')] *)
Definition readOsRelease : M string :=
  match osRelease w with
  | Some content => ret content
  | None => throw {| message := "ENOENT: no such file or directory, open '/etc/os-release'" |}
  end.

Definition supportedDistros : list string :=
  ["ubuntu"; "debian"; "fedora"; "centos"; "rhel"; "arch"; "suse"; "opensuse"].

(** The distribution named by the first line starting with ID=: the
    second piece of its split at '=' with every double quote removed, or
    'unknown' without such a line.  [None] stands for the TypeError of
    calling [replace] on [undefined]. *)
Definition distroOf (osRelease : string) : option string :=
  match Js.find (fun line => Js.startsWith line "ID=") (Js.split Js.lf osRelease) with
  | Some idLine =>
      match nth_error (Js.split "="%char idLine) 1 with
      | Some value => Some (Js.removeAll Js.dquote value)
      | None => None
      end
  | None => Some "unknown"
  end.

Definition detectLinuxDistribution : M unit :=
  tryCatch
    (osRelease <- readOsRelease ;;
     match distroOf osRelease with
     | None => throw {| message := "Cannot read properties of undefined (reading 'replace')" |}
     | Some distro =>
         if Js.arrayIncludes supportedDistros distro
         then appendLine ("[Auditor] Detected supported Linux distribution: " ++ distro)
         else appendLine ("[Auditor] WARNING: Detected unsupported Linux distribution: "
                          ++ distro ++ ".")
     end)
    (fun _ => throw {| message := "Could not detect Linux distribution." |}).

Definition ensurePackageManager : M unit :=
  appendLine ("[Auditor] Performing pre-flight check for OS: " ++ platform w) ;;
  if String.eqb (platform w) "darwin" then checkAndInstallHomebrew
  else if String.eqb (platform w) "win32" then checkWinget
  else if String.eqb (platform w) "linux" then detectLinuxDistribution
  else throw {| message := "Unsupported operating system: " ++ platform w |}.

Definition checkSingleDependency (dependency : DependencyRequirement) : M AuditResult :=
  let command := cliName dependency ++ " " ++ versionFlag dependency in
  outcome <- exec w command ;;
  match exec_error outcome with
  | Some _ =>
      ret {| ar_dependency := dependency; isInstalled := false; installedVersion := None |}
  | None =>
      let installedVersion := coerce (trim (streamText Stdout (exec_output outcome))) in
      ret {| ar_dependency := dependency; isInstalled := true;
             installedVersion := installedVersion |}
  end.

(** The loop of [readConfigFile] over the remaining workspace folders,
    followed by the code after the loop. *)
Fixpoint readConfigIn (folders : list WorkspaceFolder) : M (option DevSetupConfig) :=
  match folders with
  | [] =>
      showErrorMessage "No .devsetup.json file found in your workspace." ;;
      ret None
  | folder :: rest =>
      let configPath := pathJoin w (fsPath folder) ".devsetup.json" in
      let parseError :=
        appendLine ("[Auditor] ERROR: Could not parse .devsetup.json in "
                    ++ fsPath folder ++ ".") in
      match configRead folder with
      | ConfigParsed config =>
          appendLine ("[Auditor] Found config file at: " ++ configPath) ;;
          ret config
      | ConfigSyntaxError =>
          appendLine ("[Auditor] Found config file at: " ++ configPath) ;;
          parseError ;;
          readConfigIn rest
      | ConfigReadError => parseError ;; readConfigIn rest
      | ConfigMissing => readConfigIn rest
      end
  end.

Definition readConfigFile : M (option DevSetupConfig) :=
  match workspaceFolders w with
  | None =>
      showErrorMessage "Cannot run audit: No workspace is currently open." ;;
      ret None
  | Some folders => readConfigIn folders
  end.

(** [Promise.all(deps.map(checkSingleDependency))]: the probes are spawned
    in the order of the array and their results are collected in that
    order. *)
Fixpoint probeAll (deps : list DependencyRequirement) : M (list AuditResult) :=
  match deps with
  | [] => ret []
  | dep :: rest =>
      result <- checkSingleDependency dep ;;
      results <- probeAll rest ;;
      ret (result :: results)
  end.

(** [runAudit]; [None] is the [null] result. *)
Definition runAudit : M (option (list AuditResult)) :=
  appendLine "[Auditor] Starting system audit..." ;;
  preflight <- tryCatch
                 (ensurePackageManager ;; ret true)
                 (fun error =>
                    showErrorMessage ("Setup cannot continue: " ++ message error) ;;
                    appendLine ("[Auditor] FATAL: " ++ message error) ;;
                    ret false) ;;
  if (preflight : bool) then
    config <- readConfigFile ;;
    match config with
    | Some {| dependencies := Some (dep :: deps) |} =>
        let dependencies := dep :: deps in
        appendLine ("[Auditor] Found " ++ Js.showNat (length dependencies)
                    ++ " dependencies to check.") ;;
        results <- probeAll dependencies ;;
        appendLine "[Auditor] System audit complete." ;;
        ret (Some results)
    | _ =>
        appendLine "[Auditor] No dependencies found in config. Audit finished." ;;
        ret (Some [])
    end
  else ret None.

End WithWorld.
End Auditor.

(* ------------------------------------------------------------------ *)
(** ** Vocabulary for statements about runs *)

(** A computation respects a relation between the state it starts in and
    the state it leaves. *)
Definition respects (R : State -> State -> Prop) {A : Type} (m : M A) : Prop :=
  forall s, R s (snd (m s)).

(** The module variable is neither assigned nor changed. *)
Definition sameCache (s s' : State) : Prop :=
  detectedPackageManager s' = detectedPackageManager s
  /\ assignments s' = assignments s.

(** A resolved package manager stays as it is. *)
Definition cacheStable (s s' : State) : Prop :=
  forall m, detectedPackageManager s = Some m ->
            detectedPackageManager s' = Some m /\ assignments s' = assignments s.

(** The log grows by observations that all satisfy [Q]. *)
Definition extendsWith (Q : Obs -> Prop) (s s' : State) : Prop :=
  exists new, trace s' = (trace s ++ new)%list /\ Forall Q new.

(** The state [s] with [new] appended to its log. *)
Definition logged (new : list Obs) (s : State) : State :=
  {| detectedPackageManager := detectedPackageManager s;
     assignments := assignments s;
     trace := (trace s ++ new)%list;
     spawned := spawned s;
     submitted := submitted s;
     clockReads := clockReads s;
     terminals := terminals s |}.

(** The state a silent command leaves. *)
Definition afterSilent (w : World) (command : string) (s : State) : State :=
  {| detectedPackageManager := detectedPackageManager s;
     assignments := assignments s;
     trace := (trace s
               ++ AppendLine ("[Executor] > Running silently: " ++ command)
               :: Exec command
               :: map (fun chunk => Append (snd chunk))
                      (exec_output (cp_exec w (spawned s) command)))%list;
     spawned := S (spawned s);
     submitted := submitted s;
     clockReads := clockReads s;
     terminals := terminals s |}.



(** Whether the presence check of [manager], run as the n-th process,
    succeeds. *)
Definition present (w : World) (n : nat) (manager : PackageManager) : bool :=
  match exec_error (cp_exec w n ("command -v " ++ managerName manager)) with
  | None => true
  | Some _ => false
  end.

(** The first of the candidates whose presence check succeeds, the checks
    being the processes spawned from the n-th on. *)
Fixpoint firstPresent (w : World) (n : nat) (managers : list PackageManager)
  : PackageManager :=
  match managers with
  | [] => unknown
  | manager :: rest =>
      if present w n manager then manager else firstPresent w (S n) rest
  end.

(** The terminal of a run started in state [s]: created on Linux only. *)
Definition terminalOfRun (w : World) (s : State) : option nat :=
  if String.eqb (platform w) "linux" then Some (terminals s) else None.

(** The state in which the loop of [executePlan] starts: the opening line is
    logged and, on Linux, the terminal is created and shown and the package
    manager is detected. *)
Definition stateAfterSetup (w : World) (plan : ActionPlan) (s : State) : State :=
  let opened :=
    snd (appendLine ("[Executor] Starting execution of " ++ Js.showNat (length plan)
                     ++ "-step plan.") s) in
  if String.eqb (platform w) "linux"
  then snd (Executor.detectLinuxPackageManager w
              (snd (terminalShow (terminals s)
                      (snd (createTerminal "Dev Env Setup" opened)))))
  else opened.



(** An observation other than the line that opens the install of [dep]. *)
Definition notInstallLine (dep : DependencyRequirement) (o : Obs) : Prop :=
  o <> AppendLine (Executor.installStartLine dep).

(** What the handler of a failed step writes. *)
Definition failureLog (terminal : option nat) (step : ActionStep) : list Obs :=
  let errorMsg := Executor.failedMessage (dependency step) in
  AppendLine errorMsg
  :: match terminal with
     | Some t => [SendText t ("echo " ++ Js.dq ++ "\n[ERROR] " ++ errorMsg ++ "\n" ++ Js.dq)]
     | None => []
     end.

(** The completion marker that ends a run of the Executor. *)
Definition completionMarker (terminal : option nat) : list Obs :=
  AppendLine Executor.finishedLine
  :: match terminal with
     | Some t => [SendText t Executor.successText]
     | None => []
     end.

(** The configuration [readConfigFile] finds: that of the first workspace
    folder whose file is read and parsed. *)
Fixpoint firstConfig (folders : list WorkspaceFolder) : option DevSetupConfig :=
  match folders with
  | [] => None
  | folder :: rest =>
      match configRead folder with
      | ConfigParsed config => config
      | _ => firstConfig rest
      end
  end.

(** The dependencies the workspace declares; none when no configuration is
    found or it has no [dependencies]. *)
Definition declaredDependencies (w : World) : list DependencyRequirement :=
  match workspaceFolders w with
  | Some folders =>
      match firstConfig folders with
      | Some {| dependencies := Some deps |} => deps
      | _ => []
      end
  | None => []
  end.

(* ------------------------------------------------------------------ *)
(** ** Concrete hosts and inputs, used to exercise the model *)

Module Scenario.

Definition node : DependencyRequirement :=
  {| id := "node"; name := "Node.js"; requiredVersion := "^18.17.0";
     cliName := "node"; versionFlag := "-v" |}.

Definition git : DependencyRequirement :=
  {| id := "git"; name := "Git"; requiredVersion := ">=2.30.0";
     cliName := "git"; versionFlag := "--version" |}.

Definition stepFor (dep : DependencyRequirement) (a : Action) : ActionStep :=
  {| dependency := dep; action := a; reason := "" |}.

Definition succeeds : ExecOutcome := {| exec_error := None; exec_output := [] |}.

Definition fails (msg : string) : ExecOutcome :=
  {| exec_error := Some {| killed := false; exec_message := msg |};
     exec_output := [(Stderr, msg)] |}.

(** A range check that knows one installed version of one range. *)
Definition satisfiesNode (version range : string) : bool :=
  String.eqb version "18.20.2" && String.eqb range "^18.17.0".

Definition nodeAudit (installed : bool) (version : option string) : AuditResult :=
  {| ar_dependency := node; isInstalled := installed; installedVersion := version |}.

Definition clock : Z := 1700000000000.
Definition token : string := "COMMAND_EXIT_CODE_1700000000000".

(** A host on which every reading of the clock gives the same millisecond. *)
Definition host (platform : string) (cp_exec : nat -> string -> ExecOutcome)
           (terminalData : nat -> string -> list TerminalDataWriteEvent)
           (osRelease : option string) : World :=
  {| platform := platform;
     cp_exec := cp_exec;
     terminalData := terminalData;
     dateNow := fun _ => clock;
     osRelease := osRelease;
     workspaceFolders :=
       Some [ {| fsPath := "/work";
                 configRead := ConfigParsed (Some {| dependencies := Some [node; git] |}) |} ];
     pathJoin := fun dir file => dir ++ "/" ++ file;
     wingetDialogResponse := None |}.

(** macOS, where removing node fails and everything else succeeds. *)
Definition macFailingUninstall : World :=
  host "darwin"
       (fun _ command => if String.eqb command "brew uninstall node"
                         then fails "Command failed: brew uninstall node"
                         else succeeds)
       (fun _ _ => []) None.

(** The terminal first echoes the line typed into it, then prints the
    marker with exit status 0. *)
Definition echoThenMarker (text : string) : list TerminalDataWriteEvent :=
  [ {| ev_terminal := 0; ev_data := text |};
    {| ev_terminal := 0; ev_data := token ++ ":0" |} ].


(** Linux with apt, dnf and pacman all missing. *)
Definition linuxBare : World :=
  host "linux" (fun _ command => fails (command ++ ": not found"))
       (fun _ => echoThenMarker) None.

(** Linux with apt present. *)
Definition linuxApt (terminalData : nat -> string -> list TerminalDataWriteEvent)
           (osRelease : option string) : World :=
  host "linux"
       (fun _ command => if String.eqb command "command -v apt"
                         then succeeds
                         else fails (command ++ ": not found"))
       terminalData osRelease.

Definition gentooRelease : string :=
  "NAME=Gentoo" ++ String Js.lf ("ID=gentoo" ++ String Js.lf "PRETTY_NAME=Gentoo Linux").

End Scenario.

(* ------------------------------------------------------------------ *)
(** ** Further vocabulary: command resolution and the cost of a run *)

(** Whether the catalogue has an entry for a dependency id. *)
Definition catalogued (id : string) : bool :=
  match DependencyConfig.lookup id DependencyConfig.PACKAGE_NAMES with
  | Some _ => true
  | None => false
  end.

(** The targets the command builders have a template for: Windows, macOS,
    and Linux with apt, dnf or pacman detected. *)
Definition supportedTarget (platform : string) (detected : option PackageManager) : bool :=
  String.eqb platform "win32"
  || String.eqb platform "darwin"
  || (String.eqb platform "linux"
      && match detected with
         | Some apt | Some dnf | Some pacman => true
         | _ => false
         end).

(** The number of presence checks the detection loop runs over the
    candidates, the checks being the processes spawned from the n-th on. *)
Fixpoint checksRun (w : World) (n : nat) (managers : list PackageManager) : nat :=
  match managers with
  | [] => 0
  | manager :: rest =>
      if present w n manager then 1 else S (checksRun w (S n) rest)
  end.

(** What a step writes when no command can be built for it. *)
Definition noCommandLog (terminal : option nat) (step : ActionStep) : list Obs :=
  match action step with
  | INSTALL =>
      [AppendLine (Executor.installStartLine (dependency step));
       ShowErrorMessage (Executor.noInstallCommand (dependency step))]
  | REINSTALL =>
      [AppendLine (Executor.uninstallStartLine (dependency step));
       ShowErrorMessage (Executor.noUninstallCommand (dependency step))]
  | ALREADY_MET => []
  end ++ failureLog terminal step.

(** An observation that involves no terminal. *)
Definition offTerminal (o : Obs) : Prop :=
  match o with
  | CreateTerminal _ _ | TerminalShow _ | SendText _ _ => False
  | _ => True
  end.

(** An observation that spawns no process. *)
Definition noSpawn (o : Obs) : Prop :=
  match o with
  | Exec _ => False
  | _ => True
  end.

(** Nothing is submitted to a terminal, the clock is not read and no
    terminal is created. *)
Definition silentOnly (s s' : State) : Prop :=
  submitted s' = submitted s /\ clockReads s' = clockReads s
  /\ terminals s' = terminals s.

(** No process is spawned and no terminal is created. *)
Definition terminalOnly (s s' : State) : Prop :=
  spawned s' = spawned s /\ terminals s' = terminals s.

Module Hosts.

(** FreeBSD: a platform the module does not support. *)
Definition freebsd : World :=
  Scenario.host "freebsd" (fun _ _ => Scenario.succeeds) (fun _ _ => []) None.

(** macOS where every command succeeds. *)
Definition mac : World :=
  Scenario.host "darwin" (fun _ _ => Scenario.succeeds) (fun _ _ => []) None.


(** A dependency the catalogue does not know. *)
Definition bun : DependencyRequirement :=
  {| id := "bun"; name := "Bun"; requiredVersion := "^1.0.0";
     cliName := "bun"; versionFlag := "--version" |}.

End Hosts.

(* ------------------------------------------------------------------ *)
(** ** Further vocabulary: the marker token *)

(** The characters with a special meaning in a JavaScript regular
    expression. *)
Definition regexMeta (a : ascii) : bool :=
  existsb (Ascii.eqb a)
          [ "\"%char; "^"%char; "$"%char; "."%char; "|"%char; "?"%char; "*"%char;
            "+"%char; "("%char; ")"%char; "["%char; "]"%char; "{"%char; "}"%char;
            "/"%char ].

(** No event of the list concerns the listener: each one comes from
    another terminal or lacks the token. *)
Definition noneTriggers (terminal : nat) (commandId : string)
           (events : list TerminalDataWriteEvent) : Prop :=
  forall e, In e events ->
            ev_terminal e <> terminal \/ Js.includes (ev_data e) commandId = false.



(* ------------------------------------------------------------------ *)
(** ** Further vocabulary: the audit *)

(** The part of [runAudit] that follows the pre-flight: read the
    configuration and probe what it declares. *)
Definition auditDeclared (w : World) (trim : string -> string)
           (coerce : string -> option string) : M (option (list AuditResult)) :=
  (config <- Auditor.readConfigFile w ;;
   match config with
   | Some {| dependencies := Some (dep :: deps) |} =>
       let dependencies := dep :: deps in
       appendLine ("[Auditor] Found " ++ Js.showNat (length dependencies)
                   ++ " dependencies to check.") ;;
       results <- Auditor.probeAll w trim coerce dependencies ;;
       appendLine "[Auditor] System audit complete." ;;
       ret (Some results)
   | _ =>
       appendLine "[Auditor] No dependencies found in config. Audit finished." ;;
       ret (Some [])
   end)%monad.

(** What [runAudit] writes when the pre-flight fails with [error]. *)
Definition fatalLog (error : Error) : list Obs :=
  [ShowErrorMessage ("Setup cannot continue: " ++ message error);
   AppendLine ("[Auditor] FATAL: " ++ message error)].

(** The version probe of a dependency. *)
Definition probeCommand (dep : DependencyRequirement) : string :=
  cliName dep ++ " " ++ versionFlag dep.

(** Whether the probe of [dep], run as the n-th process, succeeds. *)
Definition probeOk (w : World) (n : nat) (dep : DependencyRequirement) : bool :=
  match exec_error (cp_exec w n (probeCommand dep)) with
  | None => true
  | Some _ => false
  end.

(** The state after an interactive command was sent: the clock was read,
    the text submitted, and [new] written to the log. *)
Definition afterSend (new : list Obs) (s : State) : State :=
  {| detectedPackageManager := detectedPackageManager s;
     assignments := assignments s;
     trace := (trace s ++ new)%list;
     spawned := spawned s;
     submitted := S (submitted s);
     clockReads := S (clockReads s);
     terminals := terminals s |}.

(** Whether a character occurs in a string. *)
Definition hasChar (c : ascii) (s : string) : bool :=
  existsb (Ascii.eqb c) (list_ascii_of_string s).

(** The configuration file of a folder could not be used. *)
Definition unusable (folder : WorkspaceFolder) : Prop :=
  match configRead folder with
  | ConfigParsed _ => False
  | _ => True
  end.

Module AuditHosts.

(** Windows without winget, where the user picks the store button. *)
Definition windowsNoWinget : World :=
  {| platform := "win32";
     cp_exec := fun _ command => Scenario.fails (command ++ ": not recognized");
     terminalData := fun _ _ => [];
     dateNow := fun _ => Scenario.clock;
     osRelease := None;
     workspaceFolders := None;
     pathJoin := fun dir file => dir ++ "\" ++ file;
     wingetDialogResponse := Some "Open Microsoft Store" |}.

(** macOS with Homebrew installed. *)
Definition macWithBrew : World := Hosts.mac.

(** Ubuntu. *)
Definition ubuntuRelease : list string :=
  ["NAME=Ubuntu"; "VERSION_ID=22.04"; "ID=" ++ Js.dq ++ "ubuntu" ++ Js.dq; "ID_LIKE=debian"].

Definition ubuntu : World :=
  Scenario.linuxApt (fun _ _ => []) (Some (String.concat (String Js.lf "") ubuntuRelease)).

(** A range check that accepts everything. *)
Definition satisfiesAll (version range : string) : bool := true.

(** Two workspace folders with a configuration each, after one without. *)
Definition folders : list WorkspaceFolder :=
  [ {| fsPath := "/a"; configRead := ConfigMissing |};
    {| fsPath := "/b";
       configRead := ConfigParsed (Some {| dependencies := Some [Scenario.node] |}) |};
    {| fsPath := "/c";
       configRead := ConfigParsed (Some {| dependencies := Some [Scenario.git] |}) |} ].

End AuditHosts.


(* ================================================================== *)
(** * Properties *)

(* ------------------------------------------------------------------ *)
(** ** Planner *)

Section PlannerFacts.

Variable satisfies : string -> string -> bool.

Lemma createActionPlan_map (results : list AuditResult) :
  Planner.createActionPlan satisfies results
  = map (Planner.determineAction satisfies) results.
Proof.
  induction results as [|r rest IH]; simpl; [reflexivity | now rewrite IH].
Qed.

Lemma determineAction_dependency (result : AuditResult) :
  dependency (Planner.determineAction satisfies result) = ar_dependency result.
Proof.
  unfold Planner.determineAction.
  destruct (negb (isInstalled result)); [reflexivity|].
  destruct (Planner.compatible _ _ _); reflexivity.
Qed.

End PlannerFacts.

(** C7: the plan has the length and order of the audit results, and its
    i-th step carries the dependency of the i-th result; so the plan names
    exactly the dependencies of the input. *)
Theorem C7_plan_mirrors_audit
        (satisfies : string -> string -> bool) (auditResults : list AuditResult) :
  let plan := Planner.createActionPlan satisfies auditResults in
  length plan = length auditResults
  /\ (forall i, option_map dependency (nth_error plan i)
                = option_map ar_dependency (nth_error auditResults i))
  /\ map dependency plan = map ar_dependency auditResults
  /\ (forall dep, In dep (map dependency plan) <-> In dep (map ar_dependency auditResults)).
Proof.
  intros plan. subst plan. rewrite createActionPlan_map.
  assert (Hmap : map dependency (map (Planner.determineAction satisfies) auditResults)
                 = map ar_dependency auditResults).
  { rewrite map_map. apply map_ext. intros r. apply determineAction_dependency. }
  repeat split.
  - apply length_map.
  - intros i. rewrite nth_error_map.
    destruct (nth_error auditResults i) as [r|]; simpl; [|reflexivity].
    now rewrite determineAction_dependency.
  - exact Hmap.
  - now rewrite Hmap.
  - now rewrite Hmap.
Qed.

(** C2: [determineAction] is a total function with no error path; it
    yields INSTALL exactly when the tool is not installed, ALREADY_MET
    exactly when it is installed with a version present that satisfies the
    required range, and REINSTALL exactly when it is installed with the
    version absent or not satisfying the range, the reason then citing the
    found version (or unknown) and the required range.  The range check is
    that of the semver package, which rejects the empty string as a
    version. *)
Theorem C2_determineAction_total
        (satisfies : string -> string -> bool)
        (satisfies_empty : forall range, satisfies "" range = false)
        (result : AuditResult) :
  let dep := ar_dependency result in
  let step := Planner.determineAction satisfies result in
  let satisfied :=
    exists v, installedVersion result = Some v
              /\ satisfies v (requiredVersion dep) = true in
  dependency step = dep
  /\ (action step = INSTALL <-> isInstalled result = false)
  /\ (action step = ALREADY_MET <-> isInstalled result = true /\ satisfied)
  /\ (action step = REINSTALL <-> isInstalled result = true /\ ~ satisfied)
  /\ (action step = INSTALL -> reason step = name dep ++ " is not installed.")
  /\ (action step = REINSTALL ->
      exists found,
        reason step = name dep ++ " is installed at an incompatible version ("
                      ++ found ++ "). Version " ++ requiredVersion dep ++ " is required."
        /\ (installedVersion result = None -> found = "unknown")
        /\ (forall v, installedVersion result = Some v -> v <> "" -> found = v)).
Proof.
  intros dep step satisfied. subst dep step satisfied.
  unfold Planner.determineAction, Planner.compatible, Planner.versionOrUnknown.
  destruct (isInstalled result); cbn [negb].
  - destruct (installedVersion result) as [v|].
    + destruct (Js.truthy v && satisfies v (requiredVersion (ar_dependency result)))
        eqn:Hc; cbn [dependency action reason].
      * apply andb_prop in Hc. destruct Hc as [_ Hs].
        repeat split; try discriminate; try tauto.
        -- exists v. now split.
        -- intros [_ Hn]. elim Hn. exists v. now split.
      * assert (Hs : satisfies v (requiredVersion (ar_dependency result)) = false).
        { destruct v; [apply satisfies_empty | exact Hc]. }
        assert (Hn : ~ exists v0, Some v = Some v0
                       /\ satisfies v0 (requiredVersion (ar_dependency result)) = true).
        { intros (v0 & Hv0 & Hs0). assert (v0 = v) by congruence. subst v0. congruence. }
        repeat split; try discriminate; try tauto.
        intros _. exists (if Js.truthy v then v else "unknown").
        repeat split; [discriminate|].
        intros v0 Hv0 Hne. assert (v0 = v) by congruence. subst v0.
        destruct v; [now elim Hne | reflexivity].
    + cbn [dependency action reason].
      assert (Hn : ~ exists v0 : string, None = Some v0
                     /\ satisfies v0 (requiredVersion (ar_dependency result)) = true).
      { intros (v0 & Hv0 & _). discriminate. }
      repeat split; try discriminate; try tauto.
      intros _. exists "unknown". repeat split. intros v Hv. discriminate.
  - cbn [dependency action reason].
    repeat split; try discriminate; try tauto.
    + intros [Hf _]. discriminate.
    + intros [Hf _]. discriminate.
Qed.

(** The scenarios of the specification: node ^18.17.0 found at 18.20.2 is
    ALREADY_MET. *)
Lemma C2_witness_already_met :
  action (Planner.determineAction Scenario.satisfiesNode
            (Scenario.nodeAudit true (Some "18.20.2"))) = ALREADY_MET.
Proof.
  apply (C2_determineAction_total Scenario.satisfiesNode
           (fun range => eq_refl) (Scenario.nodeAudit true (Some "18.20.2"))).
  split; [reflexivity|]. exists "18.20.2". split; reflexivity.
Defined.

(* ------------------------------------------------------------------ *)
(** ** Strings *)

Section StringFacts.

Lemma prefix_append (p s : string) : String.prefix p (p ++ s) = true.
Proof.
  induction p as [|a p IH]; simpl.
  - now destruct s.
  - destruct (ascii_dec a a) as [_|Hne]; [exact IH | now elim Hne].
Qed.

Lemma drop_length_append (p s : string) : Js.drop (String.length p) (p ++ s) = s.
Proof. induction p as [|a p IH]; simpl; [reflexivity | exact IH]. Qed.

Lemma append_inj_l (p a b : string) : p ++ a = p ++ b -> a = b.
Proof.
  induction p as [|c p IH]; simpl; intros H; [exact H|].
  injection H as H. now apply IH.
Qed.

Lemma showZ_inj (a b : Z) : Js.showZ a = Js.showZ b -> a = b.
Proof.
  unfold Js.showZ. intros H.
  apply DecimalZ.to_int_inj.
  assert (Hs : Some (Z.to_int a) = Some (Z.to_int b)).
  { rewrite <- (NilEmpty.isi (Z.to_int a)), <- (NilEmpty.isi (Z.to_int b)).
    now rewrite H. }
  now injection Hs.
Qed.

Lemma takeDigits_append (ds post : string) :
  Js.takeDigits ds = ds -> Js.takeDigits post = "" -> Js.takeDigits (ds ++ post) = ds.
Proof.
  induction ds as [|a ds IH]; simpl; intros Hds Hpost; [exact Hpost|].
  destruct (Js.isDigit a); [|discriminate].
  injection Hds as Hds. now rewrite IH.
Qed.

Lemma matchLiteralDigits_unfold (lit data : string) :
  Js.matchLiteralDigits lit data
  = match (if String.prefix lit data
           then match Js.takeDigits (Js.drop (String.length lit) data) with
                | EmptyString => None
                | ds => Some ds
                end
           else None) with
    | Some ds => Some ds
    | None => match data with
              | EmptyString => None
              | String _ rest => Js.matchLiteralDigits lit rest
              end
    end.
Proof. destruct data; reflexivity. Qed.

(** The pattern finds the digits that follow the first occurrence of the
    literal, when digits follow it. *)
Lemma matchLiteralDigits_first_occurrence (lit pre ds post : string) :
  (forall k, (k < String.length pre)%nat ->
             String.prefix lit (Js.drop k (pre ++ lit ++ ds ++ post)) = false) ->
  ds <> "" -> Js.takeDigits ds = ds -> Js.takeDigits post = "" ->
  Js.matchLiteralDigits lit (pre ++ lit ++ ds ++ post) = Some ds.
Proof.
  intros Hfirst Hne Hds Hpost.
  induction pre as [|a pre IH].
  - simpl "++". rewrite matchLiteralDigits_unfold, prefix_append, drop_length_append.
    rewrite takeDigits_append by assumption.
    destruct ds; [now elim Hne | reflexivity].
  - rewrite matchLiteralDigits_unfold.
    assert (H0 := Hfirst 0%nat ltac:(simpl; lia)). cbn [Js.drop] in H0.
    rewrite H0. simpl "++". apply IH.
    intros k Hk. apply (Hfirst (S k)). simpl. lia.
Qed.

End StringFacts.

(* ------------------------------------------------------------------ *)
(** ** Numbers: from the digits echoed by the shell back to a number *)

Section Decimals.

Lemma parseDigits_acc (d : Decimal.uint) (acc : positive) :
  Js.parseDigits (Zpos acc) (NilEmpty.string_of_uint d) = Zpos (Pos.of_uint_acc d acc).
Proof.
  revert acc. induction d; intros acc; cbn [NilEmpty.string_of_uint Js.parseDigits
                                            Pos.of_uint_acc];
    try reflexivity;
    match goal with
    | |- Js.parseDigits (10 * Z.pos ?a + Js.digitValue ?c)%Z _
         = Zpos (Pos.of_uint_acc _ ?p) =>
        let v := eval vm_compute in (Js.digitValue c) in
        replace (10 * Z.pos a + Js.digitValue c)%Z with (Zpos p)
          by (change (Js.digitValue c) with v; lia);
        apply IHd
    end.
Qed.

Lemma parseDigits_uint (d : Decimal.uint) :
  Js.parseDigits 0 (NilEmpty.string_of_uint d) = Z.of_N (Pos.of_uint d).
Proof.
  induction d; cbn [NilEmpty.string_of_uint Js.parseDigits Pos.of_uint];
    try reflexivity;
    match goal with
    | |- Js.parseDigits ?z _ = Z.of_N (Npos (Pos.of_uint_acc _ ?p)) =>
        replace z with (Zpos p) by reflexivity; apply parseDigits_acc
    | |- Js.parseDigits ?z _ = Z.of_N (Pos.of_uint _) =>
        replace z with 0%Z by reflexivity; exact IHd
    end.
Qed.

Lemma takeDigits_uint (d : Decimal.uint) :
  Js.takeDigits (NilEmpty.string_of_uint d) = NilEmpty.string_of_uint d.
Proof.
  induction d; cbn [NilEmpty.string_of_uint Js.takeDigits]; try reflexivity;
    (replace (Js.isDigit _) with true by reflexivity); now rewrite IHd.
Qed.

Lemma showZ_nonnegative (n : Z) :
  (0 <= n)%Z ->
  exists d, Js.showZ n = NilEmpty.string_of_uint d /\ d <> Decimal.Nil
            /\ Z.of_N (Pos.of_uint d) = n.
Proof.
  intros Hn. unfold Js.showZ. destruct n as [|p|p]; [| |lia].
  - exists (Decimal.D0 Decimal.Nil). repeat split. discriminate.
  - exists (Pos.to_uint p). cbn [Z.to_int NilEmpty.string_of_int]. repeat split.
    + apply DecimalPos.Unsigned.to_uint_nonnil.
    + now rewrite DecimalPos.Unsigned.of_to.
Qed.

Lemma parseDigits_showZ (n : Z) : (0 <= n)%Z -> Js.parseDigits 0 (Js.showZ n) = n.
Proof.
  intros Hn. destruct (showZ_nonnegative n Hn) as (d & -> & _ & Hd).
  now rewrite parseDigits_uint.
Qed.

Lemma takeDigits_showZ (n : Z) :
  (0 <= n)%Z -> Js.takeDigits (Js.showZ n) = Js.showZ n /\ Js.showZ n <> "".
Proof.
  intros Hn. destruct (showZ_nonnegative n Hn) as (d & -> & Hnil & _).
  split; [apply takeDigits_uint|]. destruct d; try discriminate. now elim Hnil.
Qed.

End Decimals.

Lemma includes_unfold (hay needle : string) :
  Js.includes hay needle
  = if String.prefix needle hay then true
    else match hay with
         | EmptyString => false
         | String _ rest => Js.includes rest needle
         end.
Proof. destruct hay; reflexivity. Qed.

Lemma prefix_append_twice (p x y : string) : String.prefix p ((p ++ x) ++ y) = true.
Proof.
  induction p as [|a p IH]; cbn.
  - now destruct (x ++ y).
  - destruct (ascii_dec a a) as [_|Hne]; [exact IH | now elim Hne].
Qed.

(** A chunk that contains token-colon contains the token. *)
Lemma includes_marker (pre token rest : string) :
  Js.includes (pre ++ (token ++ ":") ++ rest) token = true.
Proof.
  induction pre as [|a pre IH]; rewrite includes_unfold.
  - change ("" ++ (token ++ ":") ++ rest) with ((token ++ ":") ++ rest).
    now rewrite prefix_append_twice.
  - change (String a pre ++ (token ++ ":") ++ rest)
      with (String a (pre ++ (token ++ ":") ++ rest)).
    cbv beta iota. rewrite IH. now destruct (String.prefix token _).
Qed.



Section NumberFacts.


(** Up to 53 bits nothing is rounded. *)
Lemma roundToDouble_safe (n : Z) : (0 <= n < 2 ^ 53)%Z -> Js.roundToDouble n = Js.Finite n.
Proof.
  intros Hn. unfold Js.roundToDouble.
  assert (Hlog : (Z.log2 n - 52 <= 0)%Z).
  { destruct (Z.eq_dec n 0) as [->|Hpos]; [cbn; lia|].
    assert (H : (Z.log2 n < 53)%Z) by (apply Z.log2_lt_pow2; lia). lia. }
  apply Z.leb_le in Hlog. cbv zeta. now rewrite Hlog.
Qed.

Lemma parseInt_showZ (n : Z) :
  (0 <= n < 2 ^ 53)%Z -> Js.parseInt (Js.showZ n) = Js.Finite n.
Proof.
  intros Hn. unfold Js.parseInt. rewrite parseDigits_showZ by lia.
  now apply roundToDouble_safe.
Qed.

Lemma showNumber_safe (n : Z) :
  (Z.abs n <= 2 ^ 53)%Z -> Js.showNumber (Js.Finite n) = Js.showZ n.
Proof.
  intros Hn. unfold Js.showNumber. apply Z.leb_le in Hn. now rewrite Hn.
Qed.

End NumberFacts.

(* ------------------------------------------------------------------ *)
(** ** The marker protocol *)

Section ChannelFacts.

Variables (terminal : nat) (commandId : string).

Lemma deliver_disposed (l : Channel.Listener) (events : list TerminalDataWriteEvent) :
  Channel.subscribed l = false -> Channel.deliver terminal commandId l events = l.
Proof.
  unfold Channel.deliver. induction events as [|e events IH]; intros Hl; simpl.
  - reflexivity.
  - unfold Channel.onDidWriteTerminalData at 2. rewrite Hl. now apply IH.
Qed.

Lemma deliver_untriggered (events : list TerminalDataWriteEvent) :
  (forall e, In e events -> Channel.triggers terminal commandId e = false) ->
  Channel.deliver terminal commandId Channel.fresh events = Channel.fresh.
Proof.
  unfold Channel.deliver. induction events as [|e events IH]; intros H; simpl.
  - reflexivity.
  - unfold Channel.onDidWriteTerminalData at 2. simpl.
    rewrite (H e) by now left. apply IH. intros e' He'. apply H. now right.
Qed.

Lemma deliver_first_trigger (before after : list TerminalDataWriteEvent)
      (e : TerminalDataWriteEvent) :
  (forall e', In e' before -> Channel.triggers terminal commandId e' = false) ->
  Channel.triggers terminal commandId e = true ->
  Channel.deliver terminal commandId Channel.fresh (before ++ e :: after)
  = {| Channel.subscribed := false;
       Channel.settlement :=
         Some (if Js.strictEquals (Channel.exitCodeOf commandId (ev_data e)) (Js.Finite 0)
               then Channel.Resolved
               else Channel.Rejected (Channel.exitCodeOf commandId (ev_data e))) |}.
Proof.
  intros Hbefore He.
  unfold Channel.deliver. rewrite fold_left_app.
  fold (Channel.deliver terminal commandId Channel.fresh before).
  rewrite (deliver_untriggered before Hbefore). simpl.
  fold (Channel.deliver terminal commandId).
  unfold Channel.onDidWriteTerminalData at 2. simpl. rewrite He.
  now apply deliver_disposed.
Qed.

End ChannelFacts.

Section MarkerFacts.

Variables (terminal : nat) (commandId : string).

Lemma noneTriggers_untriggered (events : list TerminalDataWriteEvent) :
  noneTriggers terminal commandId events ->
  forall e, In e events -> Channel.triggers terminal commandId e = false.
Proof.
  intros Hnone e Hin. unfold Channel.triggers.
  destruct (Hnone e Hin) as [Hterm|Hdata].
  - apply Nat.eqb_neq in Hterm. now rewrite Hterm.
  - rewrite Hdata. apply andb_false_r.
Qed.

(** A sequence of events either never concerns the listener or has a
    first event that does. *)
Lemma first_trigger (events : list TerminalDataWriteEvent) :
  (forall e, In e events -> Channel.triggers terminal commandId e = false)
  \/ exists before e after,
      events = (before ++ e :: after)%list
      /\ (forall e', In e' before -> Channel.triggers terminal commandId e' = false)
      /\ Channel.triggers terminal commandId e = true.
Proof.
  induction events as [|e events IH].
  - left. intros e [].
  - destruct (Channel.triggers terminal commandId e) eqn:He.
    + right. exists [], e, events. repeat split; [intros e' []|exact He].
    + destruct IH as [Hnone|(before & e' & after & -> & Hbefore & He')].
      * left. intros e' [<-|Hin]; auto.
      * right. exists (e :: before), e', after. repeat split; [|exact He'].
        intros e'' [<-|Hin]; auto.
Qed.

End MarkerFacts.


Lemma commandId_inj (t1 t2 : Z) : Channel.commandId t1 = Channel.commandId t2 -> t1 = t2.
Proof.
  unfold Channel.commandId. intros H. apply append_inj_l in H. now apply showZ_inj.
Qed.

(** What an interactive command of the Executor does: one reading of the
    clock, one text sent, and the settlement decided by the listener. *)
Lemma runCommandInTerminal_run (w : World) (command : string) (terminal : nat) (s : State) :
  let commandId := Channel.commandId (dateNow w (clockReads s)) in
  let text := command ++ "; " ++ Channel.exitCodeCommand commandId in
  fst (Executor.runCommandInTerminal w command terminal s)
  = match Channel.settlement
            (Channel.deliver terminal commandId Channel.fresh
                             (terminalData w (submitted s) text)) with
    | Some Channel.Resolved => Ok tt
    | Some (Channel.Rejected exitCode) =>
        Throw {| message := "Command failed with exit code " ++ Js.showNumber exitCode
                            ++ "." |}
    | None => Pending
    end
  /\ trace (snd (Executor.runCommandInTerminal w command terminal s))
     = (trace s ++ [SendText terminal text])%list
  /\ clockReads (snd (Executor.runCommandInTerminal w command terminal s)) = S (clockReads s)
  /\ submitted (snd (Executor.runCommandInTerminal w command terminal s)) = S (submitted s).
Proof.
  intros commandId text. subst commandId text.
  unfold Executor.runCommandInTerminal, bind, now, sendText, emit, awaitTerminalData.
  cbn [clockReads submitted trace fst snd].
  destruct (Channel.settlement _) as [[|exitCode]|]; repeat split; reflexivity.
Qed.

(** The same for the Auditor, which logs the command first. *)
Lemma runCommandInTerminalAndWait_run (w : World) (command : string) (terminal : nat)
      (s : State) :
  let commandId := Channel.commandId (dateNow w (clockReads s)) in
  let text := command ++ "; " ++ Channel.exitCodeCommand commandId in
  fst (Auditor.runCommandInTerminalAndWait w terminal command s)
  = match Channel.settlement
            (Channel.deliver terminal commandId Channel.fresh
                             (terminalData w (submitted s) text)) with
    | Some Channel.Resolved => Ok tt
    | Some (Channel.Rejected exitCode) =>
        Throw {| message := "Command failed with exit code " ++ Js.showNumber exitCode
                            ++ ". Please check the terminal for details." |}
    | None => Pending
    end.
Proof.
  intros commandId text. subst commandId text.
  unfold Auditor.runCommandInTerminalAndWait, bind, now, sendText, appendLine, emit,
    awaitTerminalData.
  cbn [clockReads submitted trace fst snd].
  destruct (Channel.settlement _) as [[|exitCode]|]; reflexivity.
Qed.

(** C4 (amended): each call of the interactive command-run operation reads
    the millisecond clock once and derives its marker token from that
    reading; the tokens of two calls are distinct exactly when the two
    readings differ, and two calls that read the same millisecond share
    their token. *)
Theorem C4_tokens_differ_iff_clock_differs
        (w : World) (command1 command2 : string) (terminal1 terminal2 : nat)
        (s1 s2 : State) :
  let token1 := Channel.commandId (dateNow w (clockReads s1)) in
  let token2 := Channel.commandId (dateNow w (clockReads s2)) in
  trace (snd (Executor.runCommandInTerminal w command1 terminal1 s1))
  = (trace s1 ++ [SendText terminal1 (command1 ++ "; echo " ++ token1 ++ ":$?")])%list
  /\ trace (snd (Executor.runCommandInTerminal w command2 terminal2 s2))
     = (trace s2 ++ [SendText terminal2 (command2 ++ "; echo " ++ token2 ++ ":$?")])%list
  /\ (token1 <> token2 <-> dateNow w (clockReads s1) <> dateNow w (clockReads s2)).
Proof.
  intros token1 token2. subst token1 token2.
  split; [apply runCommandInTerminal_run|].
  split; [apply runCommandInTerminal_run|].
  split.
  - intros Hne Heq. apply Hne. now rewrite Heq.
  - intros Hne Heq. apply Hne. now apply commandId_inj.
Qed.

(** C4 as stated fails: two calls, for different commands, made within the
    same millisecond send the same marker token; and output carrying the
    first call's marker settles the second call. *)
Lemma C4_same_millisecond_same_token :
  let w := Scenario.linuxApt (fun _ _ => [ {| ev_terminal := 0;
                                               ev_data := Scenario.token ++ ":0" |} ]) None in
  let first := Executor.runCommandInTerminal w "sudo apt-get remove -y nodejs" 0 initialState in
  let second := Executor.runCommandInTerminal w "sudo apt-get install -y nodejs" 0 (snd first) in
  trace (snd second)
  = [ SendText 0 ("sudo apt-get remove -y nodejs; echo " ++ Scenario.token ++ ":$?");
      SendText 0 ("sudo apt-get install -y nodejs; echo " ++ Scenario.token ++ ":$?") ]
  /\ ~ (Channel.commandId (dateNow w (clockReads initialState))
        <> Channel.commandId (dateNow w (clockReads (snd first))))
  /\ fst second = Ok tt.
Proof.
  repeat split.
  intros H. apply H. reflexivity.
Qed.



(** C10: when the first chunk containing the token does not contain the
    pattern token:digits, the exit code is taken to be -1, the listener is
    disposed, and the command rejects with exit code -1, in the Executor
    and in the Auditor alike; whatever chunks follow, the outcome stays. *)
Theorem C10_marker_without_digits_rejects
        (w : World) (command : string) (terminal : nat) (s : State)
        (before after : list TerminalDataWriteEvent) (e : TerminalDataWriteEvent) :
  let commandId := Channel.commandId (dateNow w (clockReads s)) in
  let text := command ++ "; " ++ Channel.exitCodeCommand commandId in
  let rejected := {| Channel.subscribed := false;
                     Channel.settlement := Some (Channel.Rejected (Js.Finite (-1))) |} in
  terminalData w (submitted s) text = (before ++ e :: after)%list ->
  (forall e', In e' before -> Channel.triggers terminal commandId e' = false) ->
  Channel.triggers terminal commandId e = true ->
  Js.matchLiteralDigits (commandId ++ ":") (ev_data e) = None ->
  Channel.exitCodeOf commandId (ev_data e) = Js.Finite (-1)
  /\ Channel.deliver terminal commandId Channel.fresh (before ++ [e]) = rejected
  /\ (forall later,
         Channel.deliver terminal commandId Channel.fresh (before ++ e :: later) = rejected)
  /\ fst (Executor.runCommandInTerminal w command terminal s)
     = Throw {| message := "Command failed with exit code -1." |}
  /\ fst (Auditor.runCommandInTerminalAndWait w terminal command s)
     = Throw {| message := "Command failed with exit code -1. Please check the terminal for details." |}.
Proof.
  intros commandId text rejected Hdata Hbefore He Hnomatch.
  assert (Hcode : Channel.exitCodeOf commandId (ev_data e) = Js.Finite (-1)).
  { unfold Channel.exitCodeOf. now rewrite Hnomatch. }
  assert (Hlater : forall later,
             Channel.deliver terminal commandId Channel.fresh (before ++ e :: later)
             = rejected).
  { intros later. rewrite deliver_first_trigger by assumption. now rewrite Hcode. }
  split; [exact Hcode|].
  split; [apply Hlater|].
  split; [exact Hlater|].
  split.
  - destruct (runCommandInTerminal_run w command terminal s) as (Hr & _).
    rewrite Hr. fold commandId. fold text. now rewrite Hdata, Hlater.
  - rewrite runCommandInTerminalAndWait_run. fold commandId. fold text.
    now rewrite Hdata, Hlater.
Qed.

(** The terminal echoes the line typed into it, marker command included,
    before the command has run: the echo holds the token followed by ":$?",
    and the complete marker printed afterwards comes too late. *)
Lemma C10_witness_echo_rejects :
  fst (Executor.runCommandInTerminal
         (Scenario.linuxApt (fun _ => Scenario.echoThenMarker) None)
         "sudo apt-get install -y nodejs" 0 initialState)
  = Throw {| message := "Command failed with exit code -1." |}.
Proof.
  refine (proj1 (proj2 (proj2 (proj2
    (C10_marker_without_digits_rejects
       (Scenario.linuxApt (fun _ => Scenario.echoThenMarker) None)
       "sudo apt-get install -y nodejs" 0 initialState
       []
       [ {| ev_terminal := 0; ev_data := Scenario.token ++ ":0" |} ]
       {| ev_terminal := 0;
          ev_data := "sudo apt-get install -y nodejs; echo " ++ Scenario.token ++ ":$?" |}
       eq_refl _ eq_refl eq_refl))))).
  intros e' [].
Defined.

(* ------------------------------------------------------------------ *)
(** ** Frame rules of the effect monad *)

Section Frame.

Variable R : State -> State -> Prop.
Hypothesis R_refl : forall s, R s s.
Hypothesis R_trans : forall a b c, R a b -> R b c -> R a c.

Lemma respects_ret {A : Type} (a : A) : respects R (ret a).
Proof. intros s. apply R_refl. Qed.

Lemma respects_throw {A : Type} (e : Error) : respects R (@throw A e).
Proof. intros s. apply R_refl. Qed.

Lemma respects_pending {A : Type} : respects R (fun s => (@Pending A, s)).
Proof. intros s. apply R_refl. Qed.

Lemma respects_readDetected : respects R readDetected.
Proof. intros s. apply R_refl. Qed.

Lemma respects_bind {A B : Type} (m : M A) (k : A -> M B) :
  respects R m -> (forall a, respects R (k a)) -> respects R (bind m k).
Proof.
  intros Hm Hk s. unfold bind. specialize (Hm s).
  destruct (m s) as [[a|e|] s1]; simpl in *; [|assumption|assumption].
  eapply R_trans; [exact Hm | apply Hk].
Qed.

Lemma respects_tryCatch {A : Type} (body : M A) (handler : Error -> M A) :
  respects R body -> (forall e, respects R (handler e)) ->
  respects R (tryCatch body handler).
Proof.
  intros Hb Hh s. unfold tryCatch. specialize (Hb s).
  destruct (body s) as [[a|e|] s1]; simpl in *; [assumption| |assumption].
  eapply R_trans; [exact Hb | apply Hh].
Qed.

Lemma respects_forEach {A : Type} (xs : list A) (body : A -> M unit) :
  (forall x, respects R (body x)) -> respects R (forEach xs body).
Proof.
  intros Hb. induction xs as [|x xs IH]; simpl.
  - apply respects_ret.
  - apply respects_bind; [apply Hb | intros _; exact IH].
Qed.

End Frame.

Section Outcomes.








End Outcomes.

(** The relations used below are preorders. *)
Lemma sameCache_refl (s : State) : sameCache s s.
Proof. split; reflexivity. Qed.

Lemma sameCache_trans (a b c : State) : sameCache a b -> sameCache b c -> sameCache a c.
Proof. unfold sameCache. intros [H1 H2] [H3 H4]. split; congruence. Qed.

Section Growth.

Variable Q : Obs -> Prop.

Lemma extendsWith_refl (s : State) : extendsWith Q s s.
Proof. exists []. split; [now rewrite app_nil_r | constructor]. Qed.

Lemma extendsWith_trans (a b c : State) :
  extendsWith Q a b -> extendsWith Q b c -> extendsWith Q a c.
Proof.
  intros (n1 & H1 & F1) (n2 & H2 & F2). exists (n1 ++ n2)%list. split.
  - now rewrite H2, H1, app_assoc.
  - apply Forall_app. now split.
Qed.

Lemma extendsWith_same (s s' : State) : trace s' = trace s -> extendsWith Q s s'.
Proof. intros H. exists []. split; [now rewrite app_nil_r | constructor]. Qed.

Lemma extendsWith_one (o : Obs) (s s' : State) :
  trace s' = (trace s ++ [o])%list -> Q o -> extendsWith Q s s'.
Proof. intros H Ho. exists [o]. split; [exact H | now repeat constructor]. Qed.

End Growth.

(** Decomposition of a computation into the rules above; [leaf] closes the
    goals about primitive actions. *)
Ltac frame_with refl trans leaf :=
  repeat lazymatch goal with
    | |- respects _ (bind _ _) => apply (respects_bind _ trans); [| intros ?]
    | |- respects _ (tryCatch _ _) => apply (respects_tryCatch _ trans); [| intros ?]
    | |- respects _ (forEach _ _) => apply (respects_forEach _ refl trans); intros ?
    | |- respects _ (ret _) => apply (respects_ret _ refl)
    | |- respects _ (throw _) => apply (respects_throw _ refl)
    | |- respects _ readDetected => apply (respects_readDetected _ refl)
    | |- respects _ (fun s => (Pending, s)) => apply (respects_pending _ refl)
    | |- respects _ (match ?x with _ => _ end) => destruct x
    | |- respects _ _ => leaf
    end.

Ltac unfold_executor :=
  unfold Executor.executeStep, Executor.stepBody, Executor.stepCatch,
    Executor.installDependency, Executor.uninstallDependency, Executor.whenTerminal,
    Executor.runCommand, Executor.runCommandInTerminal, Executor.runCommandSilently,
    appendLine, append, sendText, terminalShow, showErrorMessage,
    showInformationMessage, openExternal;
  cbv zeta.

(* ------------------------------------------------------------------ *)
(** ** Executor: what a step leaves untouched *)

Section ExecutorFrames.

Variable w : World.

Ltac same_leaf := intros ?; split; reflexivity.

Lemma executeStep_sameCache (terminal : option nat) (step : ActionStep) :
  respects sameCache (Executor.executeStep w terminal step).
Proof.
  unfold_executor.
  frame_with sameCache_refl sameCache_trans same_leaf.
Qed.

Lemma loop_sameCache (terminal : option nat) (plan : ActionPlan) :
  respects sameCache (forEach plan (Executor.executeStep w terminal)).
Proof.
  apply (respects_forEach _ sameCache_refl sameCache_trans).
  intros step. apply executeStep_sameCache.
Qed.

End ExecutorFrames.

(* ------------------------------------------------------------------ *)
(** ** Executor: one step of the plan *)

Section ExecutorSteps.

Variable w : World.

Lemma logged_logged (a b : list Obs) (s : State) :
  logged b (logged a s) = logged (a ++ b) s.
Proof. unfold logged. simpl. now rewrite app_assoc. Qed.

Lemma stepCatch_run (terminal : option nat) (step : ActionStep) (s : State) :
  Executor.stepCatch terminal step s = (Ok tt, logged (failureLog terminal step) s).
Proof.
  unfold Executor.stepCatch, failureLog, Executor.whenTerminal, appendLine, sendText,
    bind, emit, ret, logged.
  destruct terminal; simpl; [rewrite <- app_assoc|]; reflexivity.
Qed.


Lemma executeStep_caught (terminal : option nat) (step : ActionStep)
      (s s1 : State) (e : Error) :
  Executor.stepBody w terminal step s = (Throw e, s1) ->
  Executor.executeStep w terminal step s
  = (Ok tt, logged (failureLog terminal step) s1).
Proof.
  intros Hbody. unfold Executor.executeStep, tryCatch. rewrite Hbody.
  apply stepCatch_run.
Qed.

Ltac quiet_leaf :=
  intros ?;
  first [ apply extendsWith_same; reflexivity
        | eapply extendsWith_one;
          [ reflexivity
          | unfold notInstallLine, Executor.installStartLine,
              Executor.uninstallStartLine; simpl; discriminate ] ].

(** After its opening line, an uninstall writes nothing that opens an
    install. *)
Lemma uninstall_rest_quiet (dep : DependencyRequirement)
      (step : ActionStep) (terminal : option nat) (s : State) :
  exists rest,
    trace (snd (Executor.uninstallDependency w step terminal s))
    = (trace s ++ AppendLine (Executor.uninstallStartLine (dependency step)) :: rest)%list
    /\ Forall (notInstallLine dep) rest.
Proof.
  assert (Hrest : respects (extendsWith (notInstallLine dep))
            (detected <- readDetected ;;
             match Executor.getUninstallCommand w detected (dependency step) with
             | None =>
                 showErrorMessage (Executor.noUninstallCommand (dependency step)) ;;
                 throw {| message := Executor.noUninstallCommand (dependency step) |}
             | Some command => Executor.runCommand w command terminal
             end)%monad).
  { unfold_executor.
    frame_with (extendsWith_refl (notInstallLine dep))
               (extendsWith_trans (notInstallLine dep)) quiet_leaf. }
  destruct (Hrest (logged [AppendLine (Executor.uninstallStartLine (dependency step))] s))
    as (rest & Htrace & Hquiet).
  exists rest. split; [|exact Hquiet].
  simpl in Htrace. rewrite <- app_assoc in Htrace. exact Htrace.
Qed.

End ExecutorSteps.

Section StepOpenings.

Variable w : World.

Ltac grow_leaf :=
  intros ?;
  first [ apply extendsWith_same; reflexivity
        | eapply extendsWith_one; [reflexivity | exact I] ].

Ltac grows :=
  unfold_executor;
  frame_with (extendsWith_refl (fun _ => True)) (extendsWith_trans (fun _ => True))
             grow_leaf.

(** A guarded computation that starts by writing a line to the log. *)
Lemma opens_with (line : string) (k : M unit) (handler : Error -> M unit) (s : State) :
  respects (extendsWith (fun _ => True)) (tryCatch k handler) ->
  exists rest,
    trace (snd (tryCatch (appendLine line ;; k) handler s))
    = (trace s ++ AppendLine line :: rest)%list.
Proof.
  intros H. destruct (H (logged [AppendLine line] s)) as (rest & Htrace & _).
  exists rest. simpl in Htrace. rewrite <- app_assoc in Htrace. exact Htrace.
Qed.

Lemma install_step_opens (terminal : option nat) (step : ActionStep) (s : State) :
  exists rest,
    trace (snd (tryCatch (Executor.installDependency w step terminal)
                         (fun _ => Executor.stepCatch terminal step) s))
    = (trace s ++ AppendLine (Executor.installStartLine (dependency step)) :: rest)%list.
Proof.
  unfold Executor.installDependency. cbv zeta. apply opens_with. grows.
Qed.


End StepOpenings.

Lemma failureLog_quiet (dep : DependencyRequirement) (terminal : option nat)
      (step : ActionStep) :
  Forall (notInstallLine dep) (failureLog terminal step).
Proof.
  unfold failureLog, notInstallLine, Executor.installStartLine, Executor.failedMessage.
  destruct terminal; repeat constructor; simpl; discriminate.
Qed.

Lemma quiet_not_In (dep : DependencyRequirement) (log : list Obs) :
  Forall (notInstallLine dep) log ->
  ~ In (AppendLine (Executor.installStartLine dep)) log.
Proof.
  intros Hq Hin. rewrite Forall_forall in Hq. now apply (Hq _ Hin).
Qed.

(** C1 (amended): in a REINSTALL step the uninstall comes first, and the
    install is attempted next exactly when the uninstall succeeded.  A
    failure of the uninstall (a failing command, or no command) fails the
    whole step: it is caught and logged, and the install is not attempted. *)
Theorem C1_reinstall_installs_after_successful_uninstall
        (w : World) (terminal : option nat) (step : ActionStep) (s : State) :
  action step = REINSTALL ->
  let dep := dependency step in
  let uninstall := Executor.uninstallDependency w step terminal s in
  let result := Executor.executeStep w terminal step s in
  let installLine := AppendLine (Executor.installStartLine dep) in
  (exists rest,
      trace (snd uninstall)
      = (trace s ++ AppendLine (Executor.uninstallStartLine dep) :: rest)%list
      /\ ~ In installLine rest)
  /\ (fst uninstall = Ok tt ->
      result = tryCatch (Executor.installDependency w step terminal)
                        (fun _ => Executor.stepCatch terminal step) (snd uninstall)
      /\ exists rest,
          trace (snd result) = (trace (snd uninstall) ++ installLine :: rest)%list)
  /\ (forall e, fst uninstall = Throw e ->
                result = (Ok tt, logged (failureLog terminal step) (snd uninstall))
                /\ ~ In installLine (failureLog terminal step))
  /\ (fst uninstall = Pending -> result = (Pending, snd uninstall)).
Proof.
  intros Haction dep uninstall result installLine.
  assert (Hresult : result
            = match uninstall with
              | (Ok _, s1) =>
                  tryCatch (Executor.installDependency w step terminal)
                           (fun _ => Executor.stepCatch terminal step) s1
              | (Throw e, s1) => Executor.stepCatch terminal step s1
              | (Pending, s1) => (Pending, s1)
              end).
  { subst result uninstall.
    unfold Executor.executeStep, Executor.stepBody. rewrite Haction.
    unfold tryCatch, bind.
    destruct (Executor.uninstallDependency w step terminal s) as [[[]|e|] s1];
      reflexivity. }
  split; [|split; [|split]].
  - destruct (uninstall_rest_quiet w dep step terminal s) as (rest & Htrace & Hquiet).
    exists rest. split; [exact Htrace | now apply quiet_not_In].
  - intros Hok. rewrite Hresult.
    destruct uninstall as [[[]|e|] s1]; try discriminate. cbn [snd].
    split; [reflexivity|].
    apply install_step_opens.
  - intros e He. rewrite Hresult.
    destruct uninstall as [[[]|e'|] s1]; try discriminate. cbn [snd].
    split; [apply stepCatch_run | apply quiet_not_In, failureLog_quiet].
  - intros Hp. rewrite Hresult.
    destruct uninstall as [[[]|e'|] s1]; try discriminate. reflexivity.
Qed.

(** C1 as stated fails: on macOS, when removing node fails, the step is
    marked failed and the install command, which exists, is never run. *)
Lemma C1_failed_uninstall_skips_install :
  let w := Scenario.macFailingUninstall in
  let run := Executor.executePlan w [Scenario.stepFor Scenario.node REINSTALL] initialState in
  Executor.getInstallCommand w None Scenario.node = Some "brew install node"
  /\ fst run = Ok tt
  /\ trace (snd run)
     = [ AppendLine "[Executor] Starting execution of 1-step plan.";
         AppendLine "[Executor] Starting UNINSTALL for 'Node.js'...";
         AppendLine "[Executor] > Running silently: brew uninstall node";
         Exec "brew uninstall node";
         Append "Command failed: brew uninstall node";
         AppendLine "[Executor] FAILED step for 'Node.js'. Check logs or terminal for details.";
         AppendLine "[Executor] Plan execution finished." ]
  /\ ~ In (Exec "brew install node") (trace (snd run))
  /\ ~ In (AppendLine "[Executor] Starting INSTALL for 'Node.js'...") (trace (snd run)).
Proof.
  cbv zeta. split; [reflexivity|]. split; [reflexivity|]. split; [reflexivity|].
  split; vm_compute; intuition discriminate.
Qed.

(** The same failure through the theorem: the step ends in the handler,
    right after the uninstall. *)
Lemma C1_witness_failed_uninstall :
  Executor.executeStep Scenario.macFailingUninstall None
                       (Scenario.stepFor Scenario.node REINSTALL) initialState
  = (Ok tt,
     logged (failureLog None (Scenario.stepFor Scenario.node REINSTALL))
            (snd (Executor.uninstallDependency Scenario.macFailingUninstall
                    (Scenario.stepFor Scenario.node REINSTALL) None initialState))).
Proof.
  refine (proj1 (proj1 (proj2 (proj2
    (C1_reinstall_installs_after_successful_uninstall
       Scenario.macFailingUninstall None
       (Scenario.stepFor Scenario.node REINSTALL) initialState eq_refl)))
    {| message := "Command failed: brew uninstall node" |} eq_refl)).
Defined.

(* ------------------------------------------------------------------ *)
(** ** Executor: silent commands and the detection of the package manager *)

Section Detection.

Variable w : World.

Lemma logged_nil (s : State) : logged [] s = s.
Proof. destruct s. unfold logged. simpl. now rewrite app_nil_r. Qed.

Lemma forEach_append (chunks : list (Stream * string)) (s : State) :
  forEach chunks (fun chunk => append (snd chunk)) s
  = (Ok tt, logged (map (fun chunk => Append (snd chunk)) chunks) s).
Proof.
  revert s. induction chunks as [|chunk chunks IH]; intros s; simpl.
  - now rewrite logged_nil.
  - unfold bind, append, emit at 1. rewrite IH. f_equal.
    unfold logged. simpl. now rewrite <- app_assoc.
Qed.

Lemma runCommandSilently_run (command : string) (s : State) :
  Executor.runCommandSilently w command s
  = (match exec_error (cp_exec w (spawned s) command) with
     | Some error =>
         Throw {| message := if killed error
                             then "Command timed out after 10 minutes."
                             else exec_message error |}
     | None => Ok tt
     end,
     afterSilent w command s).
Proof.
  unfold Executor.runCommandSilently, bind, appendLine, emit, exec. simpl.
  rewrite forEach_append.
  destruct (exec_error (cp_exec w (spawned s) command)); unfold throw, ret;
    (f_equal; unfold logged, afterSilent; simpl; f_equal; now rewrite <- !app_assoc).
Qed.

(** One round of the detection loop. *)
Lemma probe_run (m : PackageManager) (s : State) :
  tryCatch
    (Executor.runCommandSilently w ("command -v " ++ managerName m) ;;
     appendLine ("[Executor] Detected: " ++ managerName m) ;;
     assignDetected m ;;
     ret true)
    (fun _ => ret false) s
  = if present w (spawned s) m
    then (Ok true,
          snd (assignDetected m
                 (logged [AppendLine ("[Executor] Detected: " ++ managerName m)]
                         (afterSilent w ("command -v " ++ managerName m) s))))
    else (Ok false, afterSilent w ("command -v " ++ managerName m) s).
Proof.
  unfold tryCatch, bind. rewrite runCommandSilently_run. unfold present.
  destruct (exec_error (cp_exec w (spawned s) ("command -v " ++ managerName m)));
    reflexivity.
Qed.

Lemma afterSilent_grows (command : string) (s : State) :
  extendsWith (fun _ => True) s (afterSilent w command s).
Proof.
  eexists. split; [reflexivity | apply Forall_forall; intros; exact I].
Qed.

Lemma detectAmong_spec (managers : list PackageManager) (s : State) :
  let r := Executor.detectAmong w managers s in
  fst r = Ok tt
  /\ detectedPackageManager (snd r) = Some (firstPresent w (spawned s) managers)
  /\ assignments (snd r) = S (assignments s)
  /\ extendsWith (fun _ => True) s (snd r)
  /\ submitted (snd r) = submitted s
  /\ clockReads (snd r) = clockReads s
  /\ terminals (snd r) = terminals s.
Proof.
  revert s. induction managers as [|m rest IH]; intros s.
  - simpl. repeat split.
    eapply extendsWith_one; [reflexivity | exact I].
  - assert (Hrun : Executor.detectAmong w (m :: rest) s
                   = if present w (spawned s) m
                     then (Ok tt,
                           snd (assignDetected m
                                  (logged [AppendLine ("[Executor] Detected: "
                                                       ++ managerName m)]
                                          (afterSilent w ("command -v " ++ managerName m) s))))
                     else Executor.detectAmong w rest
                            (afterSilent w ("command -v " ++ managerName m) s)).
    { cbn [Executor.detectAmong]. unfold bind at 1. rewrite probe_run.
      destruct (present w (spawned s) m); reflexivity. }
    cbv zeta. rewrite Hrun. cbn [firstPresent].
    destruct (present w (spawned s) m).
    + cbn [ret fst snd]. repeat split.
      apply (extendsWith_trans _ s (afterSilent w ("command -v " ++ managerName m) s));
        [apply afterSilent_grows|].
      eapply extendsWith_one; [reflexivity | exact I].
    + specialize (IH (afterSilent w ("command -v " ++ managerName m) s)).
      cbv zeta in IH. destruct IH as (H1 & H2 & H3 & H4 & H5 & H6 & H7).
      repeat split; try assumption.
      apply (extendsWith_trans _ s (afterSilent w ("command -v " ++ managerName m) s));
        [apply afterSilent_grows | exact H4].
Qed.

Lemma detectLinuxPackageManager_resolved (m : PackageManager) (s : State) :
  detectedPackageManager s = Some m ->
  Executor.detectLinuxPackageManager w s = (Ok tt, s).
Proof.
  intros Hm. unfold Executor.detectLinuxPackageManager, bind, readDetected.
  now rewrite Hm.
Qed.

Lemma detectLinuxPackageManager_fresh (s : State) :
  detectedPackageManager s = None ->
  let r := Executor.detectLinuxPackageManager w s in
  fst r = Ok tt
  /\ detectedPackageManager (snd r)
     = Some (firstPresent w (spawned s) [apt; dnf; pacman])
  /\ assignments (snd r) = S (assignments s)
  /\ extendsWith (fun _ => True) s (snd r)
  /\ submitted (snd r) = submitted s
  /\ clockReads (snd r) = clockReads s
  /\ terminals (snd r) = terminals s.
Proof.
  intros Hnone r. subst r.
  assert (Hrun : Executor.detectLinuxPackageManager w s
                 = Executor.detectAmong w [apt; dnf; pacman]
                     (logged [AppendLine "[Executor] Detecting Linux package manager..."] s)).
  { unfold Executor.detectLinuxPackageManager, bind, readDetected. now rewrite Hnone. }
  rewrite Hrun.
  destruct (detectAmong_spec [apt; dnf; pacman]
              (logged [AppendLine "[Executor] Detecting Linux package manager..."] s))
    as (H1 & H2 & H3 & H4 & H5 & H6 & H7).
  repeat split; try assumption.
  apply (extendsWith_trans _ s
           (logged [AppendLine "[Executor] Detecting Linux package manager..."] s));
    [|exact H4].
  eexists. split; [reflexivity | apply Forall_forall; intros; exact I].
Qed.

Lemma detectLinuxPackageManager_ok (s : State) :
  fst (Executor.detectLinuxPackageManager w s) = Ok tt.
Proof.
  destruct (detectedPackageManager s) as [m|] eqn:Hm.
  - now rewrite (detectLinuxPackageManager_resolved m).
  - now apply detectLinuxPackageManager_fresh.
Qed.

Lemma detectLinuxPackageManager_stable :
  respects cacheStable (Executor.detectLinuxPackageManager w).
Proof.
  intros s m Hm. rewrite (detectLinuxPackageManager_resolved m s Hm). now split.
Qed.


End Detection.

(* ------------------------------------------------------------------ *)
(** ** Executor: the run as a whole *)

Section Runs.

Variable w : World.

(** A run is its setup, the loop over the plan, and the completion
    marker. *)
Lemma executePlan_phases (plan : ActionPlan) (s : State) :
  Executor.executePlan w plan s
  = match forEach plan (Executor.executeStep w (terminalOfRun w s))
                  (stateAfterSetup w plan s) with
    | (Ok _, s2) => (Ok tt, logged (completionMarker (terminalOfRun w s)) s2)
    | (Throw e, s2) => (Throw e, s2)
    | (Pending, s2) => (Pending, s2)
    end.
Proof.
  unfold Executor.executePlan, terminalOfRun, stateAfterSetup.
  destruct (String.eqb (platform w) "linux");
    unfold bind, appendLine, createTerminal, terminalShow, emit, ret;
    cbn [fst snd terminals].
  - match goal with
    | |- context [Executor.detectLinuxPackageManager w ?s0] =>
        assert (Hok := detectLinuxPackageManager_ok w s0);
        destruct (Executor.detectLinuxPackageManager w s0) as [[[]|e|] s1];
          try discriminate Hok
    end.
    cbn [snd].
    destruct (forEach plan (Executor.executeStep w (Some (terminals s))) s1)
      as [[[]|e|] s2]; try reflexivity.
    unfold Executor.whenTerminal, sendText, emit, completionMarker, logged.
    cbn [trace detectedPackageManager assignments spawned submitted clockReads terminals].
    now rewrite <- app_assoc.
  - match goal with
    | |- context [forEach plan ?body ?s0] =>
        destruct (forEach plan body s0) as [[[]|e|] s2]; try reflexivity
    end.
Qed.




Lemma stateAfterSetup_stable (plan : ActionPlan) (s : State) :
  cacheStable s (stateAfterSetup w plan s).
Proof.
  unfold stateAfterSetup. destruct (String.eqb (platform w) "linux").
  - intros m Hm.
    match goal with
    | |- context [Executor.detectLinuxPackageManager w ?s0] =>
        apply (detectLinuxPackageManager_stable w s0 m Hm)
    end.
  - intros m Hm. now split.
Qed.

Lemma stateAfterSetup_elsewhere (plan : ActionPlan) (s : State) :
  platform w <> "linux" -> sameCache s (stateAfterSetup w plan s).
Proof.
  intros Hp. unfold stateAfterSetup.
  apply String.eqb_neq in Hp. rewrite Hp. split; reflexivity.
Qed.

Lemma stateAfterSetup_detects (plan : ActionPlan) (s : State) :
  platform w = "linux" -> detectedPackageManager s = None ->
  detectedPackageManager (stateAfterSetup w plan s)
  = Some (firstPresent w (spawned s) [apt; dnf; pacman])
  /\ assignments (stateAfterSetup w plan s) = S (assignments s)
  /\ submitted (stateAfterSetup w plan s) = submitted s.
Proof.
  intros Hp Hnone. unfold stateAfterSetup. rewrite Hp.
  replace (("linux" =? "linux")%string) with true by reflexivity.
  match goal with
  | |- context [Executor.detectLinuxPackageManager w ?s0] =>
      destruct (detectLinuxPackageManager_fresh w s0 Hnone)
        as (_ & Hpm & Hassign & _ & Hsub & _)
  end.
  repeat split; assumption.
Qed.

Lemma executePlan_cache (plan : ActionPlan) (s : State) :
  sameCache (stateAfterSetup w plan s) (snd (Executor.executePlan w plan s)).
Proof.
  rewrite executePlan_phases.
  assert (H := loop_sameCache w (terminalOfRun w s) plan (stateAfterSetup w plan s)).
  destruct (forEach plan (Executor.executeStep w (terminalOfRun w s))
                    (stateAfterSetup w plan s)) as [[[]|e|] s2]; exact H.
Qed.

End Runs.

Section SilentRuns.

Variable w : World.



End SilentRuns.

Section AnsweredRuns.

Variable w : World.




End AnsweredRuns.



(** C3 (amended): the detected package manager is unresolved when the
    module is loaded, and no run resets it.  A Linux run that starts with
    it unresolved sets it exactly once, before the first step; a run that
    starts with it resolved, and every run off Linux, does not set it.
    Once resolved it never changes, within the run or in a later run, and
    no step of a plan ever touches it. *)
Theorem C3_detected_manager_is_a_process_wide_cache
        (w : World) (plan : ActionPlan) (s : State) :
  let s' := snd (Executor.executePlan w plan s) in
  detectedPackageManager initialState = None
  /\ (platform w = "linux" -> detectedPackageManager s = None ->
      detectedPackageManager s' = Some (firstPresent w (spawned s) [apt; dnf; pacman])
      /\ assignments s' = S (assignments s))
  /\ (forall m, detectedPackageManager s = Some m ->
                detectedPackageManager s' = Some m /\ assignments s' = assignments s)
  /\ (platform w <> "linux" ->
      detectedPackageManager s' = detectedPackageManager s
      /\ assignments s' = assignments s)
  /\ sameCache (stateAfterSetup w plan s) s'
  /\ (forall terminal step s0,
         sameCache s0 (snd (Executor.executeStep w terminal step s0))).
Proof.
  intros s'. subst s'.
  destruct (executePlan_cache w plan s) as [Hpm Hassign].
  split; [reflexivity|].
  split.
  { intros Hp Hnone.
    destruct (stateAfterSetup_detects w plan s Hp Hnone) as (H1 & H2 & _).
    split; congruence. }
  split.
  { intros m Hm. destruct (stateAfterSetup_stable w plan s m Hm) as [H1 H2].
    split; congruence. }
  split.
  { intros Hp. destruct (stateAfterSetup_elsewhere w plan s Hp) as [H1 H2].
    split; congruence. }
  split; [now split|].
  intros terminal step s0. apply executeStep_sameCache.
Qed.

(** C3 as stated fails: the second run in a process starts with the
    manager already resolved and never sets it, and a run on macOS never
    sets it either. *)
Lemma C3_later_runs_do_not_reset_or_set :
  let w := Scenario.linuxApt (fun _ => Scenario.echoThenMarker) None in
  let first := snd (Executor.executePlan w [] initialState) in
  let second := snd (Executor.executePlan w [] first) in
  let mac := snd (Executor.executePlan Scenario.macFailingUninstall [] initialState) in
  detectedPackageManager first = Some apt
  /\ assignments first = 1
  /\ assignments second = 1
  /\ spawned second = spawned first
  /\ detectedPackageManager mac = None
  /\ assignments mac = 0.
Proof. repeat split. Qed.

(* ------------------------------------------------------------------ *)
(** ** Executor: Linux without a supported package manager *)

Section UnknownManager.

Variable w : World.
Hypothesis on_linux : platform w = "linux".

Lemma getInstallCommand_unknown (dep : DependencyRequirement) :
  Executor.getInstallCommand w (Some unknown) dep = None.
Proof.
  unfold Executor.getInstallCommand. rewrite on_linux.
  destruct (Executor.getPackageNameForPlatform _ _ _); reflexivity.
Qed.

Lemma getUninstallCommand_unknown (dep : DependencyRequirement) :
  Executor.getUninstallCommand w (Some unknown) dep = None.
Proof.
  unfold Executor.getUninstallCommand. rewrite on_linux.
  destruct (Executor.getPackageNameForPlatform _ _ _); reflexivity.
Qed.

Lemma install_unknown (terminal : option nat) (step : ActionStep) (s : State) :
  detectedPackageManager s = Some unknown ->
  action step = INSTALL ->
  Executor.executeStep w terminal step s
  = (Ok tt,
     logged ([AppendLine (Executor.installStartLine (dependency step));
              ShowErrorMessage (Executor.noInstallCommand (dependency step))]
             ++ failureLog terminal step) s).
Proof.
  intros Hpm Haction. rewrite <- logged_logged.
  apply executeStep_caught
    with (e := {| message := Executor.noInstallCommand (dependency step) |}).
  unfold Executor.stepBody. rewrite Haction.
  unfold Executor.installDependency, bind, appendLine, showErrorMessage, emit,
    readDetected, throw.
  cbn [detectedPackageManager]. rewrite Hpm, getInstallCommand_unknown.
  f_equal. unfold logged. cbn. rewrite ?Hpm. now rewrite <- app_assoc.
Qed.

Lemma reinstall_unknown (terminal : option nat) (step : ActionStep) (s : State) :
  detectedPackageManager s = Some unknown ->
  action step = REINSTALL ->
  Executor.executeStep w terminal step s
  = (Ok tt,
     logged ([AppendLine (Executor.uninstallStartLine (dependency step));
              ShowErrorMessage (Executor.noUninstallCommand (dependency step))]
             ++ failureLog terminal step) s).
Proof.
  intros Hpm Haction. rewrite <- logged_logged.
  apply executeStep_caught
    with (e := {| message := Executor.noUninstallCommand (dependency step) |}).
  unfold Executor.stepBody. rewrite Haction.
  unfold Executor.uninstallDependency, bind, appendLine, showErrorMessage, emit,
    readDetected, throw.
  cbn [detectedPackageManager]. rewrite Hpm, getUninstallCommand_unknown.
  f_equal. unfold logged. cbn. rewrite ?Hpm. now rewrite <- app_assoc.
Qed.

Lemma met_step (terminal : option nat) (step : ActionStep) (s : State) :
  action step = ALREADY_MET ->
  exists log, Executor.executeStep w terminal step s = (Ok tt, logged log s).
Proof.
  intros Haction. unfold Executor.executeStep, Executor.stepBody, tryCatch.
  rewrite Haction. unfold bind, appendLine, Executor.whenTerminal, sendText, emit, ret.
  destruct terminal as [t|]; eexists; unfold logged; cbn.
  - rewrite <- app_assoc. reflexivity.
  - reflexivity.
Qed.

(** With no manager detected the loop runs to its end without running
    any command, and logs the failure of every step that needed one. *)
Lemma loop_unknown (terminal : option nat) (plan : ActionPlan) (s : State) :
  detectedPackageManager s = Some unknown ->
  exists log,
    forEach plan (Executor.executeStep w terminal) s = (Ok tt, logged log s)
    /\ forall step, In step plan -> action step <> ALREADY_MET ->
                    In (AppendLine (Executor.failedMessage (dependency step))) log.
Proof.
  revert s. induction plan as [|step rest IH]; intros s Hpm.
  - exists []. split; [now rewrite logged_nil | intros step []].
  - assert (Hstep : exists log,
               Executor.executeStep w terminal step s = (Ok tt, logged log s)
               /\ (action step <> ALREADY_MET ->
                   In (AppendLine (Executor.failedMessage (dependency step))) log)).
    { destruct (action step) eqn:Haction.
      - eexists. split; [now apply install_unknown|].
        intros _. unfold failureLog. simpl. auto.
      - eexists. split; [now apply reinstall_unknown|].
        intros _. unfold failureLog. simpl. auto.
      - destruct (met_step terminal step s Haction) as (log & Hlog).
        exists log. split; [exact Hlog | intros H; now elim H]. }
    destruct Hstep as (log & Hrun & Hfailed).
    destruct (IH (logged log s) Hpm) as (log' & Hrest & Hfailed').
    exists (log ++ log')%list. split.
    + cbn [forEach]. unfold bind. rewrite Hrun, Hrest. now rewrite logged_logged.
    + intros step' [<-|Hin] Hneeded; apply in_or_app; [left|right]; auto.
Qed.

End UnknownManager.

(** C8: on Linux the presence of apt, dnf and pacman is checked in this
    order and the first one found is recorded; when none is found, unknown
    is recorded.  With unknown recorded, an INSTALL step fails with the
    error that no install command is configured, a REINSTALL step with the
    error that no uninstall command is configured; the failure is logged,
    no command is run, and the step returns, so the loop proceeds: the
    whole run returns after logging the failure of every such step. *)
Theorem C8_linux_manager_priority_and_unknown
        (w : World) (s : State) (on_linux : platform w = "linux") :
  (detectedPackageManager s = None ->
   fst (Executor.detectLinuxPackageManager w s) = Ok tt
   /\ detectedPackageManager (snd (Executor.detectLinuxPackageManager w s))
      = Some (if present w (spawned s) apt then apt
              else if present w (S (spawned s)) dnf then dnf
              else if present w (S (S (spawned s))) pacman then pacman
              else unknown))
  /\ (detectedPackageManager s = Some unknown ->
      forall terminal step,
        (action step = INSTALL ->
         Executor.executeStep w terminal step s
         = (Ok tt,
            logged ([AppendLine (Executor.installStartLine (dependency step));
                     ShowErrorMessage
                       ("[Executor] ERROR: No install command configured for '"
                        ++ name (dependency step) ++ "' on this OS.")]
                    ++ failureLog terminal step) s))
        /\ (action step = REINSTALL ->
            Executor.executeStep w terminal step s
            = (Ok tt,
               logged ([AppendLine (Executor.uninstallStartLine (dependency step));
                        ShowErrorMessage
                          ("[Executor] ERROR: No uninstall command configured for '"
                           ++ name (dependency step) ++ "' on this OS.")]
                       ++ failureLog terminal step) s)))
  /\ (detectedPackageManager s = None ->
      present w (spawned s) apt = false ->
      present w (S (spawned s)) dnf = false ->
      present w (S (S (spawned s))) pacman = false ->
      forall plan,
        let run := Executor.executePlan w plan s in
        fst run = Ok tt
        /\ detectedPackageManager (snd run) = Some unknown
        /\ submitted (snd run) = submitted s
        /\ (forall step, In step plan -> action step <> ALREADY_MET ->
                         In (AppendLine (Executor.failedMessage (dependency step)))
                            (trace (snd run)))).
Proof.
  split; [|split].
  - intros Hnone.
    destruct (detectLinuxPackageManager_fresh w s Hnone) as (Hok & Hpm & _).
    split; [exact Hok | exact Hpm].
  - intros Hunknown terminal step. split; intros Haction.
    + exact (install_unknown w on_linux terminal step s Hunknown Haction).
    + exact (reinstall_unknown w on_linux terminal step s Hunknown Haction).
  - intros Hnone Hapt Hdnf Hpacman plan run. subst run.
    destruct (stateAfterSetup_detects w plan s on_linux Hnone) as (Hpm & _ & Hsub).
    cbn [firstPresent] in Hpm. rewrite Hapt, Hdnf, Hpacman in Hpm.
    destruct (loop_unknown w on_linux (terminalOfRun w s) plan
                           (stateAfterSetup w plan s) Hpm) as (log & Hloop & Hfailed).
    rewrite executePlan_phases, Hloop. cbn [fst snd].
    repeat split; try assumption.
    intros step Hin Hneeded. cbn [logged trace].
    apply in_or_app. left. apply in_or_app. right. now apply Hfailed.
Qed.

(** A Linux host with none of the three managers: the plan is walked to
    its end. *)
Lemma C8_witness_bare_linux :
  fst (Executor.executePlan Scenario.linuxBare
         [Scenario.stepFor Scenario.node INSTALL; Scenario.stepFor Scenario.git REINSTALL]
         initialState) = Ok tt
  /\ detectedPackageManager
       (snd (Executor.executePlan Scenario.linuxBare
               [Scenario.stepFor Scenario.node INSTALL;
                Scenario.stepFor Scenario.git REINSTALL]
               initialState)) = Some unknown.
Proof.
  destruct (proj2 (proj2 (C8_linux_manager_priority_and_unknown
                            Scenario.linuxBare initialState eq_refl))
                  eq_refl eq_refl eq_refl eq_refl
                  [Scenario.stepFor Scenario.node INSTALL;
                   Scenario.stepFor Scenario.git REINSTALL])
    as (Hok & Hpm & _).
  split; [exact Hok | exact Hpm].
Defined.

(* ------------------------------------------------------------------ *)
(** ** Auditor *)

Section AuditorFacts.

Variable w : World.
Variable trim : string -> string.
Variable coerce : string -> option string.

Lemma readConfigIn_spec (folders : list WorkspaceFolder) (s : State) :
  fst (Auditor.readConfigIn w folders s) = Ok (firstConfig folders)
  /\ spawned (snd (Auditor.readConfigIn w folders s)) = spawned s
  /\ extendsWith (fun _ => True) s (snd (Auditor.readConfigIn w folders s)).
Proof.
  assert (Hall : forall log : list Obs, Forall (fun _ => True) log)
    by (intros log; apply Forall_forall; intros; exact I).
  revert s. induction folders as [|folder rest IH]; intros s.
  - cbn. repeat split. eexists. split; [reflexivity | apply Hall].
  - cbn [Auditor.readConfigIn firstConfig].
    destruct (configRead folder) as [| | |config].
    + apply IH.
    + unfold bind, appendLine, emit.
      match goal with
      | |- context [Auditor.readConfigIn w rest ?s0] =>
          destruct (IH s0) as (H1 & H2 & H3)
      end.
      repeat split; try assumption.
      eapply extendsWith_trans; [|exact H3].
      eexists. split; [reflexivity | apply Hall].
    + unfold bind, appendLine, emit.
      match goal with
      | |- context [Auditor.readConfigIn w rest ?s0] =>
          destruct (IH s0) as (H1 & H2 & H3)
      end.
      repeat split; try assumption.
      eapply extendsWith_trans; [|exact H3].
      eexists. split; [|apply Hall]. cbn. rewrite <- app_assoc. reflexivity.
    + cbn. repeat split. eexists. split; [reflexivity | apply Hall].
Qed.

Lemma readConfigFile_spec (s : State) :
  fst (Auditor.readConfigFile w s)
  = Ok (match workspaceFolders w with
        | Some folders => firstConfig folders
        | None => None
        end)
  /\ spawned (snd (Auditor.readConfigFile w s)) = spawned s
  /\ extendsWith (fun _ => True) s (snd (Auditor.readConfigFile w s)).
Proof.
  unfold Auditor.readConfigFile. destruct (workspaceFolders w) as [folders|].
  - apply readConfigIn_spec.
  - cbn. repeat split. eexists. split; [reflexivity|].
    apply Forall_forall; intros; exact I.
Qed.

(** One probe per dependency, in order; a failing probe yields a result
    like any other. *)
Lemma probeAll_spec (deps : list DependencyRequirement) (s : State) :
  exists results,
    fst (Auditor.probeAll w trim coerce deps s) = Ok results
    /\ map ar_dependency results = deps
    /\ spawned (snd (Auditor.probeAll w trim coerce deps s))
       = (length deps + spawned s)%nat
    /\ extendsWith (fun _ => True) s (snd (Auditor.probeAll w trim coerce deps s)).
Proof.
  assert (Hall : forall log : list Obs, Forall (fun _ => True) log)
    by (intros log; apply Forall_forall; intros; exact I).
  revert s. induction deps as [|dep rest IH]; intros s.
  - exists []. cbn. repeat split. apply extendsWith_refl.
  - assert (Hprobe : exists result,
               Auditor.checkSingleDependency w trim coerce dep s
               = (Ok result, snd (exec w (cliName dep ++ " " ++ versionFlag dep) s))
               /\ ar_dependency result = dep).
    { unfold Auditor.checkSingleDependency, bind, exec.
      destruct (exec_error _); eexists; split; reflexivity. }
    destruct Hprobe as (result & Hrun & Hdep).
    set (s1 := snd (exec w (cliName dep ++ " " ++ versionFlag dep) s)) in *.
    destruct (IH s1) as (results & H1 & H2 & H3 & H4).
    assert (Hwhole : Auditor.probeAll w trim coerce (dep :: rest) s
                     = (Ok (result :: results),
                        snd (Auditor.probeAll w trim coerce rest s1))).
    { cbn [Auditor.probeAll]. unfold bind. rewrite Hrun.
      destruct (Auditor.probeAll w trim coerce rest s1) as [[rs| |] s2];
        cbn [fst] in H1; try discriminate.
      injection H1 as ->. reflexivity. }
    exists (result :: results). rewrite Hwhole. cbn [fst snd map length].
    repeat split.
    + now rewrite Hdep, H2.
    + rewrite H3. subst s1. cbn. lia.
    + eapply extendsWith_trans; [|exact H4].
      eexists. split; [reflexivity | apply Hall].
Qed.

(** The Linux pre-flight when the release file cannot be read. *)
Lemma preflight_unreadable (s : State) :
  platform w = "linux" -> osRelease w = None ->
  Auditor.ensurePackageManager w s
  = (Throw {| message := "Could not detect Linux distribution." |},
     logged [AppendLine "[Auditor] Performing pre-flight check for OS: linux"] s).
Proof.
  intros Hp Hos.
  unfold Auditor.ensurePackageManager, Auditor.detectLinuxDistribution,
    Auditor.readOsRelease, bind, tryCatch, appendLine, emit, throw.
  rewrite Hp, Hos. reflexivity.
Qed.

(** The Linux pre-flight when the release file names a distribution that
    is not supported. *)
Lemma preflight_unrecognized (content distro : string) (s : State) :
  platform w = "linux" -> osRelease w = Some content ->
  Auditor.distroOf content = Some distro ->
  Js.arrayIncludes Auditor.supportedDistros distro = false ->
  Auditor.ensurePackageManager w s
  = (Ok tt,
     logged [AppendLine "[Auditor] Performing pre-flight check for OS: linux";
             AppendLine ("[Auditor] WARNING: Detected unsupported Linux distribution: "
                         ++ distro ++ ".")] s).
Proof.
  intros Hp Hos Hdistro Hsupported.
  unfold Auditor.ensurePackageManager, Auditor.detectLinuxDistribution,
    Auditor.readOsRelease, bind, tryCatch, appendLine, emit, ret.
  rewrite Hp, Hos. cbn [String.eqb]. cbv iota beta.
  replace (("linux" =? "darwin")%string) with false by reflexivity.
  replace (("linux" =? "win32")%string) with false by reflexivity.
  replace (("linux" =? "linux")%string) with true by reflexivity.
  rewrite Hdistro, Hsupported.
  unfold logged. cbn. now rewrite <- app_assoc.
Qed.

End AuditorFacts.

(** C9: on Linux, when /etc/os-release cannot be read the audit aborts:
    [runAudit] returns null after reporting the fatal error, and no probe
    is run.  When the file is read and names a distribution that is not
    recognized, a warning is logged and the audit proceeds: it returns a
    result, with one probe run for each declared dependency, in order. *)
Theorem C9_unreadable_release_aborts_unrecognized_warns
        (w : World) (trim : string -> string) (coerce : string -> option string)
        (s : State) (on_linux : platform w = "linux") :
  let run := Auditor.runAudit w trim coerce s in
  (osRelease w = None ->
   run = (Ok None,
          logged [AppendLine "[Auditor] Starting system audit...";
                  AppendLine "[Auditor] Performing pre-flight check for OS: linux";
                  ShowErrorMessage
                    "Setup cannot continue: Could not detect Linux distribution.";
                  AppendLine "[Auditor] FATAL: Could not detect Linux distribution."] s)
   /\ spawned (snd run) = spawned s)
  /\ (forall content distro,
         osRelease w = Some content ->
         Auditor.distroOf content = Some distro ->
         Js.arrayIncludes Auditor.supportedDistros distro = false ->
         exists results rest,
           fst run = Ok (Some results)
           /\ map ar_dependency results = declaredDependencies w
           /\ spawned (snd run) = (length (declaredDependencies w) + spawned s)%nat
           /\ trace (snd run)
              = (trace s
                 ++ [AppendLine "[Auditor] Starting system audit...";
                     AppendLine "[Auditor] Performing pre-flight check for OS: linux";
                     AppendLine ("[Auditor] WARNING: Detected unsupported Linux distribution: "
                                 ++ distro ++ ".")]
                 ++ rest)%list).
Proof.
  intros run. subst run. split.
  - intros Hos.
    assert (Hrun : Auditor.runAudit w trim coerce s
                   = (Ok None,
                      logged [AppendLine "[Auditor] Starting system audit...";
                              AppendLine "[Auditor] Performing pre-flight check for OS: linux";
                              ShowErrorMessage
                                "Setup cannot continue: Could not detect Linux distribution.";
                              AppendLine "[Auditor] FATAL: Could not detect Linux distribution."]
                             s)).
    { unfold Auditor.runAudit, bind, tryCatch, appendLine, showErrorMessage, emit, ret.
      rewrite (preflight_unreadable w _ on_linux Hos).
      unfold logged. cbn. now rewrite <- !app_assoc. }
    rewrite Hrun. split; reflexivity.
  - intros content distro Hos Hdistro Hsupported.
    set (s1 := logged [AppendLine "[Auditor] Starting system audit...";
                       AppendLine "[Auditor] Performing pre-flight check for OS: linux";
                       AppendLine ("[Auditor] WARNING: Detected unsupported Linux distribution: "
                                   ++ distro ++ ".")] s).
    assert (Hrun : Auditor.runAudit w trim coerce s
                   = match Auditor.readConfigFile w s1 with
                     | (Ok (Some {| dependencies := Some (dep :: deps) |}), s2) =>
                         match Auditor.probeAll w trim coerce (dep :: deps)
                                 (logged [AppendLine ("[Auditor] Found "
                                                      ++ Js.showNat (length (dep :: deps))
                                                      ++ " dependencies to check.")] s2) with
                         | (Ok results, s3) =>
                             (Ok (Some results),
                              logged [AppendLine "[Auditor] System audit complete."] s3)
                         | (Throw e, s3) => (Throw e, s3)
                         | (Pending, s3) => (Pending, s3)
                         end
                     | (Ok _, s2) =>
                         (Ok (Some []),
                          logged [AppendLine "[Auditor] No dependencies found in config. Audit finished."] s2)
                     | (Throw e, s2) => (Throw e, s2)
                     | (Pending, s2) => (Pending, s2)
                     end).
    { unfold Auditor.runAudit, bind, tryCatch, appendLine, emit, ret.
      rewrite (preflight_unrecognized w content distro _ on_linux Hos Hdistro Hsupported).
      match goal with
      | |- context [Auditor.readConfigFile w (logged ?l ?r)] =>
          replace (logged l r) with s1
            by (subst s1; unfold logged; cbn; now rewrite <- app_assoc)
      end.
      destruct (Auditor.readConfigFile w s1) as [[[[[[|dep deps]|]]|]|e|] s2];
        reflexivity. }
    rewrite Hrun.
    destruct (readConfigFile_spec w s1) as (Hcfg & Hspawn & (log1 & Hlog1 & _)).
    unfold declaredDependencies.
    destruct (Auditor.readConfigFile w s1) as [config s2]. cbn [fst snd] in *.
    subst config.
    assert (Htrace1 : trace s2
                      = (trace s
                         ++ [AppendLine "[Auditor] Starting system audit...";
                             AppendLine "[Auditor] Performing pre-flight check for OS: linux";
                             AppendLine ("[Auditor] WARNING: Detected unsupported Linux distribution: "
                                         ++ distro ++ ".")]
                         ++ log1)%list).
    { rewrite Hlog1. subst s1. cbn [logged trace]. now rewrite <- app_assoc. }
    assert (Hspawn1 : spawned s2 = spawned s) by (rewrite Hspawn; reflexivity).
    assert (Hnone : exists rest,
               trace (logged [AppendLine "[Auditor] No dependencies found in config. Audit finished."] s2)
               = (trace s
                  ++ [AppendLine "[Auditor] Starting system audit...";
                      AppendLine "[Auditor] Performing pre-flight check for OS: linux";
                      AppendLine ("[Auditor] WARNING: Detected unsupported Linux distribution: "
                                  ++ distro ++ ".")]
                  ++ rest)%list).
    { eexists. cbn [logged trace]. rewrite Htrace1, <- !app_assoc. reflexivity. }
    destruct Hnone as (restNone & HrestNone).
    destruct (workspaceFolders w) as [folders|];
      [destruct (firstConfig folders) as [[[[|dep deps]|]]|]|];
      try (exists [], restNone; cbn [fst snd map length]; repeat split; assumption).
    set (s2' := logged [AppendLine ("[Auditor] Found " ++ Js.showNat (length (dep :: deps))
                                    ++ " dependencies to check.")] s2).
    destruct (probeAll_spec w trim coerce (dep :: deps) s2')
      as (results & Hok & Hdeps & Hspawn3 & (log3 & Hlog3 & _)).
    destruct (Auditor.probeAll w trim coerce (dep :: deps) s2') as [r s3].
    cbn [fst snd] in *. subst r.
    exists results. eexists. cbn [fst snd].
    repeat split; try assumption.
    + cbn [logged spawned]. rewrite Hspawn3. subst s2'. cbn [logged spawned].
      now rewrite Hspawn1.
    + cbn [logged trace]. rewrite Hlog3. subst s2'. cbn [logged trace].
      rewrite Htrace1, <- !app_assoc. reflexivity.
Qed.

(** A Gentoo host: the distribution is reported as unsupported and both
    declared dependencies are probed. *)
Lemma C9_witness_gentoo :
  exists results rest,
    fst (Auditor.runAudit (Scenario.linuxApt (fun _ _ => []) (Some Scenario.gentooRelease))
                          (fun out => out) (fun out => Some out) initialState)
    = Ok (Some results)
    /\ map ar_dependency results = [Scenario.node; Scenario.git]
    /\ spawned (snd (Auditor.runAudit
                       (Scenario.linuxApt (fun _ _ => []) (Some Scenario.gentooRelease))
                       (fun out => out) (fun out => Some out) initialState)) = 2
    /\ trace (snd (Auditor.runAudit
                     (Scenario.linuxApt (fun _ _ => []) (Some Scenario.gentooRelease))
                     (fun out => out) (fun out => Some out) initialState))
       = ([AppendLine "[Auditor] Starting system audit...";
           AppendLine "[Auditor] Performing pre-flight check for OS: linux";
           AppendLine "[Auditor] WARNING: Detected unsupported Linux distribution: gentoo."]
          ++ rest)%list.
Proof.
  exact (proj2 (C9_unreadable_release_aborts_unrecognized_warns
                  (Scenario.linuxApt (fun _ _ => []) (Some Scenario.gentooRelease))
                  (fun out => out) (fun out => Some out) initialState eq_refl)
               Scenario.gentooRelease "gentoo" eq_refl eq_refl eq_refl).
Defined.

(* ================================================================== *)
(** * Further properties of the code *)

(* ------------------------------------------------------------------ *)
(** ** Command resolution *)

(** Every entry of the catalogue names a package for Windows, macOS, apt,
    dnf and pacman, and has no name under the keys linux and unknown. *)
Lemma catalogue_complete (id : string) (names : list (string * option string)) :
  DependencyConfig.lookup id DependencyConfig.PACKAGE_NAMES = Some names ->
  (forall key, In key ["win32"; "darwin"; "apt"; "dnf"; "pacman"] ->
               exists pkg, DependencyConfig.lookup key names = Some (Some pkg)
                           /\ Js.truthy pkg = true)
  /\ DependencyConfig.lookup "unknown" names = None.
Proof.
  unfold DependencyConfig.PACKAGE_NAMES. cbn [DependencyConfig.lookup].
  repeat (destruct (String.eqb id _);
          [ intros H; injection H as <-; split;
            [ intros key [<-|[<-|[<-|[<-|[<-|[]]]]]]; eexists; split; reflexivity
            | reflexivity ]
          | ]).
  discriminate.
Qed.

Section CommandResolution.

Variable w : World.

Lemma packageName_of_supported (detected : option PackageManager) (id : string) :
  catalogued id = true ->
  supportedTarget (platform w) detected = true ->
  exists pkg, Executor.getPackageNameForPlatform detected id (platform w) = Some pkg.
Proof.
  unfold catalogued, supportedTarget, Executor.getPackageNameForPlatform.
  destruct (DependencyConfig.lookup id DependencyConfig.PACKAGE_NAMES) as [names|] eqn:Hid;
    [|discriminate].
  intros _ Hsupported.
  destruct (catalogue_complete id names Hid) as [Hkeys _].
  assert (Hfound : forall key, In key ["win32"; "darwin"; "apt"; "dnf"; "pacman"] ->
            exists pkg,
              match DependencyConfig.lookup key names with
              | Some (Some packageName) =>
                  if Js.truthy packageName then Some packageName else None
              | _ => None
              end = Some pkg).
  { intros key Hkey. destruct (Hkeys key Hkey) as (pkg & -> & ->). now exists pkg. }
  destruct (String.eqb_spec (platform w) "win32") as [Hp|_].
  { rewrite Hp. cbn [String.eqb Ascii.eqb Bool.eqb]. apply Hfound. simpl. auto 10. }
  destruct (String.eqb_spec (platform w) "darwin") as [Hp|_].
  { rewrite Hp. cbn [String.eqb Ascii.eqb Bool.eqb]. apply Hfound. simpl. auto 10. }
  cbn [orb] in Hsupported.
  destruct (String.eqb (platform w) "linux"); [|discriminate].
  destruct detected as [[| | |]|]; try discriminate; cbn [option_map managerName];
    apply Hfound; simpl; auto 10.
Qed.

Lemma install_command_needs_support (detected : option PackageManager)
      (dep : DependencyRequirement) :
  Executor.getInstallCommand w detected dep <> None ->
  catalogued (id dep) = true /\ supportedTarget (platform w) detected = true.
Proof.
  unfold Executor.getInstallCommand, Executor.getPackageNameForPlatform, catalogued,
    supportedTarget.
  cbv zeta.
  destruct (DependencyConfig.lookup (id dep) DependencyConfig.PACKAGE_NAMES);
    [|intros H; now elim H].
  destruct (String.eqb (platform w) "win32"); [now split|].
  destruct (String.eqb (platform w) "darwin"); [now split|].
  destruct (String.eqb (platform w) "linux").
  - destruct detected as [[| | |]|]; cbn; try (now split).
    destruct (match DependencyConfig.lookup "unknown" l with
              | Some (Some packageName) =>
                  if Js.truthy packageName then Some packageName else None
              | _ => None
              end); intros H; now elim H.
  - destruct (match DependencyConfig.lookup (platform w) l with
              | Some (Some packageName) =>
                  if Js.truthy packageName then Some packageName else None
              | _ => None
              end); intros H; now elim H.
Qed.

Lemma uninstall_command_needs_support (detected : option PackageManager)
      (dep : DependencyRequirement) :
  Executor.getUninstallCommand w detected dep <> None ->
  catalogued (id dep) = true /\ supportedTarget (platform w) detected = true.
Proof.
  unfold Executor.getUninstallCommand, Executor.getPackageNameForPlatform, catalogued,
    supportedTarget.
  cbv zeta.
  destruct (DependencyConfig.lookup (id dep) DependencyConfig.PACKAGE_NAMES);
    [|intros H; now elim H].
  destruct (String.eqb (platform w) "win32"); [now split|].
  destruct (String.eqb (platform w) "darwin"); [now split|].
  destruct (String.eqb (platform w) "linux").
  - destruct detected as [[| | |]|]; cbn; try (now split).
    destruct (match DependencyConfig.lookup "unknown" l with
              | Some (Some packageName) =>
                  if Js.truthy packageName then Some packageName else None
              | _ => None
              end); intros H; now elim H.
  - destruct (match DependencyConfig.lookup (platform w) l with
              | Some (Some packageName) =>
                  if Js.truthy packageName then Some packageName else None
              | _ => None
              end); intros H; now elim H.
Qed.

(** On a supported target the two builders wrap the same package name. *)
Lemma commands_of_package (detected : option PackageManager)
      (dep : DependencyRequirement) (pkg : string) :
  Executor.getPackageNameForPlatform detected (id dep) (platform w) = Some pkg ->
  supportedTarget (platform w) detected = true ->
  exists installPrefix uninstallPrefix,
    Executor.getInstallCommand w detected dep = Some (installPrefix ++ pkg)
    /\ Executor.getUninstallCommand w detected dep = Some (uninstallPrefix ++ pkg).
Proof.
  intros Hpkg. unfold Executor.getInstallCommand, Executor.getUninstallCommand,
    supportedTarget. cbv zeta. rewrite Hpkg.
  destruct (String.eqb (platform w) "win32"); [intros _; now do 2 eexists|].
  destruct (String.eqb (platform w) "darwin"); [intros _; now do 2 eexists|].
  destruct (String.eqb (platform w) "linux"); [|discriminate].
  destruct detected as [[| | |]|]; try discriminate; intros _; now do 2 eexists.
Qed.

End CommandResolution.

(** X1: an install command can be built exactly for a catalogued
    dependency on a supported target (Windows, macOS, or Linux with apt,
    dnf or pacman detected), and exactly then an uninstall command can be
    built too; both then wrap the same package name of the catalogue. *)
Theorem install_and_uninstall_commands_exist_together
        (w : World) (detected : option PackageManager) (dep : DependencyRequirement) :
  (Executor.getInstallCommand w detected dep <> None
   <-> catalogued (id dep) = true /\ supportedTarget (platform w) detected = true)
  /\ (Executor.getUninstallCommand w detected dep <> None
      <-> Executor.getInstallCommand w detected dep <> None)
  /\ (Executor.getInstallCommand w detected dep <> None ->
      exists pkg installPrefix uninstallPrefix,
        Executor.getPackageNameForPlatform detected (id dep) (platform w) = Some pkg
        /\ Executor.getInstallCommand w detected dep = Some (installPrefix ++ pkg)
        /\ Executor.getUninstallCommand w detected dep = Some (uninstallPrefix ++ pkg)).
Proof.
  assert (Hboth : catalogued (id dep) = true ->
                  supportedTarget (platform w) detected = true ->
                  exists pkg installPrefix uninstallPrefix,
                    Executor.getPackageNameForPlatform detected (id dep) (platform w)
                    = Some pkg
                    /\ Executor.getInstallCommand w detected dep
                       = Some (installPrefix ++ pkg)
                    /\ Executor.getUninstallCommand w detected dep
                       = Some (uninstallPrefix ++ pkg)).
  { intros Hcat Hsup.
    destruct (packageName_of_supported w detected (id dep) Hcat Hsup) as (pkg & Hpkg).
    destruct (commands_of_package w detected dep pkg Hpkg Hsup) as (pi & pu & Hi & Hu).
    now exists pkg, pi, pu. }
  split; [|split].
  - split; [apply install_command_needs_support|].
    intros [Hcat Hsup]. destruct (Hboth Hcat Hsup) as (pkg & pi & pu & _ & Hi & _).
    rewrite Hi. discriminate.
  - split.
    + intros Hu. destruct (uninstall_command_needs_support w detected dep Hu) as [Hcat Hsup].
      destruct (Hboth Hcat Hsup) as (pkg & pi & pu & _ & Hi & _). rewrite Hi. discriminate.
    + intros Hi. destruct (install_command_needs_support w detected dep Hi) as [Hcat Hsup].
      destruct (Hboth Hcat Hsup) as (pkg & pi & pu & _ & _ & Hu). rewrite Hu. discriminate.
  - intros Hi. destruct (install_command_needs_support w detected dep Hi) as [Hcat Hsup].
    now apply Hboth.
Qed.

(* ------------------------------------------------------------------ *)
(** ** Steps that cannot be resolved, and what a run costs *)

Section Unresolved.

Variable w : World.

Lemma install_without_command (terminal : option nat) (step : ActionStep) (s : State) :
  action step = INSTALL ->
  Executor.getInstallCommand w (detectedPackageManager s) (dependency step) = None ->
  Executor.executeStep w terminal step s
  = (Ok tt, logged (noCommandLog terminal step) s).
Proof.
  intros Haction Hnone. unfold noCommandLog. rewrite Haction, <- logged_logged.
  apply executeStep_caught
    with (e := {| message := Executor.noInstallCommand (dependency step) |}).
  unfold Executor.stepBody. rewrite Haction.
  unfold Executor.installDependency, bind, appendLine, showErrorMessage, emit,
    readDetected, throw.
  cbn [detectedPackageManager]. rewrite Hnone.
  f_equal. unfold logged. cbn. now rewrite <- app_assoc.
Qed.

Lemma reinstall_without_command (terminal : option nat) (step : ActionStep) (s : State) :
  action step = REINSTALL ->
  Executor.getUninstallCommand w (detectedPackageManager s) (dependency step) = None ->
  Executor.executeStep w terminal step s
  = (Ok tt, logged (noCommandLog terminal step) s).
Proof.
  intros Haction Hnone. unfold noCommandLog. rewrite Haction, <- logged_logged.
  apply executeStep_caught
    with (e := {| message := Executor.noUninstallCommand (dependency step) |}).
  unfold Executor.stepBody. rewrite Haction.
  unfold Executor.uninstallDependency, bind, appendLine, showErrorMessage, emit,
    readDetected, throw.
  cbn [detectedPackageManager]. rewrite Hnone.
  f_equal. unfold logged. cbn. now rewrite <- app_assoc.
Qed.

End Unresolved.

(** X2: a step that needs a command for a dependency the catalogue does
    not know, or on a target without templates, never runs anything: it
    shows the error dialog, is logged as failed under the name of the
    dependency, and returns, leaving every counter of the host as it was. *)
Theorem step_without_command_fails_locally
        (w : World) (terminal : option nat) (step : ActionStep) (s : State) :
  action step <> ALREADY_MET ->
  catalogued (id (dependency step)) = false
  \/ supportedTarget (platform w) (detectedPackageManager s) = false ->
  Executor.executeStep w terminal step s
  = (Ok tt, logged (noCommandLog terminal step) s)
  /\ In (AppendLine (Executor.failedMessage (dependency step)))
        (noCommandLog terminal step)
  /\ Forall noSpawn (noCommandLog terminal step).
Proof.
  intros Hneeded Hwhy.
  assert (Hi : Executor.getInstallCommand w (detectedPackageManager s) (dependency step)
               = None).
  { destruct (Executor.getInstallCommand w (detectedPackageManager s) (dependency step))
      eqn:Hcmd; [|reflexivity].
    destruct (install_command_needs_support w (detectedPackageManager s) (dependency step))
      as [Hcat Hsup]; [rewrite Hcmd; discriminate|].
    destruct Hwhy; congruence. }
  assert (Hu : Executor.getUninstallCommand w (detectedPackageManager s) (dependency step)
               = None).
  { destruct (Executor.getUninstallCommand w (detectedPackageManager s) (dependency step))
      eqn:Hcmd; [|reflexivity].
    destruct (uninstall_command_needs_support w (detectedPackageManager s)
                                              (dependency step))
      as [Hcat Hsup]; [rewrite Hcmd; discriminate|].
    destruct Hwhy; congruence. }
  split; [|split].
  - destruct (action step) eqn:Haction.
    + now apply install_without_command.
    + now apply reinstall_without_command.
    + now elim Hneeded.
  - unfold noCommandLog, failureLog. apply in_or_app. right. simpl. auto.
  - unfold noCommandLog, failureLog.
    destruct (action step), terminal; repeat constructor.
Qed.

(** A dependency missing from the catalogue, on macOS. *)
Lemma step_without_command_witness :
  Executor.executeStep Hosts.mac None (Scenario.stepFor Hosts.bun INSTALL) initialState
  = (Ok tt,
     logged [AppendLine "[Executor] Starting INSTALL for 'Bun'...";
             ShowErrorMessage
               "[Executor] ERROR: No install command configured for 'Bun' on this OS.";
             AppendLine
               "[Executor] FAILED step for 'Bun'. Check logs or terminal for details."]
            initialState).
Proof.
  refine (proj1 (step_without_command_fails_locally
                   Hosts.mac None (Scenario.stepFor Hosts.bun INSTALL) initialState _ _)).
  - discriminate.
  - left. reflexivity.
Defined.

Section RunCosts.

Variable w : World.

Lemma silentOnly_refl (s : State) : silentOnly s s.
Proof. repeat split. Qed.

Lemma silentOnly_trans (a b c : State) :
  silentOnly a b -> silentOnly b c -> silentOnly a c.
Proof.
  unfold silentOnly. intros (H1 & H2 & H3) (H4 & H5 & H6). repeat split; congruence.
Qed.

Lemma terminalOnly_refl (s : State) : terminalOnly s s.
Proof. repeat split. Qed.

Lemma terminalOnly_trans (a b c : State) :
  terminalOnly a b -> terminalOnly b c -> terminalOnly a c.
Proof.
  unfold terminalOnly. intros (H1 & H2) (H3 & H4). split; congruence.
Qed.

Ltac counters_leaf := intros ?; repeat split; reflexivity.

(** Without a terminal a step neither reads the clock nor submits
    anything. *)
Lemma executeStep_silentOnly (step : ActionStep) :
  respects silentOnly (Executor.executeStep w None step).
Proof.
  unfold_executor. frame_with silentOnly_refl silentOnly_trans counters_leaf.
Qed.

(** With a terminal a step spawns no process. *)
Lemma executeStep_terminalOnly (t : nat) (step : ActionStep) :
  respects terminalOnly (Executor.executeStep w (Some t) step).
Proof.
  unfold_executor. frame_with terminalOnly_refl terminalOnly_trans counters_leaf.
Qed.

Ltac off_leaf :=
  intros ?;
  first [ apply extendsWith_same; reflexivity
        | eapply extendsWith_one; [reflexivity | exact I] ].

Lemma executeStep_offTerminal (step : ActionStep) :
  respects (extendsWith offTerminal) (Executor.executeStep w None step).
Proof.
  unfold_executor.
  frame_with (extendsWith_refl offTerminal) (extendsWith_trans offTerminal) off_leaf.
Qed.

Lemma executeStep_noSpawn (t : nat) (step : ActionStep) :
  respects (extendsWith noSpawn) (Executor.executeStep w (Some t) step).
Proof.
  unfold_executor.
  frame_with (extendsWith_refl noSpawn) (extendsWith_trans noSpawn) off_leaf.
Qed.

Lemma detectAmong_spawns (managers : list PackageManager) (s : State) :
  spawned (snd (Executor.detectAmong w managers s))
  = (spawned s + checksRun w (spawned s) managers)%nat.
Proof.
  revert s. induction managers as [|m rest IH]; intros s.
  - cbn. lia.
  - assert (Hrun : Executor.detectAmong w (m :: rest) s
                   = if present w (spawned s) m
                     then (Ok tt,
                           snd (assignDetected m
                                  (logged [AppendLine ("[Executor] Detected: "
                                                       ++ managerName m)]
                                          (afterSilent w ("command -v " ++ managerName m) s))))
                     else Executor.detectAmong w rest
                            (afterSilent w ("command -v " ++ managerName m) s)).
    { cbn [Executor.detectAmong]. unfold bind at 1. rewrite probe_run.
      destruct (present w (spawned s) m); reflexivity. }
    rewrite Hrun. cbn [checksRun].
    destruct (present w (spawned s) m).
    + cbn. lia.
    + rewrite IH. cbn [afterSilent spawned]. lia.
Qed.

Lemma checksRun_bound (n : nat) (managers : list PackageManager) :
  (checksRun w n managers <= length managers)%nat.
Proof.
  revert n. induction managers as [|m rest IH]; intros n; cbn; [lia|].
  destruct (present w n m); [lia|]. specialize (IH (S n)). lia.
Qed.

Lemma detectLinuxPackageManager_spawns (s : State) :
  spawned (snd (Executor.detectLinuxPackageManager w s))
  = match detectedPackageManager s with
    | Some _ => spawned s
    | None => (spawned s + checksRun w (spawned s) [apt; dnf; pacman])%nat
    end.
Proof.
  destruct (detectedPackageManager s) as [m|] eqn:Hm.
  - now rewrite (detectLinuxPackageManager_resolved w m s Hm).
  - assert (Hrun : Executor.detectLinuxPackageManager w s
                   = Executor.detectAmong w [apt; dnf; pacman]
                       (logged [AppendLine "[Executor] Detecting Linux package manager..."] s)).
    { unfold Executor.detectLinuxPackageManager, bind, readDetected. now rewrite Hm. }
    rewrite Hrun, detectAmong_spawns. reflexivity.
Qed.

Lemma detectLinuxPackageManager_counters (s : State) :
  silentOnly s (snd (Executor.detectLinuxPackageManager w s)).
Proof.
  destruct (detectedPackageManager s) as [m|] eqn:Hm.
  - rewrite (detectLinuxPackageManager_resolved w m s Hm). apply silentOnly_refl.
  - destruct (detectLinuxPackageManager_fresh w s Hm) as (_ & _ & _ & _ & H5 & H6 & H7).
    repeat split; assumption.
Qed.

(** The counters when the loop starts. *)
Lemma stateAfterSetup_counters (plan : ActionPlan) (s : State) :
  submitted (stateAfterSetup w plan s) = submitted s
  /\ clockReads (stateAfterSetup w plan s) = clockReads s
  /\ terminals (stateAfterSetup w plan s)
     = (if String.eqb (platform w) "linux" then S (terminals s) else terminals s)
  /\ spawned (stateAfterSetup w plan s)
     = (if String.eqb (platform w) "linux"
        then match detectedPackageManager s with
             | Some _ => spawned s
             | None => (spawned s + checksRun w (spawned s) [apt; dnf; pacman])%nat
             end
        else spawned s).
Proof.
  unfold stateAfterSetup. destruct (String.eqb (platform w) "linux").
  - match goal with
    | |- context [Executor.detectLinuxPackageManager w ?s0] =>
        destruct (detectLinuxPackageManager_counters s0) as (H1 & H2 & H3);
        assert (H4 := detectLinuxPackageManager_spawns s0)
    end.
    repeat split; assumption.
  - repeat split.
Qed.

End RunCosts.

(** X3: the execution model is hybrid.  Off Linux a run creates no
    terminal, submits nothing to one and never reads the clock: all its
    commands are child processes.  On Linux a run creates exactly one
    terminal, and the only processes it spawns are the presence checks of
    the detection, at most three, none when the manager is already
    resolved: every step goes through the terminal. *)
Theorem run_is_silent_off_linux_and_interactive_on_linux
        (w : World) (plan : ActionPlan) (s : State) :
  let s' := snd (Executor.executePlan w plan s) in
  (platform w <> "linux" ->
   terminals s' = terminals s /\ submitted s' = submitted s
   /\ clockReads s' = clockReads s
   /\ extendsWith offTerminal s s')
  /\ (platform w = "linux" ->
      terminals s' = S (terminals s)
      /\ spawned s'
         = match detectedPackageManager s with
           | Some _ => spawned s
           | None => (spawned s + checksRun w (spawned s) [apt; dnf; pacman])%nat
           end
      /\ (spawned s' <= spawned s + 3)%nat
      /\ extendsWith noSpawn (stateAfterSetup w plan s) s').
Proof.
  intros s'. subst s'. rewrite executePlan_phases.
  destruct (stateAfterSetup_counters w plan s) as (Hsub & Hclock & Hterm & Hspawn).
  unfold terminalOfRun. split.
  - intros Hp. apply String.eqb_neq in Hp. rewrite Hp in *.
    assert (Hloop : respects silentOnly (forEach plan (Executor.executeStep w None))).
    { apply (respects_forEach _ silentOnly_refl silentOnly_trans).
      intros step. apply executeStep_silentOnly. }
    assert (Hlog : respects (extendsWith offTerminal)
                            (forEach plan (Executor.executeStep w None))).
    { apply (respects_forEach _ (extendsWith_refl offTerminal)
                              (extendsWith_trans offTerminal)).
      intros step. apply executeStep_offTerminal. }
    specialize (Hloop (stateAfterSetup w plan s)).
    specialize (Hlog (stateAfterSetup w plan s)).
    assert (Hsetup : extendsWith offTerminal s (stateAfterSetup w plan s)).
    { unfold stateAfterSetup. rewrite Hp.
      eapply extendsWith_one; [reflexivity | exact I]. }
    destruct Hloop as (H1 & H2 & H3).
    destruct (forEach plan (Executor.executeStep w None) (stateAfterSetup w plan s))
      as [[[]|e|] s2]; cbn [snd logged terminals submitted clockReads] in *;
      (repeat split; try congruence).
    + apply (extendsWith_trans _ s (stateAfterSetup w plan s)); [exact Hsetup|].
      apply (extendsWith_trans _ _ s2); [exact Hlog|].
      eexists. split; [reflexivity|]. repeat constructor.
    + apply (extendsWith_trans _ s (stateAfterSetup w plan s)); assumption.
    + apply (extendsWith_trans _ s (stateAfterSetup w plan s)); assumption.
  - intros Hp. rewrite Hp in *.
    replace (("linux" =? "linux")%string) with true in * by reflexivity.
    assert (Hloop : respects terminalOnly
                             (forEach plan (Executor.executeStep w (Some (terminals s))))).
    { apply (respects_forEach _ terminalOnly_refl terminalOnly_trans).
      intros step. apply executeStep_terminalOnly. }
    assert (Hlog : respects (extendsWith noSpawn)
                            (forEach plan (Executor.executeStep w (Some (terminals s))))).
    { apply (respects_forEach _ (extendsWith_refl noSpawn) (extendsWith_trans noSpawn)).
      intros step. apply executeStep_noSpawn. }
    specialize (Hloop (stateAfterSetup w plan s)).
    specialize (Hlog (stateAfterSetup w plan s)).
    assert (Hbound := checksRun_bound w (spawned s) [apt; dnf; pacman]).
    cbn [length] in Hbound.
    destruct Hloop as (H1 & H2).
    destruct (forEach plan (Executor.executeStep w (Some (terminals s)))
                      (stateAfterSetup w plan s))
      as [[[]|e|] s2]; cbn [snd logged terminals spawned] in *;
      (repeat split; try congruence;
       try (rewrite H1, Hspawn; destruct (detectedPackageManager s); lia);
       try assumption).
    apply (extendsWith_trans _ _ s2); [exact Hlog|].
    eexists. split; [reflexivity|]. repeat constructor.
Qed.

Lemma detectAmong_cons (w : World) (m : PackageManager) (rest : list PackageManager)
      (s : State) :
  Executor.detectAmong w (m :: rest) s
  = if present w (spawned s) m
    then (Ok tt,
          snd (assignDetected m
                 (logged [AppendLine ("[Executor] Detected: " ++ managerName m)]
                         (afterSilent w ("command -v " ++ managerName m) s))))
    else Executor.detectAmong w rest (afterSilent w ("command -v " ++ managerName m) s).
Proof.
  cbn [Executor.detectAmong]. unfold bind at 1. rewrite probe_run.
  destruct (present w (spawned s) m); reflexivity.
Qed.

(** X4: the detection stops at the first manager found: it runs one
    presence check when apt is there, two when dnf is the first, three
    otherwise, and logs the manager it found. *)
Theorem detection_stops_at_first_manager_found (w : World) (s : State) :
  detectedPackageManager s = None ->
  let s' := snd (Executor.detectLinuxPackageManager w s) in
  spawned s'
  = (spawned s
     + (if present w (spawned s) apt then 1
        else if present w (S (spawned s)) dnf then 2
        else 3))%nat
  /\ (forall m, detectedPackageManager s' = Some m -> m <> unknown ->
                In (AppendLine ("[Executor] Detected: " ++ managerName m)) (trace s')
                /\ present w (Nat.pred (spawned s')) m = true)
  /\ (detectedPackageManager s' = Some unknown ->
      present w (spawned s) apt = false
      /\ present w (S (spawned s)) dnf = false
      /\ present w (S (S (spawned s))) pacman = false).
Proof.
  intros Hnone s'. subst s'.
  assert (Hrun : Executor.detectLinuxPackageManager w s
                 = Executor.detectAmong w [apt; dnf; pacman]
                     (logged [AppendLine "[Executor] Detecting Linux package manager..."] s)).
  { unfold Executor.detectLinuxPackageManager, bind, readDetected. now rewrite Hnone. }
  rewrite Hrun. rewrite detectAmong_cons. cbn [logged spawned afterSilent].
  destruct (present w (spawned s) apt) eqn:Hapt.
  { cbn. split; [lia|]. split.
    - intros m Hm _. injection Hm as <-. split.
      + apply in_or_app. right. simpl. auto.
      + assumption.
    - discriminate. }
  rewrite detectAmong_cons. cbn [logged spawned afterSilent].
  destruct (present w (S (spawned s)) dnf) eqn:Hdnf.
  { cbn. split; [lia|]. split.
    - intros m Hm _. injection Hm as <-. split.
      + apply in_or_app. right. simpl. auto.
      + assumption.
    - discriminate. }
  rewrite detectAmong_cons. cbn [logged spawned afterSilent].
  destruct (present w (S (S (spawned s))) pacman) eqn:Hpacman.
  { cbn. split; [lia|]. split.
    - intros m Hm _. injection Hm as <-. split.
      + apply in_or_app. right. simpl. auto.
      + assumption.
    - discriminate. }
  cbn. split; [lia|]. split.
  - intros m Hm Hne. injection Hm as <-. now elim Hne.
  - intros _. repeat split.
Qed.

(** With apt present a single check is run. *)
Lemma detection_witness_apt :
  spawned (snd (Executor.detectLinuxPackageManager
                  (Scenario.linuxApt (fun _ _ => []) None) initialState)) = 1.
Proof.
  exact (proj1 (detection_stops_at_first_manager_found
                  (Scenario.linuxApt (fun _ _ => []) None) initialState eq_refl)).
Defined.

(** The line a step with a met requirement writes, and its echo. *)
Lemma met_step_run (w : World) (terminal : option nat) (step : ActionStep) (s : State) :
  action step = ALREADY_MET ->
  Executor.executeStep w terminal step s
  = (Ok tt,
     logged (AppendLine (Executor.skipMessage (dependency step))
             :: match terminal with
                | Some t => [SendText t ("echo " ++ Js.dq ++ "[INFO] "
                                         ++ Executor.skipMessage (dependency step)
                                         ++ Js.dq)]
                | None => []
                end) s).
Proof.
  intros Haction. unfold Executor.executeStep, Executor.stepBody, tryCatch.
  rewrite Haction. unfold bind, appendLine, Executor.whenTerminal, sendText, emit, ret.
  destruct terminal as [t|]; unfold logged; cbn; [rewrite <- app_assoc|]; reflexivity.
Qed.

Lemma met_loop (w : World) (terminal : option nat) (plan : ActionPlan) (s : State) :
  Forall (fun step => action step = ALREADY_MET) plan ->
  forEach plan (Executor.executeStep w terminal) s
  = (Ok tt,
     logged (concat (map (fun step =>
                            AppendLine (Executor.skipMessage (dependency step))
                            :: match terminal with
                               | Some t =>
                                   [SendText t ("echo " ++ Js.dq ++ "[INFO] "
                                                ++ Executor.skipMessage (dependency step)
                                                ++ Js.dq)]
                               | None => []
                               end) plan)) s).
Proof.
  revert s. induction plan as [|step rest IH]; intros s Hmet.
  - cbn. now rewrite logged_nil.
  - inversion Hmet as [|? ? Hstep Hrest]; subst.
    cbn [forEach map concat]. unfold bind.
    rewrite (met_step_run w terminal step s Hstep), (IH _ Hrest).
    now rewrite logged_logged.
Qed.

(** X5: a plan whose requirements are all met runs no install or
    uninstall command.  The run returns; after the setup its log is
    exactly one skip line per step, in the order of the plan, and then the
    completion marker.  On Linux each skip line is followed by an echo of
    it typed into the terminal; these notices and the closing success echo
    are all that is typed.  The loop spawns no process, reads no clock and
    awaits no marker. *)
Theorem met_plan_runs_no_command (w : World) (plan : ActionPlan) (s : State) :
  Forall (fun step => action step = ALREADY_MET) plan ->
  let terminal := terminalOfRun w s in
  let run := Executor.executePlan w plan s in
  let skip (step : ActionStep) :=
    "[Executor] Skipping '" ++ name (dependency step) ++ "' - Requirement already met." in
  let notice (step : ActionStep) :=
    AppendLine (skip step)
    :: match terminal with
       | Some t => [SendText t ("echo " ++ Js.dq ++ "[INFO] " ++ skip step ++ Js.dq)]
       | None => []
       end in
  let marker :=
    AppendLine "[Executor] Plan execution finished."
    :: match terminal with
       | Some t =>
           [SendText t
              ("echo " ++ Js.dq
               ++ "\n[SUCCESS] All setup tasks complete. You can now close this terminal."
               ++ Js.dq)]
       | None => []
       end in
  fst run = Ok tt
  /\ trace (snd run)
     = (trace (stateAfterSetup w plan s) ++ concat (map notice plan) ++ marker)%list
  /\ spawned (snd run) = spawned (stateAfterSetup w plan s)
  /\ clockReads (snd run) = clockReads s
  /\ submitted (snd run) = submitted s.
Proof.
  intros Hmet terminal run skip notice marker. subst run. rewrite executePlan_phases.
  fold terminal.
  rewrite (met_loop w terminal plan (stateAfterSetup w plan s) Hmet).
  destruct (stateAfterSetup_counters w plan s) as (Hsub & Hclock & _).
  cbn [fst snd logged submitted clockReads spawned trace].
  repeat split; try assumption.
  now rewrite <- app_assoc.
Qed.

(** On macOS, with both tools satisfied. *)
Lemma met_plan_witness :
  spawned (snd (Executor.executePlan Hosts.mac
                  [Scenario.stepFor Scenario.node ALREADY_MET;
                   Scenario.stepFor Scenario.git ALREADY_MET] initialState)) = 0.
Proof.
  refine (proj1 (proj2 (proj2
    (met_plan_runs_no_command Hosts.mac
       [Scenario.stepFor Scenario.node ALREADY_MET;
        Scenario.stepFor Scenario.git ALREADY_MET] initialState _)))).
  repeat constructor.
Defined.

(* ------------------------------------------------------------------ *)
(** ** The marker protocol, further *)


(** X7: an interactive command has no timeout: as long as no chunk from
    its own terminal contains its token, it stays pending, in the Executor
    and in the Auditor; chunks from other terminals never settle it, even
    when they contain the token. *)
Theorem interactive_command_waits_for_its_marker
        (w : World) (command : string) (terminal : nat) (s : State) :
  let commandId := Channel.commandId (dateNow w (clockReads s)) in
  let text := command ++ "; " ++ Channel.exitCodeCommand commandId in
  noneTriggers terminal commandId (terminalData w (submitted s) text) ->
  fst (Executor.runCommandInTerminal w command terminal s) = Pending
  /\ fst (Auditor.runCommandInTerminalAndWait w terminal command s) = Pending
  /\ Channel.deliver terminal commandId Channel.fresh
                     (terminalData w (submitted s) text) = Channel.fresh.
Proof.
  intros commandId text Hnone.
  assert (Hfresh : Channel.deliver terminal commandId Channel.fresh
                                   (terminalData w (submitted s) text) = Channel.fresh).
  { apply deliver_untriggered. now apply noneTriggers_untriggered. }
  split; [|split; [|exact Hfresh]].
  - destruct (runCommandInTerminal_run w command terminal s) as (Hr & _).
    rewrite Hr. fold commandId. fold text. now rewrite Hfresh.
  - rewrite runCommandInTerminalAndWait_run. fold commandId. fold text.
    now rewrite Hfresh.
Qed.

(** The complete marker printed in another terminal is ignored. *)
Lemma interactive_command_witness_other_terminal :
  fst (Executor.runCommandInTerminal
         (Scenario.linuxApt
            (fun _ _ => [ {| ev_terminal := 1; ev_data := Scenario.token ++ ":0" |} ]) None)
         "sudo apt-get install -y git" 0 initialState) = Pending.
Proof.
  refine (proj1 (interactive_command_waits_for_its_marker
                   (Scenario.linuxApt
                      (fun _ _ => [ {| ev_terminal := 1;
                                       ev_data := Scenario.token ++ ":0" |} ]) None)
                   "sudo apt-get install -y git" 0 initialState _)).
  intros e [<-|[]]. left. discriminate.
Defined.

(** X8: the promise of an interactive command is settled at most once:
    after any sequence of events the listener is either still subscribed
    and unsettled, or disposed and settled, and then no further event
    changes it. *)
Theorem listener_settles_at_most_once
        (terminal : nat) (commandId : string) (events : list TerminalDataWriteEvent) :
  let l := Channel.deliver terminal commandId Channel.fresh events in
  (Channel.subscribed l = true /\ Channel.settlement l = None)
  \/ (Channel.subscribed l = false
      /\ (exists outcome, Channel.settlement l = Some outcome)
      /\ forall more,
          Channel.deliver terminal commandId Channel.fresh (events ++ more) = l).
Proof.
  intros l. subst l.
  destruct (first_trigger terminal commandId events)
    as [Hnone|(before & e & after & -> & Hbefore & He)].
  - left. rewrite deliver_untriggered by assumption. now split.
  - right. rewrite deliver_first_trigger by assumption.
    split; [reflexivity|]. split; [now eexists|].
    intros more. rewrite <- app_assoc. cbn [app].
    now apply deliver_first_trigger.
Qed.

(* ------------------------------------------------------------------ *)
(** ** Exit codes: from the echo of the shell back to a number *)

(** X9: an exit status below 2^53, which covers every status a shell
    reports, is read back exactly by the listener of the Executor and of
    the Auditor: when the first occurrence of token-colon in a chunk is
    followed by the decimal numeral of the status n and then by no further
    digit, the extracted exit code is n, and the listener is disposed with
    the promise resolved for 0 and rejected with n, rendered by the same
    numeral, otherwise.  The bound is sharp, since parseInt yields a
    double: 2^53 + 1 is read as 2^53, and a run of 22 digits is rendered
    with an exponent. *)
Theorem exit_status_round_trip
        (terminal : nat) (commandId pre post : string) (n : Z) :
  (0 <= n < 2 ^ 53)%Z ->
  Js.takeDigits post = "" ->
  (forall k, (k < String.length pre)%nat ->
             String.prefix (commandId ++ ":")
               (Js.drop k (pre ++ (commandId ++ ":") ++ Js.showZ n ++ post)) = false) ->
  let data := pre ++ (commandId ++ ":") ++ Js.showZ n ++ post in
  Channel.exitCodeOf commandId data = Js.Finite n
  /\ Channel.onDidWriteTerminalData terminal commandId Channel.fresh
       {| ev_terminal := terminal; ev_data := data |}
     = {| Channel.subscribed := false;
          Channel.settlement := Some (if Z.eqb n 0 then Channel.Resolved
                                      else Channel.Rejected (Js.Finite n)) |}
  /\ Js.showNumber (Js.Finite n) = Js.showZ n
  /\ Js.parseInt "9007199254740993" = Js.Finite 9007199254740992
  /\ Js.showNumber (Js.parseInt "1000000000000000000000") = "1e+21".
Proof.
  intros Hn Hpost Hfirst data.
  destruct (takeDigits_showZ n (proj1 Hn)) as [Hdigits Hnonempty].
  assert (Hcode : Channel.exitCodeOf commandId data = Js.Finite n).
  { unfold Channel.exitCodeOf. subst data.
    rewrite (matchLiteralDigits_first_occurrence (commandId ++ ":") pre (Js.showZ n) post)
      by assumption.
    now apply parseInt_showZ. }
  split; [exact Hcode|]. split.
  - unfold Channel.onDidWriteTerminalData, Channel.triggers. cbn.
    rewrite Nat.eqb_refl. cbn [andb].
    assert (Hin : Js.includes data commandId = true)
      by (subst data; apply includes_marker).
    rewrite Hin, Hcode. reflexivity.
  - split; [apply showNumber_safe; lia|]. split; vm_compute; reflexivity.
Qed.

(** Exit status 127, after a prompt. *)
Lemma exit_status_witness_127 :
  Channel.exitCodeOf Scenario.token ("$ " ++ (Scenario.token ++ ":") ++ "127" ++ " ")
  = Js.Finite 127.
Proof.
  refine (proj1 (exit_status_round_trip 0 Scenario.token "$ " " " 127 _ eq_refl _)).
  - lia.
  - intros k Hk. destruct k as [|[|k]]; [reflexivity | reflexivity | simpl in Hk; lia].
Defined.

Section TokenAlphabet.

Lemma list_ascii_of_append (a b : string) :
  list_ascii_of_string (a ++ b)
  = (list_ascii_of_string a ++ list_ascii_of_string b)%list.
Proof. induction a as [|c a IH]; cbn; [reflexivity | now rewrite IH]. Qed.

Lemma uint_is_literal (d : Decimal.uint) :
  forallb (fun a => negb (regexMeta a))
          (list_ascii_of_string (NilEmpty.string_of_uint d)) = true.
Proof.
  induction d; cbn [NilEmpty.string_of_uint list_ascii_of_string forallb];
    try reflexivity;
    (replace (negb (regexMeta _)) with true by reflexivity); exact IHd.
Qed.

End TokenAlphabet.

(** X10: the marker token never contains a character that is special in
    a regular expression, whatever the clock reads, so the pattern built
    from it matches the token literally. *)
Theorem token_has_no_regex_metacharacter (t : Z) :
  forallb (fun a => negb (regexMeta a))
          (list_ascii_of_string (Channel.commandId t)) = true.
Proof.
  unfold Channel.commandId, Js.showZ.
  rewrite list_ascii_of_append, forallb_app. apply andb_true_intro. split.
  - reflexivity.
  - destruct (Z.to_int t) as [d|d]; cbn [NilEmpty.string_of_int].
    + apply uint_is_literal.
    + cbn [list_ascii_of_string forallb].
      (replace (negb (regexMeta "-")) with true by reflexivity). apply uint_is_literal.
Qed.

(* ------------------------------------------------------------------ *)
(** ** The audit as a whole *)

Section AuditPhases.

Variable w : World.
Variable trim : string -> string.
Variable coerce : string -> option string.

(** [runAudit] is its pre-flight followed by the probing of the declared
    dependencies, or by the report of the fatal error. *)
Lemma runAudit_phases (s : State) :
  Auditor.runAudit w trim coerce s
  = match Auditor.ensurePackageManager w
            (logged [AppendLine "[Auditor] Starting system audit..."] s) with
    | (Ok _, s1) => auditDeclared w trim coerce s1
    | (Throw error, s1) => (Ok None, logged (fatalLog error) s1)
    | (Pending, s1) => (Pending, s1)
    end.
Proof.
  unfold Auditor.runAudit, auditDeclared, fatalLog.
  unfold bind at 1. unfold appendLine at 1, emit at 1.
  unfold bind at 1. unfold tryCatch. unfold bind at 1.
  change {| detectedPackageManager := detectedPackageManager s;
            assignments := assignments s;
            trace := (trace s ++ [AppendLine "[Auditor] Starting system audit..."])%list;
            spawned := spawned s;
            submitted := submitted s;
            clockReads := clockReads s;
            terminals := terminals s |}
    with (logged [AppendLine "[Auditor] Starting system audit..."] s).
  destruct (Auditor.ensurePackageManager w
              (logged [AppendLine "[Auditor] Starting system audit..."] s))
    as [[[]|error|] s1]; cbn [ret]; try reflexivity.
  unfold bind, showErrorMessage, appendLine, emit, ret, logged. cbn.
  now rewrite <- app_assoc.
Qed.

Lemma auditDeclared_spec (s : State) :
  exists results,
    fst (auditDeclared w trim coerce s) = Ok (Some results)
    /\ map ar_dependency results = declaredDependencies w
    /\ spawned (snd (auditDeclared w trim coerce s))
       = (length (declaredDependencies w) + spawned s)%nat.
Proof.
  unfold auditDeclared, declaredDependencies, bind, appendLine, emit, ret.
  destruct (readConfigFile_spec w s) as (Hcfg & Hspawn & _).
  destruct (Auditor.readConfigFile w s) as [config s2]. cbn [fst snd] in *.
  subst config.
  destruct (workspaceFolders w) as [folders|];
    [destruct (firstConfig folders) as [[[[|dep deps]|]]|]|];
    try (exists []; cbn; repeat split; exact Hspawn).
  cbv zeta.
  match goal with
  | |- context [Auditor.probeAll w trim coerce (dep :: deps) ?s0] =>
      destruct (probeAll_spec w trim coerce (dep :: deps) s0)
        as (results & Hok & Hdeps & Hspawn3 & _);
      destruct (Auditor.probeAll w trim coerce (dep :: deps) s0) as [r s3]
  end.
  cbn [fst snd spawned] in *. subst r.
  exists results. cbn. repeat split; [exact Hdeps|]. rewrite Hspawn3, Hspawn. reflexivity.
Qed.

End AuditPhases.

(** X11: the [try] of [runAudit] covers the pre-flight, and nothing else.
    [runAudit] returns null exactly when the pre-flight rejects, whatever
    the error: it then shows and logs the message of the error, reads no
    configuration and probes nothing.  While the pre-flight is pending, so
    is the audit.  When the pre-flight succeeds the audit never returns
    null: it goes on, from the state the pre-flight leaves, to read the
    configuration and to probe what the configuration declares. *)
Theorem audit_outcome_follows_preflight
        (w : World) (trim : string -> string) (coerce : string -> option string)
        (s : State) :
  let preflight := Auditor.ensurePackageManager w
                     (logged [AppendLine "[Auditor] Starting system audit..."] s) in
  let run := Auditor.runAudit w trim coerce s in
  (fst run = Ok None <-> exists e, fst preflight = Throw e)
  /\ (forall e, fst preflight = Throw e ->
        run = (Ok None,
               logged [ShowErrorMessage ("Setup cannot continue: " ++ message e);
                       AppendLine ("[Auditor] FATAL: " ++ message e)] (snd preflight)))
  /\ (fst preflight = Pending -> run = (Pending, snd preflight))
  /\ (fst preflight = Ok tt ->
      run = auditDeclared w trim coerce (snd preflight)
      /\ fst run <> Ok None).
Proof.
  intros preflight run. subst preflight run. rewrite runAudit_phases.
  destruct (Auditor.ensurePackageManager w
              (logged [AppendLine "[Auditor] Starting system audit..."] s))
    as [[[]|error|] s1]; cbn [fst snd].
  - destruct (auditDeclared_spec w trim coerce s1) as (results & Hok & _).
    rewrite Hok. repeat split; try discriminate.
    intros (e & He). discriminate.
  - repeat split; try discriminate.
    + intros _. now exists error.
    + intros e He. injection He as <-. reflexivity.
  - repeat split; try discriminate.
    intros (e & He). discriminate.
Qed.

(** X12: on a platform other than macOS, Windows and Linux the audit
    aborts at once: it returns null, naming the platform in the error, and
    spawns no process. *)
Theorem audit_aborts_on_unsupported_platform
        (w : World) (trim : string -> string) (coerce : string -> option string)
        (s : State) :
  platform w <> "darwin" -> platform w <> "win32" -> platform w <> "linux" ->
  Auditor.runAudit w trim coerce s
  = (Ok None,
     logged [AppendLine "[Auditor] Starting system audit...";
             AppendLine ("[Auditor] Performing pre-flight check for OS: " ++ platform w);
             ShowErrorMessage ("Setup cannot continue: Unsupported operating system: "
                               ++ platform w);
             AppendLine ("[Auditor] FATAL: Unsupported operating system: " ++ platform w)]
            s).
Proof.
  intros Hd Hw Hl. rewrite runAudit_phases.
  unfold Auditor.ensurePackageManager, bind, appendLine, emit, throw.
  apply String.eqb_neq in Hd, Hw, Hl. rewrite Hd, Hw, Hl.
  unfold fatalLog, logged. cbn. now rewrite <- !app_assoc.
Qed.

Lemma audit_witness_freebsd :
  fst (Auditor.runAudit Hosts.freebsd (fun out => out) (fun out => Some out) initialState)
  = Ok None.
Proof.
  rewrite (audit_aborts_on_unsupported_platform
             Hosts.freebsd (fun out => out) (fun out => Some out) initialState);
    [reflexivity | discriminate | discriminate | discriminate].
Defined.

(* ------------------------------------------------------------------ *)
(** ** The pre-flight on each platform *)

Lemma checkWinget_run (w : World) (s : State) :
  Auditor.checkWinget w s
  = match exec_error (cp_exec w (spawned s) "winget --version") with
    | None =>
        (Ok tt,
         logged [AppendLine "[Auditor] Winget is installed."]
                (snd (exec w "winget --version" s)))
    | Some _ =>
        if match wingetDialogResponse w with
           | Some response => String.eqb response "Open Microsoft Store"
           | None => false
           end
        then (Throw {| message := "Opened Microsoft Store. Please install "
                                  ++ Js.dq ++ "App Installer" ++ Js.dq
                                  ++ " and re-run the setup." |},
              logged [AppendLine "[Auditor] Winget not found. Prompting user...";
                      ShowErrorMessage
                        "Windows Package Manager (winget) is not installed, but it is required for this extension to work.";
                      OpenExternal "ms-windows-store://pdp/?productid=9NBLGGH4NNS1"]
                     (snd (exec w "winget --version" s)))
        else (Throw {| message := "User cancelled setup. Winget installation is required." |},
              logged [AppendLine "[Auditor] Winget not found. Prompting user...";
                      ShowErrorMessage
                        "Windows Package Manager (winget) is not installed, but it is required for this extension to work."]
                     (snd (exec w "winget --version" s)))
    end.
Proof.
  unfold Auditor.checkWinget, Auditor.executeCommand, Auditor.openStore,
    bind, tryCatch, appendLine, showErrorMessage, openExternal, emit, exec, throw, ret,
    logged.
  cbn [fst snd spawned detectedPackageManager assignments trace submitted clockReads
       terminals].
  destruct (exec_error (cp_exec w (spawned s) "winget --version")) as [error|];
    [|reflexivity].
  destruct (wingetDialogResponse w) as [response|];
    [destruct (String.eqb response "Open Microsoft Store")|];
    cbn [fst snd spawned detectedPackageManager assignments trace submitted clockReads
         terminals];
    rewrite <- ?app_assoc; reflexivity.
Qed.

Lemma ensurePackageManager_win32 (w : World) (s : State) :
  platform w = "win32" ->
  Auditor.ensurePackageManager w s
  = Auditor.checkWinget w
      (logged [AppendLine "[Auditor] Performing pre-flight check for OS: win32"] s).
Proof.
  intros Hp. unfold Auditor.ensurePackageManager, bind, appendLine, emit. rewrite Hp.
  reflexivity.
Qed.

(** X13: on Windows without winget the audit always aborts, whatever the
    user answers in the dialog: [runAudit] returns null after the one
    presence check, and the store page is opened exactly when the user chose
    the store button.  With winget present the pre-flight succeeds. *)
Theorem audit_aborts_without_winget
        (w : World) (trim : string -> string) (coerce : string -> option string)
        (s : State) :
  platform w = "win32" ->
  let found := exec_error (cp_exec w (spawned s) "winget --version") in
  let run := Auditor.runAudit w trim coerce s in
  (found = None ->
   fst (Auditor.ensurePackageManager w s) = Ok tt)
  /\ (found <> None ->
      fst run = Ok None
      /\ spawned (snd run) = S (spawned s)
      /\ exists log,
          trace (snd run) = (trace s ++ log)%list
          /\ In (ShowErrorMessage
                   "Windows Package Manager (winget) is not installed, but it is required for this extension to work.")
                log
          /\ (In (OpenExternal "ms-windows-store://pdp/?productid=9NBLGGH4NNS1") log
              <-> wingetDialogResponse w = Some "Open Microsoft Store")).
Proof.
  intros Hp found run. subst found run. split.
  - intros Hfound. rewrite (ensurePackageManager_win32 w s Hp), checkWinget_run.
    cbn [logged spawned]. now rewrite Hfound.
  - intros Hmissing.
    rewrite runAudit_phases, (ensurePackageManager_win32 w _ Hp), checkWinget_run.
    cbn [logged spawned].
    destruct (exec_error (cp_exec w (spawned s) "winget --version")) as [error|];
      [|now elim Hmissing].
    destruct (wingetDialogResponse w) as [response|].
    + destruct (String.eqb_spec response "Open Microsoft Store") as [->|Hne];
        cbn [fst snd spawned trace logged exec fatalLog message];
        (split; [reflexivity|]); (split; [reflexivity|]);
        eexists; (split; [rewrite <- !app_assoc; reflexivity|]); split.
      * simpl. auto 10.
      * split; [reflexivity|]. intros _. simpl. auto 10.
      * simpl. auto 10.
      * split.
        -- simpl. intros H. repeat (destruct H as [H|H]; try discriminate H).
           contradiction.
        -- intros H. injection H as H. now elim Hne.
    + cbn [fst snd spawned trace logged exec fatalLog message].
      (split; [reflexivity|]); (split; [reflexivity|]).
      eexists. (split; [rewrite <- !app_assoc; reflexivity|]). split.
      * simpl. auto 10.
      * split; [|discriminate].
        simpl. intros H. repeat (destruct H as [H|H]; try discriminate H).
        contradiction.
Qed.

Lemma audit_witness_no_winget :
  fst (Auditor.runAudit AuditHosts.windowsNoWinget (fun out => out) (fun out => Some out)
                        initialState) = Ok None.
Proof.
  refine (proj1 (proj2 (audit_aborts_without_winget
                          AuditHosts.windowsNoWinget (fun out => out)
                          (fun out => Some out) initialState eq_refl) _)).
  discriminate.
Defined.

Lemma ensurePackageManager_darwin (w : World) (s : State) :
  platform w = "darwin" ->
  Auditor.ensurePackageManager w s
  = Auditor.checkAndInstallHomebrew w
      (logged [AppendLine "[Auditor] Performing pre-flight check for OS: darwin"] s).
Proof.
  intros Hp. unfold Auditor.ensurePackageManager, bind, appendLine, emit. rewrite Hp.
  reflexivity.
Qed.

Lemma executeCommand_run (w : World) (command : string) (s : State) :
  Auditor.executeCommand w command s
  = (match exec_error (cp_exec w (spawned s) command) with
     | Some _ =>
         Throw {| message :=
                    if Js.truthy (Auditor.streamText Stderr
                                    (exec_output (cp_exec w (spawned s) command)))
                    then Auditor.streamText Stderr
                           (exec_output (cp_exec w (spawned s) command))
                    else "Command failed" |}
     | None => Ok (Auditor.streamText Stdout (exec_output (cp_exec w (spawned s) command)))
     end,
     snd (exec w command s)).
Proof.
  unfold Auditor.executeCommand, bind, exec, throw, ret. cbn [fst snd spawned].
  destruct (exec_error (cp_exec w (spawned s) command)); reflexivity.
Qed.

Lemma runCommandInTerminalAndWait_state (w : World) (terminal : nat) (command : string)
      (s : State) :
  snd (Auditor.runCommandInTerminalAndWait w terminal command s)
  = afterSend [AppendLine ("[Auditor] > Sending to terminal: " ++ command);
               SendText terminal
                        (command ++ "; "
                         ++ Channel.exitCodeCommand
                              (Channel.commandId (dateNow w (clockReads s))))] s.
Proof.
  unfold Auditor.runCommandInTerminalAndWait, bind, now, sendText, appendLine, emit,
    awaitTerminalData, throw, ret, afterSend.
  cbn [fst snd spawned detectedPackageManager assignments trace submitted clockReads
       terminals].
  destruct (Channel.settlement _) as [[|code]|]; cbn [snd]; now rewrite <- app_assoc.
Qed.

Ltac in_trace :=
  solve [ cbn [In]; auto 6
        | apply in_or_app; right; in_trace
        | apply in_or_app; left; in_trace ].

(** X14: on macOS the pre-flight succeeds only if a presence check found
    Homebrew: the first one, or the one repeated after the installer.  When
    the first check finds it, nothing is installed: no terminal is created
    and nothing is sent; otherwise one terminal is created and the
    installer is sent to it followed by the marker command. *)
Theorem homebrew_preflight_is_sound (w : World) (s : State) :
  platform w = "darwin" ->
  let brewAt n := exec_error (cp_exec w n "command -v brew") in
  let run := Auditor.ensurePackageManager w s in
  (fst run = Ok tt -> brewAt (spawned s) = None \/ brewAt (S (spawned s)) = None)
  /\ (brewAt (spawned s) = None ->
      fst run = Ok tt
      /\ trace (snd run)
         = (trace s
            ++ [AppendLine "[Auditor] Performing pre-flight check for OS: darwin";
                Exec "command -v brew";
                AppendLine "[Auditor] Homebrew is installed."])%list
      /\ terminals (snd run) = terminals s
      /\ submitted (snd run) = submitted s)
  /\ (brewAt (spawned s) <> None ->
      terminals (snd run) = S (terminals s)
      /\ submitted (snd run) = S (submitted s)
      /\ In (SendText (terminals s)
                      (Auditor.homebrewInstallCommand ++ "; "
                       ++ Channel.exitCodeCommand
                            (Channel.commandId (dateNow w (clockReads s)))))
            (trace (snd run))).
Proof.
  intros Hp brewAt run. subst brewAt run.
  rewrite (ensurePackageManager_darwin w s Hp).
  set (s0 := logged [AppendLine "[Auditor] Performing pre-flight check for OS: darwin"] s).
  remember (Auditor.checkAndInstallHomebrew w s0) as run eqn:Hrun.
  unfold Auditor.checkAndInstallHomebrew in Hrun.
  unfold tryCatch at 1 in Hrun. unfold bind at 1 in Hrun.
  rewrite executeCommand_run in Hrun.
  change (spawned s0) with (spawned s) in Hrun.
  revert Hrun.
  destruct (exec_error (cp_exec w (spawned s) "command -v brew")) as [error|]; intros Hrun.
  - (* Homebrew is missing: the installer runs in a terminal. *)
    cbv beta iota in Hrun.
    unfold bind at 1 in Hrun. unfold appendLine at 1, emit at 1 in Hrun.
    unfold bind at 1 in Hrun. unfold showInformationMessage at 1, emit at 1 in Hrun.
    unfold bind at 1 in Hrun. unfold createTerminal at 1 in Hrun.
    unfold bind at 1 in Hrun. unfold terminalShow at 1, emit at 1 in Hrun.
    cbn [fst snd spawned detectedPackageManager assignments trace submitted clockReads
         terminals exec s0 logged] in Hrun.
    unfold bind at 1 in Hrun. unfold tryCatch at 1 in Hrun. unfold bind at 1 in Hrun.
    revert Hrun.
    match goal with
    | |- context [Auditor.runCommandInTerminalAndWait w ?t ?c ?s3] =>
        assert (Hstate := runCommandInTerminalAndWait_state w t c s3);
        destruct (Auditor.runCommandInTerminalAndWait w t c s3) as [[[]|e|] s4];
        cbn [snd] in Hstate; subst s4
    end; intros Hrun;
      cbn [fst snd spawned detectedPackageManager assignments trace submitted clockReads
           terminals afterSend] in Hrun.
    + unfold appendLine at 1, emit at 1 in Hrun.
      cbn [fst snd spawned detectedPackageManager assignments trace submitted clockReads
           terminals] in Hrun.
      unfold tryCatch at 1 in Hrun. unfold bind at 1 in Hrun.
      rewrite executeCommand_run in Hrun.
      cbn [fst snd spawned detectedPackageManager assignments trace submitted clockReads
           terminals exec afterSend] in Hrun.
      revert Hrun.
      destruct (exec_error (cp_exec w (S (spawned s)) "command -v brew")) as [error2|];
        intros Hrun; cbv beta iota in Hrun;
        unfold bind, appendLine, showInformationMessage, emit, throw in Hrun;
        cbn [fst snd spawned detectedPackageManager assignments trace submitted
             clockReads terminals afterSend] in Hrun;
        subst run; cbn [fst snd terminals submitted trace].
      * split; [discriminate|]. split; [intros H; discriminate H|].
        intros _. repeat split.
        in_trace.
      * split; [intros _; now right|]. split; [intros H; discriminate H|].
        intros _. repeat split.
        in_trace.
    + unfold throw in Hrun. subst run. cbn [fst snd terminals submitted trace].
      split; [discriminate|]. split; [intros H; discriminate H|].
      intros _. repeat split. in_trace.
    + subst run. cbn [fst snd terminals submitted trace].
      split; [discriminate|]. split; [intros H; discriminate H|].
      intros _. repeat split. in_trace.
  - (* Homebrew is there. *)
    cbv beta iota in Hrun. unfold appendLine, emit in Hrun.
    cbn [fst snd spawned detectedPackageManager assignments trace submitted clockReads
         terminals exec s0 logged] in Hrun.
    subst run. cbn [fst snd terminals submitted trace].
    split; [intros _; now left|]. split.
    + intros _. repeat split. now rewrite <- !app_assoc.
    + intros H. now elim H.
Qed.

Lemma homebrew_witness_present :
  terminals (snd (Auditor.ensurePackageManager AuditHosts.macWithBrew initialState)) = 0.
Proof.
  refine (proj1 (proj2 (proj2 (proj1 (proj2 (homebrew_preflight_is_sound
                                               AuditHosts.macWithBrew initialState
                                               eq_refl))
                                     eq_refl)))).
Defined.

(* ------------------------------------------------------------------ *)
(** ** Reading the Linux distribution *)

Section Splitting.

Lemma split_nonempty (c : ascii) (s : string) : Js.split c s <> [].
Proof.
  induction s as [|a s IH]; cbn; [discriminate|].
  destruct (Ascii.eqb a c); [discriminate|].
  destruct (Js.split c s); [now elim IH | discriminate].
Qed.

Lemma hasChar_cons (c a : ascii) (s : string) :
  hasChar c (String a s) = Ascii.eqb c a || hasChar c s.
Proof. reflexivity. Qed.

(** A string without the separator is a single piece. *)
Lemma split_single (c : ascii) (s : string) :
  hasChar c s = false -> Js.split c s = [s].
Proof.
  induction s as [|a s IH]; [reflexivity|].
  rewrite hasChar_cons. intros H. apply orb_false_elim in H. destruct H as [Ha Hs].
  cbn. rewrite Ascii.eqb_sym, Ha. now rewrite (IH Hs).
Qed.

(** Splitting undoes one join. *)
Lemma split_append (c : ascii) (piece rest : string) :
  hasChar c piece = false ->
  Js.split c (piece ++ String c rest) = piece :: Js.split c rest.
Proof.
  induction piece as [|a piece IH].
  - intros _. cbn. now rewrite Ascii.eqb_refl.
  - rewrite hasChar_cons. intros H. apply orb_false_elim in H. destruct H as [Ha Hs].
    cbn. rewrite Ascii.eqb_sym, Ha. now rewrite (IH Hs).
Qed.

(** Splitting undoes joining, for pieces without the separator. *)
Lemma split_concat (c : ascii) (pieces : list string) :
  pieces <> [] ->
  forallb (fun piece => negb (hasChar c piece)) pieces = true ->
  Js.split c (String.concat (String c "") pieces) = pieces.
Proof.
  induction pieces as [|piece rest IH]; [intros H; now elim H|].
  intros _ Hclean. cbn [forallb] in Hclean. apply andb_prop in Hclean.
  destruct Hclean as [Hpiece Hrest]. apply negb_true_iff in Hpiece.
  destruct rest as [|next rest].
  - cbn. now apply split_single.
  - change (String.concat (String c "") (piece :: next :: rest))
      with (piece ++ String c (String.concat (String c "") (next :: rest))).
    rewrite split_append by assumption. f_equal. apply IH; [discriminate | exact Hrest].
Qed.

Lemma removeAll_clean (c : ascii) (s : string) : hasChar c (Js.removeAll c s) = false.
Proof.
  induction s as [|a s IH]; [reflexivity|]. cbn [Js.removeAll].
  destruct (Ascii.eqb a c) eqn:Ha; [exact IH|].
  rewrite hasChar_cons, Ascii.eqb_sym, Ha. exact IH.
Qed.

(** A line that starts with ID= has a second piece when split at the
    equals sign. *)
Lemma split_id_line (line : string) :
  Js.startsWith line "ID=" = true ->
  exists value rest, Js.split "="%char line = "ID" :: value :: rest.
Proof.
  unfold Js.startsWith.
  destruct line as [|a [|b [|c tail]]]; cbn [String.prefix]; try discriminate.
  - destruct (ascii_dec "I" a); discriminate.
  - destruct (ascii_dec "I" a); [|discriminate]. destruct (ascii_dec "D" b); discriminate.
  - destruct (ascii_dec "I" a) as [<-|]; [|discriminate].
    destruct (ascii_dec "D" b) as [<-|]; [|discriminate].
    destruct (ascii_dec "=" c) as [<-|]; [|discriminate].
    intros _. cbn.
    destruct (Js.split "=" tail) as [|value rest] eqn:Hs;
      [now elim (split_nonempty "="%char tail) | now exists value, rest].
Qed.

End Splitting.

(** The TypeError path of [detectLinuxDistribution] cannot be taken. *)
Lemma distroOf_total (content : string) : exists distro, Auditor.distroOf content = Some distro.
Proof.
  unfold Auditor.distroOf, Js.find.
  destruct (find (fun line => Js.startsWith line "ID=") (Js.split Js.lf content))
    as [idLine|] eqn:Hfind; [|now eexists].
  apply find_some in Hfind. destruct Hfind as [_ Hstarts].
  destruct (split_id_line idLine Hstarts) as (value & rest & ->).
  cbn. now eexists.
Qed.

(** X15: on Linux the pre-flight fails exactly when /etc/os-release cannot
    be read; a file that is read never aborts the audit, whatever it
    contains: its distribution is logged as supported, or with a warning.
    The pre-flight spawns no process and touches no terminal. *)
Theorem linux_preflight_fails_only_when_unreadable (w : World) (s : State) :
  platform w = "linux" ->
  let run := Auditor.ensurePackageManager w s in
  (fst run = Ok tt <-> osRelease w <> None)
  /\ (osRelease w = None ->
      fst run = Throw {| message := "Could not detect Linux distribution." |})
  /\ spawned (snd run) = spawned s
  /\ submitted (snd run) = submitted s
  /\ terminals (snd run) = terminals s
  /\ (forall content, osRelease w = Some content ->
        exists distro,
          Auditor.distroOf content = Some distro
          /\ trace (snd run)
             = (trace s
                ++ [AppendLine "[Auditor] Performing pre-flight check for OS: linux";
                    AppendLine
                      (if Js.arrayIncludes Auditor.supportedDistros distro
                       then "[Auditor] Detected supported Linux distribution: " ++ distro
                       else "[Auditor] WARNING: Detected unsupported Linux distribution: "
                            ++ distro ++ ".")])%list).
Proof.
  intros Hp run. subst run.
  unfold Auditor.ensurePackageManager, Auditor.detectLinuxDistribution,
    Auditor.readOsRelease, bind, tryCatch, appendLine, emit, throw, ret.
  rewrite Hp.
  replace (("linux" =? "darwin")%string) with false by reflexivity.
  replace (("linux" =? "win32")%string) with false by reflexivity.
  replace (("linux" =? "linux")%string) with true by reflexivity.
  cbv iota.
  destruct (osRelease w) as [content|].
  - destruct (distroOf_total content) as (distro & Hdistro). rewrite Hdistro.
    destruct (Js.arrayIncludes Auditor.supportedDistros distro) eqn:Hsupported;
      cbv beta iota; cbn [fst snd spawned submitted terminals trace];
      (split; [split; [discriminate | reflexivity] |]);
      (split; [discriminate |]);
      (do 3 (split; [reflexivity |]));
      intros content' Hc; injection Hc as <-; exists distro;
      (split; [exact Hdistro | now rewrite Hsupported, <- app_assoc]).
  - cbv beta iota. cbn [fst snd spawned submitted terminals trace].
    split; [split; [discriminate | intros H; now elim H] |].
    split; [reflexivity |].
    do 3 (split; [reflexivity |]).
    intros content Hc. discriminate.
Qed.

(** X16: the distribution is the value of the first line that starts
    with ID=, with every double quote removed: for a file made of lines
    joined by line feeds, whose first ID= line carries a value without an
    equals sign, [distroOf] returns that value without its quotes. *)
Theorem distroOf_reads_first_id_line (lines : list string) (value : string) :
  lines <> [] ->
  forallb (fun line => negb (hasChar Js.lf line)) lines = true ->
  Js.find (fun line => Js.startsWith line "ID=") lines = Some ("ID=" ++ value) ->
  hasChar "="%char value = false ->
  Auditor.distroOf (String.concat (String Js.lf "") lines)
  = Some (Js.removeAll Js.dquote value)
  /\ hasChar Js.dquote (Js.removeAll Js.dquote value) = false.
Proof.
  intros Hlines Hclean Hfind Hvalue. split; [|apply removeAll_clean].
  unfold Auditor.distroOf. rewrite split_concat by assumption. rewrite Hfind.
  change ("ID=" ++ value) with ("ID" ++ String "="%char value).
  rewrite split_append by reflexivity.
  rewrite (split_single "="%char value Hvalue). reflexivity.
Qed.

Lemma distroOf_witness_ubuntu :
  Auditor.distroOf (String.concat (String Js.lf "") AuditHosts.ubuntuRelease)
  = Some "ubuntu".
Proof.
  refine (proj1 (distroOf_reads_first_id_line
                   AuditHosts.ubuntuRelease (Js.dq ++ "ubuntu" ++ Js.dq) _ eq_refl eq_refl
                   eq_refl)).
  discriminate.
Defined.

Lemma linux_preflight_witness_ubuntu :
  fst (Auditor.ensurePackageManager AuditHosts.ubuntu initialState) = Ok tt.
Proof.
  refine (proj2 (proj1 (linux_preflight_fails_only_when_unreadable
                          AuditHosts.ubuntu initialState eq_refl)) _).
  discriminate.
Defined.

(* ------------------------------------------------------------------ *)
(** ** Probes, and the plan made from them *)

Section Probes.

Variable w : World.
Variable trim : string -> string.
Variable coerce : string -> option string.

Lemma checkSingleDependency_run (dep : DependencyRequirement) (s : State) :
  Auditor.checkSingleDependency w trim coerce dep s
  = (Ok {| ar_dependency := dep;
           isInstalled := probeOk w (spawned s) dep;
           installedVersion :=
             if probeOk w (spawned s) dep
             then coerce (trim (Auditor.streamText Stdout
                                  (exec_output (cp_exec w (spawned s) (probeCommand dep)))))
             else None |},
     snd (exec w (probeCommand dep) s)).
Proof.
  unfold Auditor.checkSingleDependency, probeOk, probeCommand, bind, exec, ret.
  cbn [fst snd spawned].
  destruct (exec_error (cp_exec w (spawned s) (cliName dep ++ " " ++ versionFlag dep)));
    reflexivity.
Qed.

Lemma probeAll_results (deps : list DependencyRequirement) (s : State) :
  exists results,
    fst (Auditor.probeAll w trim coerce deps s) = Ok results
    /\ length results = length deps
    /\ forall i r, nth_error results i = Some r ->
         exists dep,
           nth_error deps i = Some dep
           /\ ar_dependency r = dep
           /\ isInstalled r = probeOk w (spawned s + i) dep
           /\ installedVersion r
              = if probeOk w (spawned s + i) dep
                then coerce (trim (Auditor.streamText Stdout
                                     (exec_output (cp_exec w (spawned s + i)
                                                           (probeCommand dep)))))
                else None.
Proof.
  revert s. induction deps as [|dep rest IH]; intros s.
  - exists []. cbn. repeat split. intros [|i] r H; discriminate.
  - set (s1 := snd (exec w (probeCommand dep) s)).
    destruct (IH s1) as (results & Hok & Hlen & Hnth).
    assert (Hwhole : fst (Auditor.probeAll w trim coerce (dep :: rest) s)
                     = Ok ({| ar_dependency := dep;
                              isInstalled := probeOk w (spawned s) dep;
                              installedVersion :=
                                if probeOk w (spawned s) dep
                                then coerce (trim (Auditor.streamText Stdout
                                                     (exec_output
                                                        (cp_exec w (spawned s)
                                                                 (probeCommand dep)))))
                                else None |} :: results)).
    { cbn [Auditor.probeAll]. unfold bind. rewrite checkSingleDependency_run.
      fold s1. destruct (Auditor.probeAll w trim coerce rest s1) as [[rs| |] s2];
        cbn [fst] in Hok; try discriminate.
      injection Hok as ->. reflexivity. }
    eexists. split; [exact Hwhole|]. split; [cbn; now rewrite Hlen|].
    intros [|i] r Hr.
    + cbn in Hr. injection Hr as <-. exists dep. rewrite Nat.add_0_r.
      repeat split.
    + cbn [nth_error] in Hr |- *.
      destruct (Hnth i r Hr) as (dep' & H1 & H2 & H3 & H4).
      exists dep'. subst s1. cbn [exec snd spawned] in H3, H4.
      replace (spawned s + S i)%nat with (S (spawned s) + i)%nat by lia.
      repeat split; assumption.
Qed.

End Probes.

(** X17: when the probes have all reported, so that [probeAll] yields
    its results, there is one result per dependency, in order; the i-th
    result is installed exactly when the i-th probe process reported no
    error, carries the coerced version of its trimmed standard output in
    that case, and no version at all otherwise. *)
Theorem probe_results_follow_the_processes
        (w : World) (trim : string -> string) (coerce : string -> option string)
        (deps : list DependencyRequirement) (s : State) (results : list AuditResult) :
  fst (Auditor.probeAll w trim coerce deps s) = Ok results ->
  length results = length deps
  /\ forall i r, nth_error results i = Some r ->
       exists dep,
         nth_error deps i = Some dep
         /\ ar_dependency r = dep
         /\ (isInstalled r = true
             <-> exec_error (cp_exec w (spawned s + i)
                                     (cliName dep ++ " " ++ versionFlag dep)) = None)
         /\ (isInstalled r = false -> installedVersion r = None)
         /\ (isInstalled r = true ->
             installedVersion r
             = coerce (trim (Auditor.streamText Stdout
                               (exec_output (cp_exec w (spawned s + i)
                                                     (cliName dep ++ " "
                                                      ++ versionFlag dep)))))).
Proof.
  intros Hresults.
  destruct (probeAll_results w trim coerce deps s) as (results' & Hok & Hlen & Hnth).
  rewrite Hok in Hresults. injection Hresults as <-.
  split; [exact Hlen|].
  intros i r Hr. destruct (Hnth i r Hr) as (dep & H1 & H2 & H3 & H4).
  exists dep. split; [exact H1|]. split; [exact H2|].
  rewrite H3, H4. unfold probeOk, probeCommand.
  destruct (exec_error (cp_exec w (spawned s + i) (cliName dep ++ " " ++ versionFlag dep)));
    repeat split; try discriminate; try reflexivity.
Qed.

(** On macOS with both tools present: two probes, two results. *)
Lemma probe_results_witness :
  length [ {| ar_dependency := Scenario.node; isInstalled := true;
              installedVersion := Some "" |};
           {| ar_dependency := Scenario.git; isInstalled := true;
              installedVersion := Some "" |} ] = 2.
Proof.
  refine (proj1 (probe_results_follow_the_processes
                   Hosts.mac (fun out => out) (fun out => Some out)
                   [Scenario.node; Scenario.git] initialState _ eq_refl)).
Defined.

Lemma determineAction_install (satisfies : string -> string -> bool) (r : AuditResult) :
  action (Planner.determineAction satisfies r) = INSTALL <-> isInstalled r = false.
Proof.
  unfold Planner.determineAction. destruct (isInstalled r); cbn [negb].
  - destruct (Planner.compatible _ _ _); cbn; split; discriminate.
  - cbn. split; reflexivity.
Qed.

(** X18: audit and plan compose: the plan made from the probe results has
    one step per dependency, in order, and its i-th step is INSTALL exactly
    when the i-th probe process failed. *)
Theorem plan_installs_what_the_probes_did_not_find
        (satisfies : string -> string -> bool)
        (w : World) (trim : string -> string) (coerce : string -> option string)
        (deps : list DependencyRequirement) (s : State) :
  match fst (Auditor.probeAll w trim coerce deps s) with
  | Ok results =>
      let plan := Planner.createActionPlan satisfies results in
      map dependency plan = deps
      /\ forall i step, nth_error plan i = Some step ->
           exists dep,
             nth_error deps i = Some dep
             /\ dependency step = dep
             /\ (action step = INSTALL
                 <-> exec_error (cp_exec w (spawned s + i)
                                         (cliName dep ++ " " ++ versionFlag dep)) <> None)
  | _ => False
  end.
Proof.
  destruct (probeAll_results w trim coerce deps s) as (results & Hok & Hlen & Hnth).
  destruct (probeAll_spec w trim coerce deps s) as (results' & Hok' & Hdeps & _).
  rewrite Hok in Hok' |- *. injection Hok' as <-.
  cbv zeta. rewrite createActionPlan_map. split.
  - rewrite map_map. rewrite <- Hdeps. apply map_ext.
    intros r. apply determineAction_dependency.
  - intros i step Hstep. rewrite nth_error_map in Hstep.
    destruct (nth_error results i) as [r|] eqn:Hr; [|discriminate].
    cbn in Hstep. injection Hstep as <-.
    destruct (Hnth i r Hr) as (dep & H1 & H2 & H3 & _).
    exists dep. split; [exact H1|].
    split; [now rewrite determineAction_dependency|].
    rewrite determineAction_install, H3. unfold probeOk, probeCommand.
    destruct (exec_error (cp_exec w (spawned s + i) (cliName dep ++ " " ++ versionFlag dep)));
      split; try discriminate; try reflexivity.
    intros H. now elim H.
Qed.

(* ------------------------------------------------------------------ *)
(** ** Planner and configuration: edge cases *)

(** X19: an installed tool whose version is absent or the empty string is
    never taken as met, whatever the range check would say of it: the
    step is REINSTALL and its reason cites the version as unknown. *)
Theorem missing_version_is_never_met
        (satisfies : string -> string -> bool) (result : AuditResult) :
  isInstalled result = true ->
  installedVersion result = None \/ installedVersion result = Some "" ->
  let step := Planner.determineAction satisfies result in
  action step = REINSTALL
  /\ reason step
     = name (ar_dependency result)
       ++ " is installed at an incompatible version (unknown). Version "
       ++ requiredVersion (ar_dependency result) ++ " is required.".
Proof.
  intros Hinstalled Hversion step. subst step.
  unfold Planner.determineAction, Planner.compatible, Planner.versionOrUnknown.
  rewrite Hinstalled. destruct Hversion as [-> | ->]; cbn; split; reflexivity.
Qed.

Lemma missing_version_witness :
  action (Planner.determineAction AuditHosts.satisfiesAll
            (Scenario.nodeAudit true (Some ""))) = REINSTALL.
Proof.
  refine (proj1 (missing_version_is_never_met AuditHosts.satisfiesAll
                   (Scenario.nodeAudit true (Some "")) eq_refl _)).
  now right.
Defined.

(** X20: the configuration is that of the first workspace folder whose
    file is read and parsed: the folders after it are never consulted, and
    the path of the file found is logged. *)
Theorem first_usable_configuration_wins
        (w : World) (before after : list WorkspaceFolder) (folder : WorkspaceFolder)
        (config : option DevSetupConfig) (s : State) :
  Forall unusable before ->
  configRead folder = ConfigParsed config ->
  fst (Auditor.readConfigIn w (before ++ folder :: after) s) = Ok config
  /\ Auditor.readConfigIn w (before ++ folder :: after) s
     = Auditor.readConfigIn w (before ++ [folder]) s
  /\ In (AppendLine ("[Auditor] Found config file at: "
                     ++ pathJoin w (fsPath folder) ".devsetup.json"))
        (trace (snd (Auditor.readConfigIn w (before ++ folder :: after) s))).
Proof.
  intros Hbefore Hfolder. revert s.
  induction before as [|skipped before IH]; intros s.
  - cbn [app Auditor.readConfigIn]. rewrite Hfolder.
    unfold bind, appendLine, emit, ret. cbn. repeat split.
    apply in_or_app. right. simpl. auto.
  - inversion Hbefore as [|? ? Hskipped Hrest]; subst.
    specialize (IH Hrest).
    cbn [app Auditor.readConfigIn]. unfold unusable in Hskipped.
    destruct (configRead skipped); try contradiction.
    + apply IH.
    + unfold bind, appendLine, emit. apply IH.
    + unfold bind, appendLine, emit. apply IH.
Qed.

Lemma first_configuration_witness :
  fst (Auditor.readConfigIn Hosts.mac AuditHosts.folders initialState)
  = Ok (Some {| dependencies := Some [Scenario.node] |}).
Proof.
  refine (proj1 (first_usable_configuration_wins
                   Hosts.mac
                   [ {| fsPath := "/a"; configRead := ConfigMissing |} ]
                   [ {| fsPath := "/c";
                        configRead := ConfigParsed
                                        (Some {| dependencies := Some [Scenario.git] |}) |} ]
                   {| fsPath := "/b";
                      configRead := ConfigParsed
                                      (Some {| dependencies := Some [Scenario.node] |}) |}
                   (Some {| dependencies := Some [Scenario.node] |})
                   initialState _ eq_refl)).
  repeat constructor.
Defined.
